(** * GitHub Release Manager: the release orchestration, embedded and verified

    A shallow embedding of the typed GitHub client ([PluginApiClient]) and of
    the flows built on it (release-candidate creation, promotion, patch,
    tag dates, card rendering).

    - A promise is an [Outcome]: resolved with a value or rejected with the
      thrown value.
    - An [async] function is a state-passing function over a [World] that
      holds the trace of everything that left the browser (requests and
      user callbacks, each with whether it resolved) and the ResponseStep log.
    - GitHub itself is an oracle: its answer to a request may depend on
      everything that was sent before. *)

From Stdlib Require Import String Ascii List Bool Arith Lia DecimalString QArith.
Import ListNotations.
Local Close Scope Q_scope.
Local Open Scope nat_scope.
Local Open Scope list_scope.
Local Open Scope string_scope.

Set Implicit Arguments.

(** ** JavaScript values *)

(** The double quote, for template literals that contain one. *)
Definition dq : string := String (ascii_of_nat 34) EmptyString.

(** The line feed of multi-line template literals. *)
Definition nl : string := String (ascii_of_nat 10) EmptyString.

(** The rocket emoji (U+1F680), in UTF-8. *)
Definition rocket : string :=
  String (ascii_of_nat 240) (String (ascii_of_nat 159)
    (String (ascii_of_nat 154) (String (ascii_of_nat 128) EmptyString))).

(** [`${n}`] for a number that is a natural. *)
Definition string_of_nat (n : nat) : string :=
  NilEmpty.string_of_uint (Nat.to_uint n).

(** [`${s}`] for [string | null]. *)
Definition string_of_nullable (s : option string) : string :=
  match s with Some x => x | None => "null" end.

(** [a ?? b] *)
Definition nullish {A} (a : option A) (b : A) : A :=
  match a with Some x => x | None => b end.

(** What is thrown.  Octokit rejects with an HttpError that carries the
    HTTP [status] and, as its message, the message of GitHub's answer; the
    plugin throws GitHubReleaseManagerError, which only has a message.
    [error_body_message] is [error.body.message], for an error that has a
    [body]: the hooks look there. *)
Record JsError := {
  error_name : string;
  error_message : string;
  error_status : option nat;
  error_body_message : option string
}.

Definition GitHubReleaseManagerError (message : string) : JsError :=
  {| error_name := "GitHubReleaseManagerError";
     error_message := message;
     error_status := None;
     error_body_message := None |}.

Definition RequestError (status : nat) (message : string) : JsError :=
  {| error_name := "HttpError";
     error_message := message;
     error_status := Some status;
     error_body_message := None |}.

(** Reading a property of [undefined] or [null]. *)
Definition TypeError (message : string) : JsError :=
  {| error_name := "TypeError";
     error_message := message;
     error_status := None;
     error_body_message := None |}.

(** [error.status === n] *)
Definition status_is (e : JsError) (n : nat) : bool :=
  match error_status e with Some s => Nat.eqb s n | None => false end.

(** [error?.body?.message === m] *)
Definition body_message_is (e : JsError) (m : string) : bool :=
  match error_body_message e with Some s => String.eqb s m | None => false end.

(** A settled promise. *)
Inductive Outcome (A : Type) : Type :=
| Resolved (a : A)
| Rejected (e : JsError).
Arguments Resolved {A} a.
Arguments Rejected {A} e.

Definition resolved {A} (o : Outcome A) : bool :=
  match o with Resolved _ => true | Rejected _ => false end.

(** A value whose shape is not known before it is read: an object is the
    list of its own properties. *)
#[warnings="-register-all"] Inductive JsValue :=
| JsUndefined
| JsNull
| JsString (s : string)
| JsObject (fields : list (string * JsValue)).

(** [`${v}`] *)
Definition toString (v : JsValue) : string :=
  match v with
  | JsUndefined => "undefined"
  | JsNull => "null"
  | JsString s => s
  | JsObject _ => "[object Object]"
  end.

(** A value where a [string | undefined] is expected. *)
Definition stringValue (v : JsValue) : option string :=
  match v with JsString s => Some s | _ => None end.

Fixpoint getProperty (fields : list (string * JsValue)) (key : string)
  : JsValue :=
  match fields with
  | [] => JsUndefined
  | (k, v) :: rest => if String.eqb k key then v else getProperty rest key
  end.

(** [v.key], also the [const { key } = v] of a destructuring: a property
    that is not there reads as [undefined]; reading one of [undefined] or of
    [null] throws a TypeError (the text of its message is the engine's). *)
Definition member (v : JsValue) (key : string) : Outcome JsValue :=
  match v with
  | JsObject fields => Resolved (getProperty fields key)
  | JsString _ => Resolved JsUndefined
  | JsUndefined =>
      Rejected (TypeError ("Cannot read property '" ++ key
                             ++ "' of undefined"))
  | JsNull =>
      Rejected (TypeError ("Cannot read property '" ++ key ++ "' of null"))
  end.

(** ** What Octokit sends and receives *)

Definition Headers := list (string * string).

Record TaggerParams := {
  tagger_date : string;
  tagger_name : option string;
  tagger_email : option string
}.

Inductive Request :=
| PaginateReposListForOrg (org : string) (per_page : nat)
| PaginateReposListForUser (username : string) (per_page : nat)
| ReposListReleases (owner repo : string) (per_page : nat) (headers : Headers)
| ReposGetCommit (owner repo ref : string) (headers : Headers)
| GitCreateRef (owner repo ref sha : string)
| GitCreateTag (owner repo tag message object type : string)
               (tagger : TaggerParams)
| ReposCompareCommits (owner repo base head : string)
| ReposCreateRelease (owner repo tag_name name target_commitish body : string)
                     (prerelease : bool)
| ReposUpdateRelease (owner repo : string) (release_id : nat)
                     (tag_name : string) (body : option string)
                     (prerelease : option bool)
| GitCreateCommit (owner repo message tree : string) (parents : list string)
| GitUpdateRef (owner repo ref sha : string) (force : bool)
| ReposMerge (owner repo base head : string)
| GitGetTag (owner repo tag_sha : string).

Record RepoData := { repo_name : string }.

Record ReleaseData := {
  release_id : nat;
  release_name : option string;
  release_tag_name : string;
  release_target_commitish : string;
  release_prerelease : bool;
  release_html_url : string;
  release_body : option string
}.

Record GitUser := { user_date : option string }.

Record CommitData := {
  commit_sha : string;
  commit_html_url : string;
  commit_message : string;
  commit_author : option GitUser;
  commit_committer : option GitUser
}.

Record RefData := { ref_ref : string; ref_object_sha : string }.

Record TagData := {
  tag_tag : string;
  tag_sha : string;
  tag_tagger_date : string;
  tag_tagger_name : string;
  tag_tagger_email : string
}.

Record CompareData := { compare_html_url : string; compare_ahead_by : nat }.

Record GitCommitData := { gitcommit_message : string; gitcommit_sha : string }.

Record MergeData := {
  merge_html_url : string;
  merge_commit_message : string;
  merge_commit_tree_sha : string
}.

(** The [data] of the response to each request. *)
Definition ResponseData (r : Request) : Type :=
  match r with
  | PaginateReposListForOrg _ _ => list RepoData
  | PaginateReposListForUser _ _ => list RepoData
  | ReposListReleases _ _ _ _ => list ReleaseData
  | ReposGetCommit _ _ _ _ => CommitData
  | GitCreateRef _ _ _ _ => RefData
  | GitCreateTag _ _ _ _ _ _ _ => TagData
  | ReposCompareCommits _ _ _ _ => CompareData
  | ReposCreateRelease _ _ _ _ _ _ _ => ReleaseData
  | ReposUpdateRelease _ _ _ _ _ _ => ReleaseData
  | GitCreateCommit _ _ _ _ _ => GitCommitData
  | GitUpdateRef _ _ _ _ _ => RefData
  | ReposMerge _ _ _ _ => MergeData
  | GitGetTag _ _ _ => TagData
  end.

(** ** Success callbacks *)

Record CreateRcSuccess := {
  rc_comparisonUrl : string;
  rc_createdTag : string;
  rc_gitHubReleaseName : option string;
  rc_gitHubReleaseUrl : string;
  rc_previousTag : option string
}.

(** The four fields about the promoted release are whatever the hook has
    read from it. *)
Record PromoteRcSuccess := {
  pr_gitHubReleaseUrl : JsValue;
  pr_gitHubReleaseName : JsValue;
  pr_previousTagUrl : string;
  pr_previousTag : string;
  pr_updatedTagUrl : JsValue;
  pr_updatedTag : JsValue
}.

(** ** The world an async function runs in *)

Record ResponseStep := {
  message : string;
  secondaryMessage : option string;
  link : option string;
  icon : option string
}.

Inductive Event :=
| Sent (r : Request) (ok : bool)
| CreateRcSuccessCb (payload : CreateRcSuccess) (ok : bool)
| PromoteRcSuccessCb (payload : PromoteRcSuccess) (ok : bool).

Definition History := list Event.

Definition event_ok (e : Event) : bool :=
  match e with
  | Sent _ ok => ok
  | CreateRcSuccessCb _ ok => ok
  | PromoteRcSuccessCb _ ok => ok
  end.

Record World := {
  trace : History;
  responseSteps : list ResponseStep
}.

Definition emit (e : Event) (w : World) : World :=
  {| trace := (trace w ++ [e])%list; responseSteps := responseSteps w |}.

Definition newWorld : World := {| trace := []; responseSteps := [] |}.

(** What the client cannot decide by itself: the OAuth api, the GitHub
    server, the clock of [new Date()], and the [DISABLE_CACHE] request
    options (imported from constants, spread into the read requests). *)
Record Env := {
  getAccessToken : History -> Outcome string;
  github : forall (h : History) (r : Request), Outcome (ResponseData r);
  now : History -> string;
  DISABLE_CACHE : Headers
}.

(** ** Async functions *)

Definition Async (A : Type) : Type := World -> Outcome A * World.

Definition ret {A} (a : A) : Async A := fun w => (Resolved a, w).

Definition throw {A} (e : JsError) : Async A := fun w => (Rejected e, w).

(** [const x = await m; k x] *)
Definition bind {A B} (m : Async A) (k : A -> Async B) : Async B :=
  fun w =>
    match m w with
    | (Resolved a, w') => k a w'
    | (Rejected e, w') => (Rejected e, w')
    end.

(** [m.catch(handler)], and [try { m } catch (error) { handler }] *)
Definition catch {A} (m : Async A) (handler : JsError -> Async A) : Async A :=
  fun w =>
    match m w with
    | (Resolved a, w') => (Resolved a, w')
    | (Rejected e, w') => handler e w'
    end.

Declare Scope async_scope.
Delimit Scope async_scope with async.
Notation "x <- m ;; k" := (bind m (fun x => k))
  (at level 61, m at next level, right associativity) : async_scope.
Notation "m ;; k" := (bind m (fun _ => k))
  (at level 61, right associativity) : async_scope.
Local Open Scope async_scope.

(** A step that settles at once and touches nothing. *)
Definition settled {A} (o : Outcome A) : Async A := fun w => (o, w).

(** One Octokit call: the request leaves the browser, the server answers. *)
Definition send (env : Env) (r : Request) : Async (ResponseData r) :=
  fun w =>
    let o := github env (trace w) r in
    (o, emit (Sent r (resolved o)) w).

(** ** PluginApiClient *)

Record GitHubIntegrationConfig := {
  config_host : string;
  config_apiBaseUrl : option string
}.

Module PluginApiClient.

(** [configs.find(pred)] is [List.find]; [host.startsWith('ghe.')] is
    [String.prefix]. *)
Definition getGithubIntegrationConfig (configs : list GitHubIntegrationConfig)
  : option GitHubIntegrationConfig :=
  let githubIntegrationEnterpriseConfig :=
    find (fun v => String.prefix "ghe." (config_host v)) configs in
  let githubIntegrationConfig :=
    find (fun v => String.eqb (config_host v) "github.com") configs in
  (* Prioritize enterprise configs if available *)
  match githubIntegrationEnterpriseConfig with
  | Some c => Some c
  | None => githubIntegrationConfig
  end.

(** The two fields the constructor derives from the configuration. *)
Record Client := { host : string; baseUrl : string }.

Definition constructor (configs : list GitHubIntegrationConfig) : Client :=
  let githubIntegrationConfig := getGithubIntegrationConfig configs in
  {| host := nullish (option_map config_host githubIntegrationConfig)
                     "github.com";
     baseUrl := nullish (match githubIntegrationConfig with
                         | Some c => config_apiBaseUrl c
                         | None => None
                         end)
                        "https://api.github.com" |}.

Record LatestRelease := {
  targetCommitish : string;
  tagName : string;
  prerelease : bool;
  id : nat;
  htmlUrl : string;
  body : option string
}.

Record LatestCommit := {
  latestCommit_sha : string;
  latestCommit_htmlUrl : string;
  latestCommit_message : string
}.

Record CreatedTagObject := { created_tagName : string; tagSha : string }.

Record Comparison := { comparison_htmlUrl : string; aheadBy : nat }.

(** The shape of the objects returned for a created, patched or promoted
    release: [{ name, tagName, htmlUrl }]. *)
Record ReleaseResult := {
  result_name : option string;
  result_tagName : string;
  result_htmlUrl : string
}.

Definition releaseResult (d : ReleaseData) : ReleaseResult :=
  {| result_name := release_name d;
     result_tagName := release_tag_name d;
     result_htmlUrl := release_html_url d |}.

Definition tagMessage : string :=
  "Tag generated by your friendly neighborhood Backstage Release Manager".

Section Methods.
Context (env : Env).

(** [await this.githubAuthApi.getAccessToken(['repo'])], then
    [new Octokit(...)]: nothing is sent to GitHub yet. *)
Definition getOctokit : Async unit :=
  fun w =>
    match getAccessToken env (trace w) with
    | Resolved _ => (Resolved tt, w)
    | Rejected e => (Rejected e, w)
    end.

(** [new Date().toISOString()] *)
Definition toISOString : Async string :=
  fun w => (Resolved (now env (trace w)), w).

Definition getRepositories (owner : string) : Async (list string) :=
  getOctokit ;;
  repositoryResponse <-
    catch (send env (PaginateReposListForOrg owner 100))
          (fun error =>
             (* `owner` is not an org, try listing a user's repositories *)
             if status_is error 404 then
               userRepositoryResponse <-
                 send env (PaginateReposListForUser owner 100) ;;
               ret userRepositoryResponse
             else throw error) ;;
  ret (map repo_name repositoryResponse).

Definition getLatestRelease (owner repo : string)
  : Async (option LatestRelease) :=
  getOctokit ;;
  latestReleases <-
    send env (ReposListReleases owner repo 1 (DISABLE_CACHE env)) ;;
  match latestReleases with
  | [] => ret None
  | latestRelease :: _ =>
      ret (Some {| targetCommitish := release_target_commitish latestRelease;
                   tagName := release_tag_name latestRelease;
                   prerelease := release_prerelease latestRelease;
                   id := release_id latestRelease;
                   htmlUrl := release_html_url latestRelease;
                   body := release_body latestRelease |})
  end.

Definition getLatestCommit (owner repo branch : string) : Async LatestCommit :=
  getOctokit ;;
  latestCommit <- send env (ReposGetCommit owner repo branch (DISABLE_CACHE env)) ;;
  ret {| latestCommit_sha := commit_sha latestCommit;
         latestCommit_htmlUrl := commit_html_url latestCommit;
         latestCommit_message := commit_message latestCommit |}.

Definition createTagObject (owner repo object tag : string)
    (taggerName taggerEmail : option string) : Async CreatedTagObject :=
  getOctokit ;;
  date <- toISOString ;;
  createTagResponse <-
    send env (GitCreateTag owner repo tag tagMessage object "commit"
                {| tagger_date := date;
                   tagger_name := taggerName;
                   tagger_email := taggerEmail |}) ;;
  ret {| created_tagName := tag_tag createTagResponse;
         tagSha := tag_sha createTagResponse |}.

Definition createReference (owner repo tagName tagSha : string) : Async string :=
  getOctokit ;;
  createRefResponse <-
    send env (GitCreateRef owner repo ("refs/tags/" ++ tagName) tagSha) ;;
  ret (ref_ref createRefResponse).

End Methods.

Module createRc.
Section Methods.
Context (env : Env).

Definition createReleaseBranch (owner repo mostRecentSha targetBranch : string)
  : Async string :=
  getOctokit env ;;
  newReleaseBranch <-
    send env (GitCreateRef owner repo ("refs/heads/" ++ targetBranch)
                           mostRecentSha) ;;
  ret (ref_object_sha newReleaseBranch).

Definition getComparison (owner repo previousReleaseBranch nextReleaseBranch : string)
  : Async Comparison :=
  getOctokit env ;;
  compareCommitsResponse <-
    send env (ReposCompareCommits owner repo previousReleaseBranch
                                  nextReleaseBranch) ;;
  ret {| comparison_htmlUrl := compare_html_url compareCommitsResponse;
         aheadBy := compare_ahead_by compareCommitsResponse |}.

Definition createRelease
    (owner repo rcReleaseTag releaseName rcBranch releaseBody : string)
  : Async ReleaseResult :=
  getOctokit env ;;
  createReleaseResponse <-
    send env (ReposCreateRelease owner repo rcReleaseTag releaseName rcBranch
                                 releaseBody true) ;;
  ret (releaseResult createReleaseResponse).

End Methods.
End createRc.

(** A commit as [getRecentCommits] returns it (the fields the patch calls
    read). *)
Record RecentCommit := {
  recent_htmlUrl : string;
  recent_sha : string;
  recent_message : string;
  firstParentSha : option string
}.

(** [SemverTagParts | CalverTagParts]: both carry the [patch] number that
    the patch calls print. *)
Record TagParts := { patch : nat }.

Record UpdatedReference := { updated_ref : string; updated_object_sha : string }.

Module patch.
Section Methods.
Context (env : Env).

Definition createTempCommit (owner repo : string) (tagParts : TagParts)
    (releaseBranchTree : string) (selectedPatchCommit : RecentCommit)
  : Async GitCommitData :=
  getOctokit env ;;
  tempCommit <-
    send env (GitCreateCommit owner repo
                ("Temporary commit for patch "
                   ++ string_of_nat (patch tagParts))
                releaseBranchTree
                [nullish (firstParentSha selectedPatchCommit) EmptyString]) ;;
  ret {| gitcommit_message := gitcommit_message tempCommit;
         gitcommit_sha := gitcommit_sha tempCommit |}.

Definition forceBranchHeadToTempCommit (owner repo releaseBranchName : string)
    (tempCommit : GitCommitData) : Async unit :=
  getOctokit env ;;
  send env (GitUpdateRef owner repo ("heads/" ++ releaseBranchName)
                         (gitcommit_sha tempCommit) true) ;;
  ret tt.

Definition merge (owner repo base head : string) : Async MergeData :=
  getOctokit env ;;
  merge <- send env (ReposMerge owner repo base head) ;;
  ret {| merge_html_url := merge_html_url merge;
         merge_commit_message := merge_commit_message merge;
         merge_commit_tree_sha := merge_commit_tree_sha merge |}.

Definition cherryPickMessage (bumpedTag : string)
    (selectedPatchCommit : RecentCommit) (messageSuffix : string) : string :=
  "[patch " ++ bumpedTag ++ "] " ++ recent_message selectedPatchCommit
    ++ nl ++ nl ++ messageSuffix.

Definition createCherryPickCommit (owner repo bumpedTag : string)
    (selectedPatchCommit : RecentCommit)
    (mergeTree releaseBranchSha messageSuffix : string) : Async GitCommitData :=
  getOctokit env ;;
  cherryPickCommit <-
    send env (GitCreateCommit owner repo
                (cherryPickMessage bumpedTag selectedPatchCommit messageSuffix)
                mergeTree [releaseBranchSha]) ;;
  ret {| gitcommit_message := gitcommit_message cherryPickCommit;
         gitcommit_sha := gitcommit_sha cherryPickCommit |}.

Definition replaceTempCommit (owner repo releaseBranchName : string)
    (cherryPickCommit : GitCommitData) : Async UpdatedReference :=
  getOctokit env ;;
  updatedReference <-
    send env (GitUpdateRef owner repo ("heads/" ++ releaseBranchName)
                           (gitcommit_sha cherryPickCommit) true) ;;
  ret {| updated_ref := ref_ref updatedReference;
         updated_object_sha := ref_object_sha updatedReference |}.

Definition createTagObject (owner repo bumpedTag : string)
    (updatedReference : UpdatedReference)
    (taggerName taggerEmail : option string) : Async TagData :=
  getOctokit env ;;
  date <- toISOString env ;;
  createdTagObject <-
    send env (GitCreateTag owner repo bumpedTag tagMessage
                (updated_object_sha updatedReference) "commit"
                {| tagger_date := date;
                   tagger_name := taggerName;
                   tagger_email := taggerEmail |}) ;;
  ret createdTagObject.

Definition createReference (owner repo bumpedTag : string)
    (createdTagObject : TagData) : Async string :=
  getOctokit env ;;
  reference <-
    send env (GitCreateRef owner repo ("refs/tags/" ++ bumpedTag)
                           (tag_sha createdTagObject)) ;;
  ret (ref_ref reference).

Definition releaseBodyWithPatch (latestRelease : LatestRelease)
    (tagParts : TagParts) (selectedPatchCommit : RecentCommit) : string :=
  string_of_nullable (body latestRelease) ++ nl ++ nl
    ++ "#### [Patch " ++ string_of_nat (patch tagParts) ++ "]("
    ++ recent_htmlUrl selectedPatchCommit ++ ")" ++ nl
    ++ "  " ++ nl
    ++ recent_message selectedPatchCommit.

Definition updateRelease (owner repo bumpedTag : string)
    (latestRelease : LatestRelease) (tagParts : TagParts)
    (selectedPatchCommit : RecentCommit) : Async ReleaseResult :=
  getOctokit env ;;
  updatedRelease <-
    send env (ReposUpdateRelease owner repo (id latestRelease) bumpedTag
                (Some (releaseBodyWithPatch latestRelease tagParts
                                            selectedPatchCommit))
                None) ;;
  ret (releaseResult updatedRelease).

End Methods.
End patch.

Module promoteRc.
Section Methods.
Context (env : Env).

Definition promoteRelease (owner repo : string) (releaseId : nat)
    (releaseVersion : string) : Async ReleaseResult :=
  getOctokit env ;;
  promotedRelease <-
    send env (ReposUpdateRelease owner repo releaseId releaseVersion
                                 None (Some false)) ;;
  ret (releaseResult promotedRelease).

End Methods.
End promoteRc.

Module stats.
Section Methods.
Context (env : Env).

Record SingleTag := { date : string; username : string; userEmail : string }.

Definition getSingleTag (owner repo tagSha : string) : Async SingleTag :=
  getOctokit env ;;
  singleTag <- send env (GitGetTag owner repo tagSha) ;;
  ret {| date := tag_tagger_date singleTag;
         username := tag_tagger_name singleTag;
         userEmail := tag_tagger_email singleTag |}.

(** [{ createdAt: commit.commit.committer?.date }] *)
Definition getCommit (owner repo ref : string) : Async (option string) :=
  getOctokit env ;;
  commit <- send env (ReposGetCommit owner repo ref []) ;;
  ret (match commit_committer commit with
       | Some committer => user_date committer
       | None => None
       end).

End Methods.
End stats.

End PluginApiClient.

(** ** Project, user, and react-use *)

Inductive VersioningStrategy := semver | calver.

Definition strategy_name (s : VersioningStrategy) : string :=
  match s with semver => "semver" | calver => "calver" end.

Record Project := {
  owner : string;
  repo : string;
  versioningStrategy : VersioningStrategy
}.

Record User := { user_username : string; user_email : option string }.

(** The state react-use keeps for an async function.  An async function that
    returns [undefined] leaves [value] empty, like one that did not finish. *)
Record AsyncState (A : Type) := {
  loading : bool;
  value : option A;
  error : option JsError
}.
Arguments loading {A} _.
Arguments value {A} _.
Arguments error {A} _.

(** A hook: it reads and extends the world and cannot reject. *)
Definition Hook (A : Type) : Type := World -> A * World.

(** [useAsync(fn, deps)] once [fn] has settled.  The chain of [useAsync]
    calls of a component is run in the order in which their dependencies
    settle. *)
Definition useAsync {A} (fn : Async (option A)) : Hook (AsyncState A) :=
  fun w =>
    match fn w with
    | (Resolved v, w') =>
        ({| loading := false; value := v; error := None |}, w')
    | (Rejected e, w') =>
        ({| loading := false; value := None; error := Some e |}, w')
    end.

Module useResponseSteps.

(** Modelled from the spec: [addStepToResponseSteps] of the hook
    [useResponseSteps], whose file is not among the sources.  The spec has
    the step log ordered and append-only, with one entry for each step that
    succeeded. *)
Definition addStepToResponseSteps (responseStep : ResponseStep) : Async unit :=
  fun w =>
    (Resolved tt,
     {| trace := trace w;
        responseSteps := (responseSteps w ++ [responseStep])%list |}).

(** Modelled from the spec: [asyncCatcher] of the hook [useResponseSteps],
    whose file is not among the sources.  The spec has a failed step abort
    the chain and the first failure surfaced verbatim.  The callers use what
    [.catch(asyncCatcher)] yields as the resolved value of the call, so the
    catcher never returns: it throws what it was given. *)
Definition asyncCatcher {A} (error : JsError) : Async A := throw error.

(** Modelled from the spec: [abortIfError] of the hook [useResponseSteps],
    whose file is not among the sources.  The spec has the later steps
    short-circuit when a step before them has failed. *)
Definition abortIfError (error : option JsError) : Async unit :=
  match error with
  | Some e => asyncCatcher e
  | None => ret tt
  end.

End useResponseSteps.

(** ** features/CreateRc/hooks/useCreateRc *)

Module CreateRc.
Import PluginApiClient useResponseSteps.

Record AlertError := { title : option string; subtitle : string }.

(** [ReturnType<typeof getRcGitHubInfo>] *)
Record RcGitHubInfo := {
  rcBranch : string;
  rcReleaseTag : string;
  releaseName : string;
  info_error : option AlertError
}.

Definition SuccessCb := History -> CreateRcSuccess -> Outcome unit.

(** [await successCb(payload)] *)
Definition callSuccessCb (successCb : SuccessCb) (payload : CreateRcSuccess)
  : Async unit :=
  fun w =>
    let o := successCb (trace w) payload in
    (o, emit (CreateRcSuccessCb payload (resolved o)) w).

Record ComparisonWithBody := {
  comparison : Comparison;
  releaseBody : string
}.

Section Hook.
Context (env : Env).
Context (defaultBranch : string)
        (latestRelease : option LatestRelease)
        (nextGitHubInfo : RcGitHubInfo)
        (project : Project)
        (successCb : option SuccessCb)
        (user : User).

(** (1) Get the default branch's most recent commit *)
Definition run : Async (option LatestCommit) :=
  latestCommit <-
    catch (getLatestCommit env (owner project) (repo project) defaultBranch)
          asyncCatcher ;;
  addStepToResponseSteps
    {| message := "Fetched latest commit from " ++ dq ++ defaultBranch ++ dq;
       secondaryMessage :=
         Some ("with message " ++ dq ++ latestCommit_message latestCommit ++ dq);
       link := Some (latestCommit_htmlUrl latestCommit);
       icon := None |} ;;
  ret (Some latestCommit).

Definition branchExistsMessage : string :=
  "Branch " ++ dq ++ rcBranch nextGitHubInfo ++ dq
    ++ " already exists: .../tree/" ++ rcBranch nextGitHubInfo.

(** (2) Create release branch based on default branch's most recent sha *)
Definition releaseBranch (latestCommitRes : AsyncState LatestCommit)
  : Async (option string) :=
  abortIfError (error latestCommitRes) ;;
  match value latestCommitRes with
  | None => ret None
  | Some latestCommit =>
      createdReleaseBranch <-
        catch
          (catch
             (createRc.createReleaseBranch env (owner project) (repo project)
                (latestCommit_sha latestCommit) (rcBranch nextGitHubInfo))
             (fun error =>
                if body_message_is error "Reference already exists"
                then throw (GitHubReleaseManagerError branchExistsMessage)
                else throw error))
          asyncCatcher ;;
      addStepToResponseSteps
        {| message := "Created Release Branch";
           secondaryMessage :=
             Some ("with object sha " ++ dq ++ createdReleaseBranch ++ dq);
           link := None;
           icon := None |} ;;
      ret (Some createdReleaseBranch)
  end.

(** (3) Create tag object for our soon-to-be-created annotated tag *)
Definition tagObject (releaseBranchRes : AsyncState string)
  : Async (option CreatedTagObject) :=
  abortIfError (error releaseBranchRes) ;;
  match value releaseBranchRes with
  | None => ret None
  | Some releaseBranchObjectSha =>
      createdTagObject <-
        catch
          (createTagObject env (owner project) (repo project)
             releaseBranchObjectSha (rcReleaseTag nextGitHubInfo)
             (Some (user_username user)) (user_email user))
          asyncCatcher ;;
      addStepToResponseSteps
        {| message := "Created Tag Object";
           secondaryMessage :=
             Some ("with sha " ++ dq ++ tagSha createdTagObject ++ dq);
           link := None;
           icon := None |} ;;
      ret (Some createdTagObject)
  end.

Definition tagExistsMessage : string :=
  "Tag reference " ++ dq ++ rcReleaseTag nextGitHubInfo ++ dq
    ++ " already exists".

(** (4) Create reference for tag object *)
Definition createRc (tagObjectRes : AsyncState CreatedTagObject)
  : Async (option string) :=
  abortIfError (error tagObjectRes) ;;
  match value tagObjectRes with
  | None => ret None
  | Some createdTagObject =>
      createdRef <-
        catch
          (catch
             (createReference env (owner project) (repo project)
                (rcReleaseTag nextGitHubInfo) (tagSha createdTagObject))
             (fun error =>
                if body_message_is error "Reference already exists"
                then throw (GitHubReleaseManagerError tagExistsMessage)
                else throw error))
          asyncCatcher ;;
      addStepToResponseSteps
        {| message := "Cut Tag Reference";
           secondaryMessage := Some ("with ref " ++ dq ++ createdRef ++ dq);
           link := None;
           icon := None |} ;;
      ret (Some createdRef)
  end.

Definition composeReleaseBody (comparison : Comparison) (ref : string)
  : string :=
  "**Compare** " ++ comparison_htmlUrl comparison ++ nl ++ nl
    ++ "**Ahead by** " ++ string_of_nat (aheadBy comparison) ++ " commits"
    ++ nl ++ nl
    ++ "**Release branch** " ++ ref ++ nl ++ nl
    ++ "---" ++ nl ++ nl.

(** (5) Compose a body for the release *)
Definition getComparison (createRcRes : AsyncState string)
  : Async (option ComparisonWithBody) :=
  abortIfError (error createRcRes) ;;
  match value createRcRes with
  | None => ret None
  | Some ref =>
      let previousReleaseBranch :=
        match latestRelease with
        | Some r => targetCommitish r
        | None => defaultBranch
        end in
      let nextReleaseBranch := rcBranch nextGitHubInfo in
      comparison <-
        catch
          (createRc.getComparison env (owner project) (repo project)
             previousReleaseBranch nextReleaseBranch)
          asyncCatcher ;;
      let releaseBody := composeReleaseBody comparison ref in
      addStepToResponseSteps
        {| message := "Fetched commit comparison";
           secondaryMessage :=
             Some (previousReleaseBranch ++ "..." ++ nextReleaseBranch);
           link := Some (comparison_htmlUrl comparison);
           icon := None |} ;;
      ret (Some {| comparison := comparison; releaseBody := releaseBody |})
  end.

(** (6) Creates the release itself in GitHub *)
Definition createRelease (getComparisonRes : AsyncState ComparisonWithBody)
  : Async (option ReleaseResult) :=
  abortIfError (error getComparisonRes) ;;
  match value getComparisonRes with
  | None => ret None
  | Some comparisonWithBody =>
      createReleaseResult <-
        catch
          (createRc.createRelease env (owner project) (repo project)
             (rcReleaseTag nextGitHubInfo) (releaseName nextGitHubInfo)
             (rcBranch nextGitHubInfo) (releaseBody comparisonWithBody))
          asyncCatcher ;;
      addStepToResponseSteps
        {| message :=
             "Created Release Candidate " ++ dq
               ++ string_of_nullable (result_name createReleaseResult) ++ dq;
           secondaryMessage :=
             Some ("with tag " ++ dq ++ rcReleaseTag nextGitHubInfo ++ dq);
           link := Some (result_htmlUrl createReleaseResult);
           icon := None |} ;;
      ret (Some createReleaseResult)
  end.

(** (7) Run successCb if defined.  The function returns nothing. *)
Definition runSuccessCb (createReleaseRes : AsyncState ReleaseResult)
    (getComparisonRes : AsyncState ComparisonWithBody) : Async (option unit) :=
  match successCb, value createReleaseRes, value getComparisonRes with
  | Some cb, Some createReleaseResult, Some comparisonWithBody =>
      abortIfError (error createReleaseRes) ;;
      catch
        (callSuccessCb cb
           {| rc_comparisonUrl :=
                comparison_htmlUrl (comparison comparisonWithBody);
              rc_createdTag := result_tagName createReleaseResult;
              rc_gitHubReleaseName := result_name createReleaseResult;
              rc_gitHubReleaseUrl := result_htmlUrl createReleaseResult;
              rc_previousTag := option_map tagName latestRelease |})
        asyncCatcher ;;
      addStepToResponseSteps
        {| message := "Success callback successfully called " ++ rocket;
           secondaryMessage := None;
           link := None;
           icon := Some "success" |} ;;
      ret None
  | _, _, _ => ret None
  end.

Definition TOTAL_STEPS : nat :=
  6 + (match successCb with Some _ => 1 | None => 0 end).

(** [(responseSteps.length / TOTAL_STEPS) * 100], as an exact fraction. *)
Definition progressOf (responseSteps : list ResponseStep) : Q :=
  ((inject_Z (Z.of_nat (length responseSteps))
      / inject_Z (Z.of_nat TOTAL_STEPS)) * 100)%Q.

(** What the hook holds once the chain started by [run] has settled: the
    states of the six async steps, and the [progress] it reports. *)
Record CardHook := {
  progress : Q;
  latestCommitRes : AsyncState LatestCommit;
  releaseBranchRes : AsyncState string;
  tagObjectRes : AsyncState CreatedTagObject;
  createRcRes : AsyncState string;
  getComparisonRes : AsyncState ComparisonWithBody;
  createReleaseRes : AsyncState ReleaseResult
}.

(** [title ? `${title} (${subtitle})` : subtitle]: an empty title counts as
    none. *)
Definition unexpectedErrorMessage (e : AlertError) : string :=
  "Unexpected error: "
    ++ match title e with
       | Some (String _ _ as t) => t ++ " (" ++ subtitle e ++ ")"
       | _ => subtitle e
       end.

(** The hook, from the press on the button ([run]) to the last step.  It
    throws while rendering when the next tag could not be computed. *)
Definition useCreateRc : Async CardHook :=
  fun w =>
    match info_error nextGitHubInfo with
    | Some e =>
        (Rejected (GitHubReleaseManagerError (unexpectedErrorMessage e)), w)
    | None =>
        let '(latestCommitRes, w1) := useAsync run w in
        let '(releaseBranchRes, w2) :=
          useAsync (releaseBranch latestCommitRes) w1 in
        let '(tagObjectRes, w3) := useAsync (tagObject releaseBranchRes) w2 in
        let '(createRcRes, w4) := useAsync (createRc tagObjectRes) w3 in
        let '(getComparisonRes, w5) :=
          useAsync (getComparison createRcRes) w4 in
        let '(createReleaseRes, w6) :=
          useAsync (createRelease getComparisonRes) w5 in
        let '(_, w7) :=
          useAsync (runSuccessCb createReleaseRes getComparisonRes) w6 in
        (Resolved {| progress := progressOf (responseSteps w7);
                     latestCommitRes := latestCommitRes;
                     releaseBranchRes := releaseBranchRes;
                     tagObjectRes := tagObjectRes;
                     createRcRes := createRcRes;
                     getComparisonRes := getComparisonRes;
                     createReleaseRes := createReleaseRes |},
         w7)
    end.

End Hook.
End CreateRc.

(** ** promoteRc *)

Module PromoteRc.
Import PluginApiClient.

Definition SuccessCb := History -> PromoteRcSuccess -> Outcome unit.

(** [await successCb?.(payload)] *)
Definition callSuccessCb (successCb : option SuccessCb)
    (payload : PromoteRcSuccess) : Async unit :=
  match successCb with
  | None => ret tt
  | Some cb =>
      fun w =>
        let o := cb (trace w) payload in
        (o, emit (PromoteRcSuccessCb payload (resolved o)) w)
  end.

(** The object that [promoteRelease] resolves with, in the older and in
    the newer client alike: [{ name, tagName, htmlUrl }]. *)
Definition promoteReleaseResult (r : ReleaseResult) : JsValue :=
  JsObject
    [("name", match result_name r with
              | Some name => JsString name
              | None => JsNull
              end);
     ("tagName", JsString (result_tagName r));
     ("htmlUrl", JsString (result_htmlUrl r))].

(** The async function that [promoteRc] returns.  It takes [release] out
    of what the client resolves with and reads [release.name],
    [release.tag_name] and [release.html_url], the first of them for the
    message of the step that it pushes.  The [responseSteps] array is local
    to the call and returned. *)
Definition promoteRc (env : Env) (project : Project)
    (rcRelease : LatestRelease) (releaseVersion : string)
    (successCb : option SuccessCb) : Async (list ResponseStep) :=
  let responseSteps : list ResponseStep := [] in
  result <-
    promoteRc.promoteRelease env (owner project) (repo project)
      (id rcRelease) releaseVersion ;;
  release <- settled (member (promoteReleaseResult result) "release") ;;
  name <- settled (member release "name") ;;
  tag_name <- settled (member release "tag_name") ;;
  html_url <- settled (member release "html_url") ;;
  let promoted :=
    {| message := "Promoted " ++ dq ++ toString name ++ dq;
       secondaryMessage :=
         Some ("from " ++ dq ++ tagName rcRelease ++ dq ++ " to " ++ dq
                 ++ toString tag_name ++ dq);
       link := stringValue html_url;
       icon := None |} in
  let responseSteps := app responseSteps [promoted] in
  callSuccessCb successCb
    {| pr_gitHubReleaseUrl := html_url;
       pr_gitHubReleaseName := name;
       pr_previousTagUrl := htmlUrl rcRelease;
       pr_previousTag := tagName rcRelease;
       pr_updatedTagUrl := html_url;
       pr_updatedTag := tag_name |} ;;
  ret responseSteps.

End PromoteRc.

(** ** Stats: getTagDate *)

Module Stats.
Import PluginApiClient.

Record TagDate := { tagDate : option string }.

Definition getTagDate (env : Env) (project : Project) (tagSha : string)
  : Async TagDate :=
  catch
    ((* Always attempt to fetch annotated tag first as
        it the tag itself has a date attached to it *)
     singleTag <-
       stats.getSingleTag env (owner project) (repo project) tagSha ;;
     ret {| tagDate := Some (stats.date singleTag) |})
    (fun error =>
       (* If tag isn't annotated, fallback to commit's createAt *)
       commitRes <- stats.getCommit env (owner project) (repo project) tagSha ;;
       ret {| tagDate := commitRes |}).

End Stats.

(** ** The patch sequence *)

Module Patch.
Import PluginApiClient.

Record Branch := {
  branch_name : string;
  branch_commit_sha : string;
  branch_tree_sha : string
}.

(** Modelled from the spec: the tag of the release that is patched, as far
    as the patch flow reads it.  The helpers that parse a tag into its
    parts are not among the sources; the client reads only [tagParts.patch].
    The spec (8) has the patch produce a tag whose patch component is
    exactly one greater than the previous one, so a tag is kept as the text
    that precedes its patch component, and that component. *)
Record PatchableTag := {
  beforePatch : string;
  tagParts : TagParts
}.

Definition tagNameOf (tag : PatchableTag) : string :=
  beforePatch tag ++ string_of_nat (PluginApiClient.patch (tagParts tag)).

(** Modelled from the spec: the bump of a tag, whose file is not among the
    sources: the patch component becomes exactly one greater, the rest of
    the tag stays. *)
Definition getBumpedTag (tag : PatchableTag) : PatchableTag :=
  {| beforePatch := beforePatch tag;
     tagParts :=
       {| PluginApiClient.patch := S (PluginApiClient.patch (tagParts tag)) |} |}.

(** Modelled from the spec: the suffix of the message of the cherry-pick
    commit, whose file is not among the sources.  The spec (4.2) has it
    fixed and identifying provenance, and the interface of the client has it
    identify the origin commit; the spec gives no wording, so the line that
    git itself writes for a cherry-pick is taken. *)
Definition patchCommitSuffix (commitSha : string) : string :=
  "(cherry picked from commit " ++ commitSha ++ ")".

(** Modelled from the spec: the patch hook that chains the [patch] calls of
    the client, whose file is not among the sources.  The spec (4.2) has it
    take the selected commit and the current release branch and, one call
    after the other: create a temporary commit on the branch's tree, force
    the branch head to it, merge to obtain a merge tree, create the real
    commit from that tree (message: the original one and a fixed suffix),
    force the branch head again, create the annotated tag of the bumped tag
    name, create its reference, and update the release; there is no
    rollback.  The merge is that of the selected commit into the release
    branch, as the [base] and [head] of the client's [merge] have it; the
    calls that print a patch number are given that of the bumped tag. *)
Definition patch (env : Env) (project : Project) (user : User)
    (latestRelease : LatestRelease) (releaseBranch : Branch)
    (selectedPatchCommit : RecentCommit) (latestTag : PatchableTag)
  : Async ReleaseResult :=
  let owner := owner project in
  let repo := repo project in
  let releaseBranchName := branch_name releaseBranch in
  let bumped := getBumpedTag latestTag in
  let bumpedTag := tagNameOf bumped in
  tempCommit <-
    patch.createTempCommit env owner repo (tagParts bumped)
      (branch_tree_sha releaseBranch) selectedPatchCommit ;;
  patch.forceBranchHeadToTempCommit env owner repo releaseBranchName
    tempCommit ;;
  merge <-
    patch.merge env owner repo releaseBranchName
      (recent_sha selectedPatchCommit) ;;
  cherryPickCommit <-
    patch.createCherryPickCommit env owner repo bumpedTag selectedPatchCommit
      (merge_commit_tree_sha merge) (branch_commit_sha releaseBranch)
      (patchCommitSuffix (recent_sha selectedPatchCommit)) ;;
  updatedReference <-
    patch.replaceTempCommit env owner repo releaseBranchName
      cherryPickCommit ;;
  createdTagObject <-
    patch.createTagObject env owner repo bumpedTag updatedReference
      (Some (user_username user)) (user_email user) ;;
  patch.createReference env owner repo bumpedTag createdTagObject ;;
  patch.updateRelease env owner repo bumpedTag latestRelease
    (tagParts bumped) selectedPatchCommit.

End Patch.

(** ** What is rendered: Features, and the older Cards *)

Module Render.
Import PluginApiClient.

Inductive Severity := SeverityError | SeverityWarning | SeverityInfo.

(** The elements the two components return.  The cards receive the latest
    release, the release branch and their success callback as props; they
    are not inspected here. *)
Inductive Element :=
| Alert (severity : Severity) (alertTitle : option string) (children : string)
| CenteredCircularProgress
| Info (statsEnabled : option bool)
| CreateReleaseCandidate
| PromoteRc
| Patch.

Record Repository := {
  pushPermissions : option bool;
  defaultBranch : string;
  repository_name : string
}.

Record GitBatchInfo := {
  latestRelease : option LatestRelease;
  releaseBranch : option Patch.Branch;
  repository : Repository
}.

(** [features?.x?.omit] for each feature. *)
Record FeaturesConfig := {
  info_omit : option bool;
  stats_omit : option bool;
  createRc_omit : option bool;
  promoteRc_omit : option bool;
  patch_omit : option bool
}.

(** [!x] for [boolean | undefined] *)
Definition falsy (b : option bool) : bool :=
  match b with Some true => false | _ => true end.

(** [x !== true] *)
Definition not_true (b : option bool) : bool :=
  match b with Some true => false | _ => true end.

(** [cond && <element/>] among the children *)
Definition when (cond : bool) (e : Element) : list Element :=
  if cond then [e] else [].

Definition isSome {A} (o : option A) : bool :=
  match o with Some _ => true | None => false end.

Definition lacksPushPermissions (project : Project) : Element :=
  Alert SeverityError None
    ("You lack push permissions for repository " ++ dq ++ owner project ++ "/"
       ++ repo project ++ dq).

Section Components.

(** The two validators that the components import: the hook that tells
    whether the latest release's tag fits the project's versioning strategy
    (given the tag name, the project and the repository name), and the
    check of the tag name that yields an error to display. *)
Variable useVersioningStrategyMatchesRepoTags :
  option string -> Project -> option string -> bool.
Variable validateTagName :
  Project -> option string -> option CreateRc.AlertError.

Definition Features (features : FeaturesConfig) (project : Project)
    (gitBatchInfo : AsyncState GitBatchInfo) : list Element :=
  let versioningStrategyMatches :=
    useVersioningStrategyMatchesRepoTags
      (match value gitBatchInfo with
       | Some v => option_map tagName (latestRelease v)
       | None => None
       end)
      project
      (option_map (fun v => repository_name (repository v))
                  (value gitBatchInfo)) in
  match error gitBatchInfo with
  | Some e =>
      [Alert SeverityError None
         ("Error occured while fetching information for " ++ dq
            ++ owner project ++ "/" ++ repo project ++ dq ++ " ("
            ++ error_message e ++ ")")]
  | None =>
  if loading gitBatchInfo then [CenteredCircularProgress] else
  match value gitBatchInfo with
  | None => [Alert SeverityError None "Failed to fetch latest Git release"]
  | Some v =>
  if falsy (pushPermissions (repository v)) then [lacksPushPermissions project]
  else
  match validateTagName project (option_map tagName (latestRelease v)) with
  | Some tagNameError =>
      [Alert SeverityError (CreateRc.title tagNameError)
             (CreateRc.subtitle tagNameError)]
  | None =>
      (match latestRelease v with
       | Some r =>
           when (negb versioningStrategyMatches)
             (Alert SeverityWarning None
                ("Versioning mismatch, expected "
                   ++ strategy_name (versioningStrategy project)
                   ++ " version, got " ++ dq ++ tagName r ++ dq))
       | None => []
       end
       ++ when (negb (isSome (latestRelease v)))
            (Alert SeverityInfo None
               "This repository doesn't have any releases yet")
       ++ when (negb (isSome (releaseBranch v)))
            (Alert SeverityInfo None
               "This repository doesn't have any release branches")
       ++ when (falsy (info_omit features))
            (Info (Some (not_true (stats_omit features))))
       ++ when (falsy (createRc_omit features)) CreateReleaseCandidate
       ++ when (falsy (promoteRc_omit features)) PromoteRc
       ++ when (falsy (patch_omit features)) Patch)%list
  end
  end
  end.

(** The older component, of the GitHubReleaseManager page. *)
Definition Cards (components : FeaturesConfig) (project : Project)
    (gitHubBatchInfo : AsyncState GitBatchInfo) : list Element :=
  let versioningStrategyMatches :=
    useVersioningStrategyMatchesRepoTags
      (match value gitHubBatchInfo with
       | Some v => option_map tagName (latestRelease v)
       | None => None
       end)
      project
      (option_map (fun v => repository_name (repository v))
                  (value gitHubBatchInfo)) in
  match error gitHubBatchInfo with
  | Some e => [Alert SeverityError None (error_message e)]
  | None =>
  if loading gitHubBatchInfo then [CenteredCircularProgress] else
  match value gitHubBatchInfo with
  | None => [Alert SeverityError None "Failed to fetch latest GitHub release"]
  | Some v =>
  if falsy (pushPermissions (repository v)) then [lacksPushPermissions project]
  else
  if negb versioningStrategyMatches then
    [Alert SeverityError None
       ("Versioning mismatch, expected "
          ++ strategy_name (versioningStrategy project) ++ " version, got "
          ++ nullish (option_map tagName (latestRelease v)) EmptyString)]
  else
    (Info None
     :: when (not_true (createRc_omit components)) CreateReleaseCandidate
     ++ when (not_true (promoteRc_omit components)) PromoteRc
     ++ when (not_true (patch_omit components)) Patch)%list
  end
  end.

End Components.

Definition isActionCard (e : Element) : bool :=
  match e with
  | CreateReleaseCandidate | PromoteRc | Patch => true
  | _ => false
  end.

Definition isMismatchAlert (e : Element) : bool :=
  match e with
  | Alert _ _ children => String.prefix "Versioning mismatch" children
  | _ => false
  end.

Definition actionCards (es : list Element) : list Element :=
  filter isActionCard es.

Definition mismatchAlerts (es : list Element) : list Element :=
  filter isMismatchAlert es.

End Render.

(** ** Versioning-strategy validation *)

Module Versioning.

(** [[0-9]] *)
Definition isDigit (c : ascii) : bool :=
  ((48 <=? nat_of_ascii c) && (nat_of_ascii c <=? 57))%nat.

Fixpoint allDigits (s : string) : bool :=
  match s with
  | EmptyString => true
  | String c rest => isDigit c && allDigits rest
  end.

(** [[0-9]+] *)
Definition isNumber (s : string) : bool :=
  match s with
  | EmptyString => false
  | String _ _ => allDigits s
  end.

(** [s.split(sep)] *)
Fixpoint split (sep : ascii) (s : string) : list string :=
  match s with
  | EmptyString => [EmptyString]
  | String c rest =>
      if Ascii.eqb c sep then EmptyString :: split sep rest
      else match split sep rest with
           | [] => [String c EmptyString]
           | first :: others => String c first :: others
           end
  end.

(** [parts.join(sep)] *)
Fixpoint join (sep : ascii) (parts : list string) : string :=
  match parts with
  | [] => EmptyString
  | part :: rest =>
      match rest with
      | [] => part
      | _ :: _ => part ++ String sep (join sep rest)
      end
  end.

(** What follows [p] in [s], when [s] starts with [p]. *)
Fixpoint stripPrefix (p s : string) : option string :=
  match p, s with
  | EmptyString, _ => Some s
  | String a p', String b s' =>
      if Ascii.eqb a b then stripPrefix p' s' else None
  | String _ _, EmptyString => None
  end.

(** The version of a tag: what follows [rc-] or [version-]. *)
Definition versionOf (tagName : string) : option string :=
  match stripPrefix "rc-" tagName with
  | Some version => Some version
  | None => stripPrefix "version-" tagName
  end.

(** Modelled from the spec: the strategy validation, whose helpers (the
    parsers of the tag parts) are not among the sources.  The spec (4.4) has
    it parse the tag according to the expected shape and fail when parsing
    fails or the components do not match the configured strategy; its
    examples (8) are [version-1.2.3] for semver and [version-2024.01.15] for
    calver, and release candidates carry the prefix [rc-].  The tag is split
    at its dots and the three components are checked: three numbers for
    semver; a year of four digits, a month and a day of two for calver. *)
Definition accepts (strategy : VersioningStrategy) (tagName : string) : bool :=
  match option_map (split ".") (versionOf tagName) with
  | Some [a; b; c] =>
      match strategy with
      | semver => isNumber a && isNumber b && isNumber c
      | calver =>
          (isNumber a && (String.length a =? 4)%nat)
          && (isNumber b && (String.length b =? 2)%nat)
          && (isNumber c && (String.length c =? 2)%nat)
      end
  | _ => false
  end.

Definition mismatch (project : Project) (tagName : string)
  : CreateRc.AlertError :=
  {| CreateRc.title := None;
     CreateRc.subtitle :=
       "Versioning mismatch, expected "
         ++ strategy_name (versioningStrategy project) ++ " version, got "
         ++ dq ++ tagName ++ dq |}.

(** Modelled from the spec: the hook [useVersioningStrategyMatchesRepoTags],
    whose file is not among the sources.  The spec (4.4) has the validation
    a pure predicate of the most recent tag name and the configured
    strategy; without a tag there is nothing to reject. *)
Definition useVersioningStrategyMatchesRepoTags
    (latestReleaseTagName : option string) (project : Project)
    (repositoryName : option string) : bool :=
  match latestReleaseTagName with
  | Some tagName => accepts (versioningStrategy project) tagName
  | None => true
  end.

(** Modelled from the spec: [validateTagName], whose file is not among the
    sources.  The spec (4.4, 7) has a tag that does not pass the validation
    raise a versioning mismatch that is rendered as an alert. *)
Definition validateTagName (project : Project) (tagName : option string)
  : option CreateRc.AlertError :=
  match tagName with
  | Some name =>
      if accepts (versioningStrategy project) name then None
      else Some (mismatch project name)
  | None => None
  end.

(** The grammar of the tags, in the spec's words: [version-1.2.3] for
    semver, [version-2024.01.15] for calver. *)
Definition Digit (c : ascii) : Prop :=
  In c ["0"; "1"; "2"; "3"; "4"; "5"; "6"; "7"; "8"; "9"]%char.

Inductive Number : string -> Prop :=
| Number_digit (d : ascii) : Digit d -> Number (String d EmptyString)
| Number_more (d : ascii) (n : string) :
    Digit d -> Number n -> Number (String d n).

Definition TagPrefix (p : string) : Prop := p = "rc-" \/ p = "version-".

Definition matchesGrammar (strategy : VersioningStrategy) (tagName : string)
  : Prop :=
  exists p a b c,
    TagPrefix p
    /\ tagName = p ++ a ++ "." ++ b ++ "." ++ c
    /\ match strategy with
       | semver => Number a /\ Number b /\ Number c
       | calver =>
           (Number a /\ String.length a = 4)
           /\ (Number b /\ String.length b = 2)
           /\ (Number c /\ String.length c = 2)
       end.

End Versioning.

(** ** Vocabulary of the statements *)

(** The events that running [m] from [w] adds to the trace. *)
Definition issued {A} (m : Async A) (w : World) : list Event :=
  skipn (length (trace w)) (trace (snd (m w))).

(** The requests among some events, in order. *)
Definition requests (es : list Event) : list Request :=
  flat_map (fun e => match e with Sent r _ => [r] | _ => [] end) es.

(** The number of events that resolved. *)
Definition completed (es : list Event) : nat :=
  length (filter event_ok es).

Definition isPrefixOf {A} (l1 l2 : list A) : Prop :=
  exists rest, l2 = (l1 ++ rest)%list.

(** [s] occurs in [t]. *)
Definition mentions (t s : string) : Prop :=
  exists before after, t = before ++ s ++ after.

(** [t.includes(s)] *)
Fixpoint includes (t s : string) : bool :=
  String.prefix s t
  || match t with
     | EmptyString => false
     | String _ rest => includes rest s
     end.

(** The access token is at hand whenever it is asked for. *)
Definition authorized (env : Env) : Prop :=
  forall h, resolved (getAccessToken env h) = true.

Module GitHub.

(** The first page of a listing: at most [per_page] items, in order. *)
Definition firstPage {A} (per_page : nat) (items : list A) : list A :=
  firstn per_page items.

(** The create-reference endpoint answers with the reference it has
    created: its name and the sha it points at are those of the request. *)
Definition created (r : Request) (answer : RefData) : Prop :=
  match r with
  | GitCreateRef _ _ ref sha =>
      ref_ref answer = ref /\ ref_object_sha answer = sha
  | _ => False
  end.

(** The update-release endpoint: the fields that the request carries
    overwrite those of the release it addresses, the others (among them the
    id) stay. A request of another kind leaves the release alone. *)
Definition update (stored : ReleaseData) (r : Request) : ReleaseData :=
  match r with
  | ReposUpdateRelease _ _ addressed tag_name body prerelease =>
      if Nat.eqb addressed (release_id stored) then
        {| release_id := release_id stored;
           release_name := release_name stored;
           release_tag_name := tag_name;
           release_target_commitish := release_target_commitish stored;
           release_prerelease := nullish prerelease (release_prerelease stored);
           release_html_url := release_html_url stored;
           release_body :=
             match body with
             | Some b => Some b
             | None => release_body stored
             end |}
      else stored
  | _ => stored
  end.

End GitHub.

(** The steps of the release-candidate flow, and of the patch flow. *)
Inductive Step :=
| FetchLatestCommit
| CreateReleaseBranch
| CreateTagObject
| CreateTagReference
| GetComparison
| CreatePrerelease
| InvokeSuccessCb
| CreateCommit
| ForceBranchHead
| Merge
| UpdateRelease
| OtherStep.

Definition stepOf (e : Event) : Step :=
  match e with
  | Sent (ReposGetCommit _ _ _ _) _ => FetchLatestCommit
  | Sent (GitCreateRef _ _ ref _) _ =>
      if String.prefix "refs/heads/" ref then CreateReleaseBranch
      else if String.prefix "refs/tags/" ref then CreateTagReference
      else OtherStep
  | Sent (GitCreateTag _ _ _ _ _ _ _) _ => CreateTagObject
  | Sent (ReposCompareCommits _ _ _ _) _ => GetComparison
  | Sent (ReposCreateRelease _ _ _ _ _ _ true) _ => CreatePrerelease
  | CreateRcSuccessCb _ _ => InvokeSuccessCb
  | Sent (GitCreateCommit _ _ _ _ _) _ => CreateCommit
  | Sent (GitUpdateRef _ _ _ _ true) _ => ForceBranchHead
  | Sent (ReposMerge _ _ _ _) _ => Merge
  | Sent (ReposUpdateRelease _ _ _ _ _ _) _ => UpdateRelease
  | _ => OtherStep
  end.

Definition createRcOrder : list Step :=
  [FetchLatestCommit; CreateReleaseBranch; CreateTagObject;
   CreateTagReference; GetComparison; CreatePrerelease; InvokeSuccessCb].

Definition patchOrder : list Step :=
  [CreateCommit; ForceBranchHead; Merge; CreateCommit; ForceBranchHead;
   CreateTagObject; CreateTagReference; UpdateRelease].

(** The requests of the release-candidate flow, from what each step has
    learnt from the answers before, and the payload of its callback. *)
Module CreateRcRequests.
Import PluginApiClient CreateRc.
Section Requests.
Context (env : Env)
        (defaultBranch : string)
        (latestRelease : option LatestRelease)
        (nextGitHubInfo : RcGitHubInfo)
        (project : Project)
        (user : User).

Definition fetchLatestCommit : Request :=
  ReposGetCommit (owner project) (repo project) defaultBranch
                 (DISABLE_CACHE env).

Definition createBranch (latestCommit : CommitData) : Request :=
  GitCreateRef (owner project) (repo project)
               ("refs/heads/" ++ rcBranch nextGitHubInfo)
               (commit_sha latestCommit).

Definition createTag (date : string) (branch : RefData) : Request :=
  GitCreateTag (owner project) (repo project) (rcReleaseTag nextGitHubInfo)
               tagMessage (ref_object_sha branch) "commit"
               {| tagger_date := date;
                  tagger_name := Some (user_username user);
                  tagger_email := user_email user |}.

Definition createTagRef (tag : TagData) : Request :=
  GitCreateRef (owner project) (repo project)
               ("refs/tags/" ++ rcReleaseTag nextGitHubInfo) (tag_sha tag).

Definition previousBranch : string :=
  match latestRelease with
  | Some r => targetCommitish r
  | None => defaultBranch
  end.

Definition compareBranches : Request :=
  ReposCompareCommits (owner project) (repo project) previousBranch
                      (rcBranch nextGitHubInfo).

(** The body of the prerelease: the link of the comparison, the number of
    commits the new branch is ahead by, and the reference of the tag. *)
Definition bodyFrom (compared : CompareData) (tagRef : RefData) : string :=
  "**Compare** " ++ compare_html_url compared ++ nl ++ nl
    ++ "**Ahead by** " ++ string_of_nat (compare_ahead_by compared)
    ++ " commits" ++ nl ++ nl
    ++ "**Release branch** " ++ ref_ref tagRef ++ nl ++ nl
    ++ "---" ++ nl ++ nl.

Definition createPrerelease (compared : CompareData) (tagRef : RefData)
  : Request :=
  ReposCreateRelease (owner project) (repo project)
                     (rcReleaseTag nextGitHubInfo) (releaseName nextGitHubInfo)
                     (rcBranch nextGitHubInfo) (bodyFrom compared tagRef) true.

Definition successPayload (compared : CompareData) (release : ReleaseData)
  : CreateRcSuccess :=
  {| rc_comparisonUrl := compare_html_url compared;
     rc_createdTag := release_tag_name release;
     rc_gitHubReleaseName := release_name release;
     rc_gitHubReleaseUrl := release_html_url release;
     rc_previousTag := option_map tagName latestRelease |}.

End Requests.
End CreateRcRequests.

(** The states of the six async steps that a [CardHook] holds. *)
Definition statesOf (hook : CreateRc.CardHook) :=
  (CreateRc.latestCommitRes hook, CreateRc.releaseBranchRes hook,
   CreateRc.tagObjectRes hook, CreateRc.createRcRes hook,
   CreateRc.getComparisonRes hook, CreateRc.createReleaseRes hook).

Definition outcome_map {A B} (f : A -> B) (o : Outcome A) : Outcome B :=
  match o with
  | Resolved a => Resolved (f a)
  | Rejected e => Rejected e
  end.

(** [m] only appends to the step log, one entry for each event of its own
    that resolved. *)
Definition appendsOnePerCompleted {A} (m : Async A) : Prop :=
  forall w,
    exists added,
      responseSteps (snd (m w)) = (responseSteps w ++ added)%list
      /\ length added = completed (issued m w).

(** What [m] does and returns does not depend on the step log. *)
Definition ignoresStepLog {A} (m : Async A) : Prop :=
  forall w1 w2,
    trace w1 = trace w2 ->
    fst (m w1) = fst (m w2) /\ trace (snd (m w1)) = trace (snd (m w2)).

(** The requests of the patch sequence, from what each call has learnt from
    the answers before.  [previousPatch] is the patch component of the tag
    that is patched and [beforePatch] the text of the tag before it. *)
Module PatchRequests.
Import PluginApiClient Patch.
Section Requests.
Context (project : Project) (user : User)
        (latestRelease : LatestRelease) (releaseBranch : Branch)
        (selectedPatchCommit : RecentCommit)
        (beforePatch : string) (previousPatch : nat).

Definition newTag : string := beforePatch ++ string_of_nat (previousPatch + 1).

Definition createTemp : Request :=
  GitCreateCommit (owner project) (repo project)
    ("Temporary commit for patch " ++ string_of_nat (previousPatch + 1))
    (branch_tree_sha releaseBranch)
    [nullish (firstParentSha selectedPatchCommit) EmptyString].

Definition forceHead (commit : GitCommitData) : Request :=
  GitUpdateRef (owner project) (repo project)
               ("heads/" ++ branch_name releaseBranch)
               (gitcommit_sha commit) true.

Definition mergeSelected : Request :=
  ReposMerge (owner project) (repo project) (branch_name releaseBranch)
             (recent_sha selectedPatchCommit).

Definition provenance : string :=
  "(cherry picked from commit " ++ recent_sha selectedPatchCommit ++ ")".

Definition createCherryPick (merged : MergeData) : Request :=
  GitCreateCommit (owner project) (repo project)
    ("[patch " ++ newTag ++ "] " ++ recent_message selectedPatchCommit
       ++ nl ++ nl ++ provenance)
    (merge_commit_tree_sha merged) [branch_commit_sha releaseBranch].

Definition createBumpedTag (date : string) (updated : RefData) : Request :=
  GitCreateTag (owner project) (repo project) newTag tagMessage
               (ref_object_sha updated) "commit"
               {| tagger_date := date;
                  tagger_name := Some (user_username user);
                  tagger_email := user_email user |}.

Definition createBumpedTagRef (tag : TagData) : Request :=
  GitCreateRef (owner project) (repo project) ("refs/tags/" ++ newTag)
               (tag_sha tag).

(** The body of the patched release: the body it had, then the section of
    the patch with its number, the link of the selected commit and the
    message of that commit. *)
Definition patchedBody : string :=
  string_of_nullable (body latestRelease) ++ nl ++ nl
    ++ "#### [Patch " ++ string_of_nat (previousPatch + 1) ++ "]("
    ++ recent_htmlUrl selectedPatchCommit ++ ")" ++ nl
    ++ "  " ++ nl
    ++ recent_message selectedPatchCommit.

Definition updatePatchedRelease : Request :=
  ReposUpdateRelease (owner project) (repo project) (id latestRelease)
    newTag (Some patchedBody) None.

End Requests.
End PatchRequests.

(** ** Concrete inputs, for the examples *)

Module Examples.
Import PluginApiClient.

Definition githubCom : GitHubIntegrationConfig :=
  {| config_host := "github.com";
     config_apiBaseUrl := Some "https://api.github.com" |}.

Definition enterprise : GitHubIntegrationConfig :=
  {| config_host := "ghe.example.net";
     config_apiBaseUrl := Some "https://ghe.example.net/api/v3" |}.

Definition gitlab : GitHubIntegrationConfig :=
  {| config_host := "gitlab.example.net"; config_apiBaseUrl := None |}.

(** An answer of the right shape to any request. *)
Definition someRelease : ReleaseData :=
  {| release_id := 7;
     release_name := Some "Version 1.2.3";
     release_tag_name := "rc-1.2.3";
     release_target_commitish := "rc/1.2.3";
     release_prerelease := true;
     release_html_url := "https://github.com/octo/app/releases/tag/rc-1.2.3";
     release_body := Some "**Compare** ..." |}.

Definition olderRelease : ReleaseData :=
  {| release_id := 5;
     release_name := Some "Version 1.1.0";
     release_tag_name := "version-1.1.0";
     release_target_commitish := "rc/1.1.0";
     release_prerelease := false;
     release_html_url :=
       "https://github.com/octo/app/releases/tag/version-1.1.0";
     release_body := None |}.

Definition someCommit : CommitData :=
  {| commit_sha := "c0ffee";
     commit_html_url := "https://github.com/octo/app/commit/c0ffee";
     commit_message := "Fix the build";
     commit_author := Some {| user_date := Some "2021-01-01T10:00:00Z" |};
     commit_committer := Some {| user_date := Some "2021-02-02T12:00:00Z" |} |}.

Definition someTag : TagData :=
  {| tag_tag := "rc-1.3.0";
     tag_sha := "7a9";
     tag_tagger_date := "2021-03-03T09:00:00Z";
     tag_tagger_name := "octocat";
     tag_tagger_email := "octocat@example.net" |}.

Definition answer (r : Request) : ResponseData r :=
  match r with
  | PaginateReposListForOrg _ _ => [{| repo_name := "app" |}]
  | PaginateReposListForUser _ _ => [{| repo_name := "dotfiles" |}]
  | ReposListReleases _ _ per_page _ =>
      GitHub.firstPage per_page [someRelease; olderRelease]
  | ReposGetCommit _ _ _ _ => someCommit
  | GitCreateRef _ _ ref sha => {| ref_ref := ref; ref_object_sha := sha |}
  | GitCreateTag _ _ tag _ _ _ tagger =>
      {| tag_tag := tag;
         tag_sha := "7a9";
         tag_tagger_date := tagger_date tagger;
         tag_tagger_name := nullish (tagger_name tagger) EmptyString;
         tag_tagger_email := nullish (tagger_email tagger) EmptyString |}
  | ReposCompareCommits _ _ base head =>
      {| compare_html_url :=
           "https://github.com/octo/app/compare/" ++ base ++ "..." ++ head;
         compare_ahead_by := 3 |}
  | ReposCreateRelease _ _ tag_name name target_commitish body prerelease =>
      {| release_id := 8;
         release_name := Some name;
         release_tag_name := tag_name;
         release_target_commitish := target_commitish;
         release_prerelease := prerelease;
         release_html_url := "https://github.com/octo/app/releases/8";
         release_body := Some body |}
  | ReposUpdateRelease _ _ _ _ _ _ as r' => GitHub.update someRelease r'
  | GitCreateCommit _ _ message _ _ =>
      {| gitcommit_message := message; gitcommit_sha := "5e1" |}
  | GitUpdateRef _ _ ref sha _ => {| ref_ref := ref; ref_object_sha := sha |}
  | ReposMerge _ _ _ _ =>
      {| merge_html_url := "https://github.com/octo/app/commit/3e9";
         merge_commit_message := "Merge";
         merge_commit_tree_sha := "7ee" |}
  | GitGetTag _ _ _ => someTag
  end.

Definition notFound : JsError := RequestError 404 "Not Found".

Definition serverError : JsError := RequestError 500 "Internal Server Error".

(** The error of a reference that is there already, as the client throws
    it: GitHub's message is the message of the error. *)
Definition referenceExists : JsError :=
  RequestError 422 "Reference already exists".

(** An error that carries that message under [body]. *)
Definition referenceExistsInBody : JsError :=
  {| error_name := "ResponseError";
     error_message := "Request failed with 422 Unprocessable Entity";
     error_status := Some 422;
     error_body_message := Some "Reference already exists" |}.

(** A server that answers every request. *)
Definition obliging : Env :=
  {| getAccessToken := fun _ => Resolved "gho_token";
     github := fun _ r => Resolved (answer r);
     now := fun _ => "2021-03-03T09:00:00.000Z";
     DISABLE_CACHE := [("If-None-Match", EmptyString)] |}.

(** The same server, for an owner that is a user and not an organization. *)
Definition ownerIsUser : Env :=
  {| getAccessToken := getAccessToken obliging;
     github := fun _ r =>
       match r with
       | PaginateReposListForOrg _ _ => Rejected notFound
       | r' => Resolved (answer r')
       end;
     now := now obliging;
     DISABLE_CACHE := DISABLE_CACHE obliging |}.

(** The same server, for a repository without releases. *)
Definition noReleases : Env :=
  {| getAccessToken := getAccessToken obliging;
     github := fun _ r =>
       match r with
       | ReposListReleases _ _ per_page _ =>
           Resolved (GitHub.firstPage per_page [])
       | r' => Resolved (answer r')
       end;
     now := now obliging;
     DISABLE_CACHE := DISABLE_CACHE obliging |}.

(** The same server on a bad day: it cannot look a tag up. *)
Definition tagLookupFails : Env :=
  {| getAccessToken := getAccessToken obliging;
     github := fun _ r =>
       match r with
       | GitGetTag _ _ _ => Rejected serverError
       | r' => Resolved (answer r')
       end;
     now := now obliging;
     DISABLE_CACHE := DISABLE_CACHE obliging |}.

Definition octoApp : Project :=
  {| owner := "octo"; repo := "app"; versioningStrategy := semver |}.

(** The same repository, configured for calendar versions. *)
Definition octoAppCalver : Project :=
  {| owner := "octo"; repo := "app"; versioningStrategy := calver |}.

Definition octocat : User :=
  {| user_username := "octocat";
     user_email := Some "octocat@example.net" |}.

(** The release candidate that [someRelease] is, as the client returns it. *)
Definition rc123 : LatestRelease :=
  {| targetCommitish := "rc/1.2.3";
     tagName := "rc-1.2.3";
     prerelease := true;
     id := 7;
     htmlUrl := "https://github.com/octo/app/releases/tag/rc-1.2.3";
     body := Some "**Compare** ..." |}.

(** A success callback that records nothing and returns. *)
Definition promoted : PromoteRc.SuccessCb := fun _ _ => Resolved tt.

(** The next release candidate after [rc123]. *)
Definition next130 : CreateRc.RcGitHubInfo :=
  {| CreateRc.rcBranch := "rc/1.3.0";
     CreateRc.rcReleaseTag := "rc-1.3.0";
     CreateRc.releaseName := "Version 1.3.0";
     CreateRc.info_error := None |}.

(** A success callback that records nothing and returns. *)
Definition created : CreateRc.SuccessCb := fun _ _ => Resolved tt.

(** The same server when the release branch is there already. *)
Definition branchTaken : Env :=
  {| getAccessToken := getAccessToken obliging;
     github := fun _ r =>
       match r with
       | GitCreateRef _ _ _ _ => Rejected referenceExists
       | r' => Resolved (answer r')
       end;
     now := now obliging;
     DISABLE_CACHE := DISABLE_CACHE obliging |}.

(** A server whose rejection of a taken reference carries GitHub's message
    under [body]. *)
Definition branchTakenInBody : Env :=
  {| getAccessToken := getAccessToken obliging;
     github := fun _ r =>
       match r with
       | GitCreateRef _ _ _ _ => Rejected referenceExistsInBody
       | r' => Resolved (answer r')
       end;
     now := now obliging;
     DISABLE_CACHE := DISABLE_CACHE obliging |}.

(** The tag of [rc123], for a patch. *)
Definition rc123Tag : Patch.PatchableTag :=
  {| Patch.beforePatch := "rc-1.2.";
     Patch.tagParts := {| PluginApiClient.patch := 3 |} |}.

Definition rcBranch123 : Patch.Branch :=
  {| Patch.branch_name := "rc/1.2.3";
     Patch.branch_commit_sha := "b1a";
     Patch.branch_tree_sha := "7e0" |}.

Definition hotfix : RecentCommit :=
  {| recent_htmlUrl := "https://github.com/octo/app/commit/f1c";
     recent_sha := "f1c";
     recent_message := "Fix the crash on start";
     firstParentSha := Some "e0b" |}.

(** Verdicts of the two validators for a tag that passes the check of its
    name while the hook reports that it does not fit the strategy. *)
Definition reportsMismatch : option string -> Project -> option string -> bool :=
  fun _ _ _ => false.

Definition acceptsTagName
  : Project -> option string -> option CreateRc.AlertError :=
  fun _ _ => None.

Definition allFeatures : Render.FeaturesConfig :=
  {| Render.info_omit := None;
     Render.stats_omit := None;
     Render.createRc_omit := None;
     Render.promoteRc_omit := None;
     Render.patch_omit := None |}.

Definition fetched : AsyncState Render.GitBatchInfo :=
  {| loading := false;
     value :=
       Some {| Render.latestRelease := Some rc123;
               Render.releaseBranch := Some rcBranch123;
               Render.repository :=
                 {| Render.pushPermissions := Some true;
                    Render.defaultBranch := "main";
                    Render.repository_name := "app" |} |};
     error := None |}.

End Examples.

(** ** Stats: useGetTagDate and ReleaseTime *)

Module StatsHooks.
Import PluginApiClient Stats.

(** A tag of the release stats: the hook reads its [sha]. *)
Record StatsTag := { stats_tagName : string; stats_sha : string }.

(** [useGetTagDate({ tag })]: the state of its [useAsync] once settled. *)
Definition useGetTagDate (env : Env) (project : Project)
    (tag : option StatsTag) : Hook (AsyncState TagDate) :=
  useAsync
    (match tag with
     | None =>
         throw (GitHubReleaseManagerError
                  "Missing tag details to get tag date")
     | Some tag =>
         tagDate <- getTagDate env project (stats_sha tag) ;;
         ret (Some tagDate)
     end).

(** [releaseStat]: the candidate and version tags of one release, the most
    recent first. *)
Record ReleaseStat := {
  candidates : list StatsTag;
  versions : list StatsTag
}.

(** [[...releaseStat.candidates].reverse()[0]]: the copy is reversed, the
    list itself stays. *)
Definition firstCandidateTag (releaseStat : ReleaseStat) : option StatsTag :=
  hd_error (rev (candidates releaseStat)).

(** [releaseStat.versions[0]] *)
Definition mostRecentVersionTag (releaseStat : ReleaseStat) : option StatsTag :=
  hd_error (versions releaseStat).

(** What [ReleaseTime] returns: the progress wheel, the error alert, or the
    three lines (completed, headline, created). *)
Inductive ReleaseTimeView :=
| Loading
| CutFailed (children : string)
| Lines (completed headline created : string).

(** [`${n}`] for a number that is an integer. *)
Definition string_of_Z (n : Z) : string :=
  NilZero.string_of_int (Z.to_int n).

(** [x?.tagDate] used as a condition: it holds for a non-empty string. *)
Definition truthyDate (state : AsyncState TagDate) : option string :=
  match value state with
  | Some {| tagDate := Some date |} =>
      if String.eqb date EmptyString then None else Some date
  | _ => None
  end.

(** [cond && <text>] in a text position: nothing is rendered when the
    condition fails. *)
Definition renderedDate (format : string -> string)
    (state : AsyncState TagDate) : string :=
  match truthyDate state with
  | Some date => format date
  | None => EmptyString
  end.

Section ReleaseTime.

(** Luxon: the [days] of
    [DateTime.fromISO(b).diff(DateTime.fromISO(a), ['days', 'hours'])], and
    [DateTime.fromISO(d).setLocale('sv-SE').toFormat('yyyy-MM-dd')]. *)
Variable diffDays : string -> string -> Z.
Variable toFormat : string -> string.

(** The [days] of [diff]. *)
Definition diff_days (releaseCut releaseComplete : AsyncState TagDate) : Z :=
  match truthyDate releaseCut, truthyDate releaseComplete with
  | Some cut, Some complete => diffDays cut complete
  | _, _ => (-1)%Z
  end.

(** The component, from the states of its two [useGetTagDate] hooks: that
    of [firstCandidateTag] and that of [mostRecentVersionTag]. *)
Definition ReleaseTime (releaseStat : ReleaseStat)
    (releaseCut releaseComplete : AsyncState TagDate) : ReleaseTimeView :=
  if loading releaseCut || loading releaseComplete then Loading else
  match error releaseCut with
  | Some e =>
      CutFailed ("Failed to fetch the first Release Candidate commit ("
                   ++ error_message e ++ ")")
  | None =>
      let days := diff_days releaseCut releaseComplete in
      Lines
        ((if Nat.eqb (length (versions releaseStat)) 0
          then "-" else "Release completed ")
           ++ renderedDate toFormat releaseComplete)
        (if Z.eqb days (-1)
         then "Ongoing: " ++ string_of_Z days ++ " days"
         else "Completed in: " ++ string_of_Z days ++ " days")
        ("Release Candidate created " ++ renderedDate toFormat releaseCut)
  end.

End ReleaseTime.
End StatsHooks.

(** ** The read-only calls of the client *)

Module Reads.
Import PluginApiClient.

Record CommitAuthor := { author_html_url : string; author_login : string }.

(** An item of [repos.listCommits]: [author] may be null, [parents] may be
    missing. *)
Record CommitItem := {
  item_html_url : string;
  item_sha : string;
  item_author : option CommitAuthor;
  item_message : string;
  item_parents : option (list string)
}.

Record Permissions := { push : bool }.

Record RepositoryData := {
  repository_permissions : option Permissions;
  repository_default_branch : string;
  repository_data_name : string
}.

Record MatchingRef := {
  matching_ref : string;
  matching_object_sha : string;
  matching_object_type : string
}.

Inductive Query :=
| ReposListCommits (owner repo : string) (sha : option string)
                   (headers : Headers)
| ReposGet (owner repo : string) (headers : Headers)
| PaginateGitListMatchingRefs (owner repo ref : string) (per_page : nat)
                              (headers : Headers).

Definition QueryData (q : Query) : Type :=
  match q with
  | ReposListCommits _ _ _ _ => list CommitItem
  | ReposGet _ _ _ => RepositoryData
  | PaginateGitListMatchingRefs _ _ _ _ _ => list MatchingRef
  end.

(** What a read depends on: the OAuth api, the server, [DISABLE_CACHE]. *)
Record ReadEnv := {
  read_getAccessToken : Outcome string;
  read_github : forall q : Query, Outcome (QueryData q);
  read_DISABLE_CACHE : Headers
}.

(** A read: how it settles, and the queries it has sent. *)
Definition Read (A : Type) : Type := (Outcome A * list Query)%type.

Definition read_ret {A} (a : A) : Read A := (Resolved a, []).

Definition read_bind {A B} (m : Read A) (k : A -> Read B) : Read B :=
  match m with
  | (Resolved a, sent) =>
      let '(o, sent') := k a in (o, (sent ++ sent')%list)
  | (Rejected e, sent) => (Rejected e, sent)
  end.

Definition read_getOctokit (env : ReadEnv) : Read unit :=
  match read_getAccessToken env with
  | Resolved _ => (Resolved tt, [])
  | Rejected e => (Rejected e, [])
  end.

Definition ask (env : ReadEnv) (q : Query) : Read (QueryData q) :=
  (read_github env q, [q]).

(** [s.length] *)
Definition string_length (s : string) : nat := String.length s.

(** [s.slice(n)] *)
Fixpoint slice (n : nat) (s : string) : string :=
  match n, s with
  | 0, _ => s
  | S n', String _ rest => slice n' rest
  | S _, EmptyString => EmptyString
  end.

(** [s.replace(searchValue, replaceValue)] for a string [searchValue] and a
    [replaceValue] without dollar sign: the first occurrence is replaced. *)
Fixpoint replace (searchValue replaceValue s : string) : string :=
  if String.prefix searchValue s
  then replaceValue ++ slice (string_length searchValue) s
  else match s with
       | EmptyString => EmptyString
       | String c rest => String c (replace searchValue replaceValue rest)
       end.

(** [s ? ... : ...] for [string | undefined] *)
Definition truthy (s : option string) : bool :=
  match s with
  | Some x => negb (String.eqb x EmptyString)
  | None => false
  end.

(** A commit as [getRecentCommits] returns it: what the patch calls read,
    and the author. *)
Record ListedCommit := {
  listed : RecentCommit;
  listed_author_htmlUrl : option string;
  listed_author_login : option string
}.

Definition getRecentCommits (env : ReadEnv) (owner repo : string)
    (releaseBranchName : option string) : Read (list ListedCommit) :=
  read_bind (read_getOctokit env) (fun _ =>
  read_bind
    (ask env (ReposListCommits owner repo
                (if truthy releaseBranchName then releaseBranchName else None)
                (read_DISABLE_CACHE env)))
    (fun recentCommitsResponse =>
  read_ret
    (map (fun commit =>
            {| listed :=
                 {| recent_htmlUrl := item_html_url commit;
                    recent_sha := item_sha commit;
                    recent_message := item_message commit;
                    firstParentSha :=
                      match item_parents commit with
                      | Some (parent :: _) => Some parent
                      | _ => None
                      end |};
               listed_author_htmlUrl :=
                 option_map author_html_url (item_author commit);
               listed_author_login :=
                 option_map author_login (item_author commit) |})
         recentCommitsResponse))).

Definition getRepository (env : ReadEnv) (owner repo : string)
  : Read Render.Repository :=
  read_bind (read_getOctokit env) (fun _ =>
  read_bind (ask env (ReposGet owner repo (read_DISABLE_CACHE env)))
    (fun repository =>
  read_ret
    {| Render.pushPermissions :=
         option_map push (repository_permissions repository);
       Render.defaultBranch := repository_default_branch repository;
       Render.repository_name := repository_data_name repository |})).

Record ListedTag := {
  listed_tagName : string;
  listed_sha : string;
  listed_type : string
}.

Definition getAllTags (env : ReadEnv) (owner repo : string)
  : Read (list ListedTag) :=
  read_bind (read_getOctokit env) (fun _ =>
  read_bind
    (ask env (PaginateGitListMatchingRefs owner repo "tags" 100
                                          (read_DISABLE_CACHE env)))
    (fun tags =>
  read_ret
    (map (fun tag =>
            {| listed_tagName :=
                 replace "refs/tags/" EmptyString (matching_ref tag);
               listed_sha := matching_object_sha tag;
               listed_type := matching_object_type tag |})
         tags))).

End Reads.

(** ** More concrete inputs *)

Module MoreExamples.
Import PluginApiClient Examples.

(** The server when the tag reference is there already. *)
Definition tagTaken : Env :=
  {| getAccessToken := getAccessToken obliging;
     github := fun _ r =>
       match r with
       | GitCreateRef _ _ ref _ as r' =>
           if String.prefix "refs/tags/" ref
           then Rejected referenceExists
           else Resolved (answer r')
       | r' => Resolved (answer r')
       end;
     now := now obliging;
     DISABLE_CACHE := DISABLE_CACHE obliging |}.

Definition expired : JsError :=
  {| error_name := "Error";
     error_message := "Login required";
     error_status := None;
     error_body_message := None |}.

(** The server for a user whose session has expired. *)
Definition signedOut : Env :=
  {| getAccessToken := fun _ => Rejected expired;
     github := github obliging;
     now := now obliging;
     DISABLE_CACHE := DISABLE_CACHE obliging |}.

End MoreExamples.

(** ** More vocabulary of the statements *)

(** The errors and the presence of values of the six async steps, in the
    order of the steps. *)
Definition settledErrors (hook : CreateRc.CardHook) : list (option JsError) :=
  [error (CreateRc.latestCommitRes hook);
   error (CreateRc.releaseBranchRes hook);
   error (CreateRc.tagObjectRes hook);
   error (CreateRc.createRcRes hook);
   error (CreateRc.getComparisonRes hook);
   error (CreateRc.createReleaseRes hook)].

Definition hasValue {A} (state : AsyncState A) : bool :=
  match value state with Some _ => true | None => false end.

Definition settledValues (hook : CreateRc.CardHook) : list bool :=
  [hasValue (CreateRc.latestCommitRes hook);
   hasValue (CreateRc.releaseBranchRes hook);
   hasValue (CreateRc.tagObjectRes hook);
   hasValue (CreateRc.createRcRes hook);
   hasValue (CreateRc.getComparisonRes hook);
   hasValue (CreateRc.createReleaseRes hook)].

(** The state of a step that ended with the error [e]. *)
Definition failedWith {A} (e : JsError) : AsyncState A :=
  {| loading := false; value := None; error := Some e |}.

Module FailingServers.
Import PluginApiClient Examples.

(** The server when the user may not write to the repository. *)
Definition readOnly : Env :=
  {| getAccessToken := getAccessToken obliging;
     github := fun _ r =>
       match r with
       | GitCreateRef _ _ _ _ => Rejected (RequestError 403 "Forbidden")
       | r' => Resolved (answer r')
       end;
     now := now obliging;
     DISABLE_CACHE := DISABLE_CACHE obliging |}.

End FailingServers.

(** The cards of the page: the action cards and the info card. *)
Definition isCard (e : Render.Element) : bool :=
  match e with
  | Render.Info _ | Render.CreateReleaseCandidate | Render.PromoteRc
  | Render.Patch => true
  | _ => false
  end.

(** [e] is rendered. *)
Definition renders (es : list Render.Element) (e : Render.Element) : Prop :=
  In e es.

Module StatsExamples.
Import StatsHooks.

(** A release that has just been cut: one candidate, no version yet. *)
Definition justCut : ReleaseStat :=
  {| candidates := [{| stats_tagName := "rc-1.3.0"; stats_sha := "7a9" |}];
     versions := [] |}.

(** A difference in days, for two dates that are three days apart. *)
Definition threeDaysApart (a b : string) : Z := 3%Z.

Definition settledOn (date : string) : AsyncState Stats.TagDate :=
  {| loading := false;
     value := Some {| Stats.tagDate := Some date |};
     error := None |}.

End StatsExamples.

Module ReadExamples.
Import Reads.

(** A repository with two tags, the second of an unusual name. *)
Definition twoTags : ReadEnv :=
  {| read_getAccessToken := Resolved "gho_token";
     read_github := fun q =>
       match q with
       | ReposListCommits _ _ _ _ =>
           Resolved [{| item_html_url := "https://github.com/octo/app/commit/a1";
                        item_sha := "a1";
                        item_author := None;
                        item_message := "Initial commit";
                        item_parents := Some [] |}]
       | ReposGet _ _ _ =>
           Resolved {| repository_permissions := None;
                       repository_default_branch := "main";
                       repository_data_name := "app" |}
       | PaginateGitListMatchingRefs _ _ _ _ _ =>
           Resolved [{| matching_ref := "refs/tags/rc-1.3.0";
                        matching_object_sha := "7a9";
                        matching_object_type := "tag" |};
                     {| matching_ref := "refs/tags/refs/tags/odd";
                        matching_object_sha := "0dd";
                        matching_object_type := "commit" |}]
       end;
     read_DISABLE_CACHE := [("If-None-Match", EmptyString)] |}.

End ReadExamples.

Module ConfigExamples.

(** An enterprise integration that does not say where its API is. *)
Definition bareEnterprise : GitHubIntegrationConfig :=
  {| config_host := "ghe.example.net"; config_apiBaseUrl := None |}.

(** An enterprise integration under another host name. *)
Definition otherEnterprise : GitHubIntegrationConfig :=
  {| config_host := "github.example.net";
     config_apiBaseUrl := Some "https://github.example.net/api/v3" |}.

End ConfigExamples.
(** * Properties *)

Unset Implicit Arguments.

(** ** Lists and traces *)

Lemma skipn_length_app {A} (h l : list A) : skipn (length h) (h ++ l)%list = l.
Proof. induction h; simpl; auto. Qed.

Lemma skipn_length_self {A} (h : list A) : skipn (length h) h = [].
Proof. induction h; simpl; auto. Qed.

Lemma trace_emit e w : trace (emit e w) = (trace w ++ [e])%list.
Proof. reflexivity. Qed.

Lemma authorized_token env h :
  authorized env -> exists token, getAccessToken env h = Resolved token.
Proof.
  intros Hauth. specialize (Hauth h).
  destruct (getAccessToken env h) as [token|e]; [eauto | discriminate].
Qed.

Lemma prefix_of_append (s rest : string) : String.prefix s (s ++ rest) = true.
Proof.
  induction s as [|c s IH]; simpl.
  - destruct rest; reflexivity.
  - destruct (ascii_dec c c) as [_|Hne]; [exact IH | contradiction].
Qed.

Lemma includes_prefix (t s : string) :
  String.prefix s t = true -> includes t s = true.
Proof. intros H. destruct t; cbn [includes]; rewrite H; reflexivity. Qed.

Lemma mentions_includes (t s : string) : mentions t s -> includes t s = true.
Proof.
  intros (before & after & ->).
  induction before as [|c before IH].
  - change (includes (s ++ after) s = true).
    apply includes_prefix, prefix_of_append.
  - cbn [append includes]. rewrite IH. apply orb_true_r.
Qed.


(** Brings the events added to a trace into the form of a list. *)
Ltac trace_norm :=
  unfold issued; simpl;
  repeat rewrite <- app_assoc; simpl;
  try rewrite skipn_length_app; try rewrite skipn_length_self.

(** Rewrites with the token at hand. *)
Ltac with_token Hauth :=
  repeat match goal with
    | |- context [getAccessToken ?env ?h] =>
        let token := fresh "token" in
        let Htok := fresh "Htok" in
        destruct (authorized_token env h Hauth) as [token Htok];
        rewrite Htok; simpl
    end.

(** Reduces what is known: pairs, record fields, the trace of a world. *)
Ltac tidy :=
  cbv beta iota zeta;
  cbn [fst snd trace responseSteps emit resolved
       PluginApiClient.result_name PluginApiClient.result_tagName
       PluginApiClient.result_htmlUrl PluginApiClient.latestCommit_sha
       PluginApiClient.latestCommit_htmlUrl
       PluginApiClient.latestCommit_message PluginApiClient.tagSha
       PluginApiClient.created_tagName PluginApiClient.comparison_htmlUrl
       PluginApiClient.aheadBy PluginApiClient.updated_ref
       PluginApiClient.updated_object_sha gitcommit_sha gitcommit_message
       merge_html_url merge_commit_message merge_commit_tree_sha
       PluginApiClient.stats.date value error loading
       CreateRc.comparison CreateRc.releaseBody].

(** Unfolds the async functions of the client down to the oracles. *)
Ltac run_async :=
  cbv beta iota zeta delta
    [bind catch ret throw send settled
     PluginApiClient.getOctokit PluginApiClient.toISOString
     PluginApiClient.getRepositories PluginApiClient.getLatestRelease
     PluginApiClient.getLatestCommit PluginApiClient.createTagObject
     PluginApiClient.createReference PluginApiClient.releaseResult
     PluginApiClient.createRc.createReleaseBranch
     PluginApiClient.createRc.getComparison
     PluginApiClient.createRc.createRelease
     PluginApiClient.patch.createTempCommit
     PluginApiClient.patch.forceBranchHeadToTempCommit
     PluginApiClient.patch.merge
     PluginApiClient.patch.createCherryPickCommit
     PluginApiClient.patch.replaceTempCommit
     PluginApiClient.patch.createTagObject
     PluginApiClient.patch.createReference
     PluginApiClient.patch.updateRelease
     PluginApiClient.promoteRc.promoteRelease
     PluginApiClient.stats.getSingleTag PluginApiClient.stats.getCommit
     useResponseSteps.addStepToResponseSteps useResponseSteps.asyncCatcher
     useResponseSteps.abortIfError];
  tidy.

(** Uses the known answer [H] of an oracle and goes on. *)
Ltac answered H := rewrite H; tidy.

(** Splits on how a pending call settles. *)
Ltac settle :=
  repeat match goal with
    | |- context [match ?o with Resolved _ => _ | Rejected _ => _ end] =>
        let Ho := fresh "Ho" in destruct o eqn:Ho; tidy
    end.

(** ** Concrete runs *)

Module Runs.
Import PluginApiClient Examples.

Example organization_repositories :
  getRepositories obliging "octo" newWorld
  = (Resolved ["app"],
     {| trace := [Sent (PaginateReposListForOrg "octo" 100) true];
        responseSteps := [] |}).
Proof. reflexivity. Qed.

Example latest_release_is_the_first_listed :
  fst (getLatestRelease obliging "octo" "app" newWorld)
  = Resolved (Some rc123).
Proof. reflexivity. Qed.

Example release_body_of_a_comparison :
  CreateRc.composeReleaseBody
    {| comparison_htmlUrl := "https://github.com/octo/app/compare/a...b";
       aheadBy := 12 |}
    "refs/tags/rc-1.3.0"
  = "**Compare** https://github.com/octo/app/compare/a...b" ++ nl ++ nl
      ++ "**Ahead by** 12 commits" ++ nl ++ nl
      ++ "**Release branch** refs/tags/rc-1.3.0" ++ nl ++ nl
      ++ "---" ++ nl ++ nl.
Proof. reflexivity. Qed.

Example full_run_reports_all_done :
  match fst (CreateRc.useCreateRc obliging "main" (Some rc123) next130
                                  octoApp (Some created) octocat newWorld)
  with
  | Resolved hook => (CreateRc.progress hook == 100)%Q
  | Rejected _ => False
  end.
Proof. vm_compute. reflexivity. Qed.

Example taken_branch_stops_after_the_fetch :
  match fst (CreateRc.useCreateRc branchTaken "main" (Some rc123) next130
                                  octoApp None octocat newWorld)
  with
  | Resolved hook =>
      (CreateRc.progress hook == 100 # 6)%Q
      /\ option_map error_message
                    (error (CreateRc.createReleaseRes hook))
         = Some "Reference already exists"
  | Rejected _ => False
  end.
Proof. vm_compute. split; reflexivity. Qed.

Example taken_branch_reported_under_body :
  match fst (CreateRc.useCreateRc branchTakenInBody "main" (Some rc123)
                                  next130 octoApp None octocat newWorld)
  with
  | Resolved hook =>
      option_map error_message (error (CreateRc.createReleaseRes hook))
      = Some ("Branch " ++ dq ++ "rc/1.3.0" ++ dq
                ++ " already exists: .../tree/rc/1.3.0")
  | Rejected _ => False
  end.
Proof. vm_compute. reflexivity. Qed.

Example empty_title_counts_as_none :
  CreateRc.unexpectedErrorMessage
    {| CreateRc.title := Some EmptyString; CreateRc.subtitle := "No tag" |}
  = "Unexpected error: No tag".
Proof. reflexivity. Qed.

Example promotion_finds_no_release_to_read :
  fst (PromoteRc.promoteRc obliging octoApp rc123 "version-1.2.3"
                           (Some promoted) newWorld)
  = Rejected (TypeError "Cannot read property 'name' of undefined").
Proof. reflexivity. Qed.

End Runs.

(** ** The client *)

Module ClientProperties.
Import PluginApiClient Examples.

Lemma find_none_iff {A} (p : A -> bool) (l : list A) :
  find p l = None <-> forall x, In x l -> p x = false.
Proof.
  split.
  - apply find_none.
  - induction l as [|a l IH]; simpl; intros H; [reflexivity|].
    rewrite (H a (or_introl eq_refl)). apply IH. intros x Hx. apply H. now right.
Qed.

Lemma ghe_is_not_github host :
  String.prefix "ghe." host = true -> String.eqb host "github.com" = false.
Proof.
  intros Hp. destruct (String.eqb host "github.com") eqn:E; [|reflexivity].
  apply String.eqb_eq in E. subst host. discriminate Hp.
Qed.

(** C10.  Resolving the GitHub integration configuration: when a config
    whose host starts with "ghe." is present, such a config is the one
    chosen, also when a "github.com" config is present (the chosen one is
    the first enterprise config and never the "github.com" one); when
    neither kind is present, nothing is chosen and the client's host is
    "github.com" and its API base URL "https://api.github.com". *)
Theorem enterprise_config_first_else_defaults
    (configs : list GitHubIntegrationConfig) :
  (forall e,
      In e configs -> String.prefix "ghe." (config_host e) = true ->
      exists c,
        getGithubIntegrationConfig configs = Some c
        /\ In c configs
        /\ String.prefix "ghe." (config_host c) = true
        /\ String.eqb (config_host c) "github.com" = false
        /\ host (constructor configs) = config_host c)
  /\ ((forall c, In c configs ->
         String.prefix "ghe." (config_host c) = false
         /\ String.eqb (config_host c) "github.com" = false) ->
      getGithubIntegrationConfig configs = None
      /\ host (constructor configs) = "github.com"
      /\ baseUrl (constructor configs) = "https://api.github.com").
Proof.
  split.
  - intros e Hin Hghe.
    unfold constructor, getGithubIntegrationConfig.
    destruct (find (fun v => String.prefix "ghe." (config_host v)) configs)
      as [c|] eqn:Hfind.
    + exists c. apply find_some in Hfind. destruct Hfind as [Hc Hp].
      repeat split; auto using ghe_is_not_github.
    + rewrite find_none_iff in Hfind. rewrite (Hfind e Hin) in Hghe.
      discriminate.
  - intros Hnone.
    assert (Hg : getGithubIntegrationConfig configs = None).
    { unfold getGithubIntegrationConfig.
      replace (find (fun v => String.prefix "ghe." (config_host v)) configs)
        with (@None GitHubIntegrationConfig)
        by (symmetry; apply find_none_iff; intros x Hx; apply Hnone, Hx).
      apply find_none_iff. intros x Hx. apply Hnone, Hx. }
    unfold constructor. rewrite Hg. auto.
Qed.

Lemma enterprise_config_first_else_defaults_witness :
  (exists c,
      getGithubIntegrationConfig [githubCom; enterprise] = Some c
      /\ In c [githubCom; enterprise]
      /\ String.prefix "ghe." (config_host c) = true
      /\ String.eqb (config_host c) "github.com" = false
      /\ host (constructor [githubCom; enterprise]) = config_host c)
  /\ (getGithubIntegrationConfig [gitlab] = None
      /\ host (constructor [gitlab]) = "github.com"
      /\ baseUrl (constructor [gitlab]) = "https://api.github.com").
Proof.
  split.
  - apply (proj1 (enterprise_config_first_else_defaults
                    [githubCom; enterprise]) enterprise).
    + simpl. auto.
    + reflexivity.
  - apply (proj2 (enterprise_config_first_else_defaults [gitlab])).
    intros c [<-|[]]. split; reflexivity.
Defined.

End ClientProperties.

Lemma status_is_iff e n : status_is e n = true <-> error_status e = Some n.
Proof.
  unfold status_is. destruct (error_status e) as [s|].
  - rewrite Nat.eqb_eq. split; congruence.
  - split; discriminate.
Qed.

Module RepositoriesProperties.
Import PluginApiClient.

(** C9.  [getRepositories] first lists the owner's repositories as an
    organization.  The listing as a user is requested if and only if that
    first call fails with status 404.  An error with another status reaches
    the caller as it is and nothing else is sent; when the first call
    succeeds its repositories are the result; on a 404 the result is that of
    the user listing. *)
Theorem getRepositories_user_listing_iff_404
    (env : Env) (ownerName : string) (w : World) :
  authorized env ->
  let org := PaginateReposListForOrg ownerName 100 in
  let usr := PaginateReposListForUser ownerName 100 in
  let run := getRepositories env ownerName in
  (exists ok rest, issued run w = Sent org ok :: rest)
  /\ (In usr (requests (issued run w)) <->
      exists e, github env (trace w) org = Rejected e
                /\ error_status e = Some 404)
  /\ (forall e,
        github env (trace w) org = Rejected e -> error_status e <> Some 404 ->
        fst (run w) = Rejected e /\ requests (issued run w) = [org])
  /\ (forall repos,
        github env (trace w) org = Resolved repos ->
        fst (run w) = Resolved (map repo_name repos)
        /\ requests (issued run w) = [org])
  /\ (forall e,
        github env (trace w) org = Rejected e -> error_status e = Some 404 ->
        requests (issued run w) = [org; usr]
        /\ fst (run w) =
             match github env (trace w ++ [Sent org false])%list usr with
             | Resolved repos => Resolved (map repo_name repos)
             | Rejected e' => Rejected e'
             end).
Proof.
  intros Hauth org usr run.
  destruct (authorized_token env (trace w) Hauth) as [token Htok].
  assert (Hrun : run w =
    match github env (trace w) org with
    | Resolved repos =>
        (Resolved (map repo_name repos), emit (Sent org true) w)
    | Rejected e =>
        if status_is e 404 then
          let o := github env (trace w ++ [Sent org false])%list usr in
          (match o with
           | Resolved repos => Resolved (map repo_name repos)
           | Rejected e' => Rejected e'
           end,
           emit (Sent usr (resolved o)) (emit (Sent org false) w))
        else (Rejected e, emit (Sent org false) w)
    end).
  { unfold run, getRepositories, bind, catch, getOctokit, send, throw, ret.
    rewrite Htok. fold org.
    destruct (github env (trace w) org) as [repos|e]; simpl; [reflexivity|].
    destruct (status_is e 404); simpl; [|reflexivity].
    fold usr.
    destruct (github env (trace w ++ [Sent org false])%list usr);
      reflexivity. }
  assert (Hissued : issued run w =
    match github env (trace w) org with
    | Resolved _ => [Sent org true]
    | Rejected e =>
        if status_is e 404 then
          [Sent org false;
           Sent usr (resolved (github env (trace w ++ [Sent org false])%list
                                      usr))]
        else [Sent org false]
    end).
  { unfold issued. rewrite Hrun.
    destruct (github env (trace w) org) as [repos|e]; simpl.
    - apply skipn_length_app.
    - destruct (status_is e 404); simpl.
      + rewrite <- app_assoc. apply skipn_length_app.
      + apply skipn_length_app. }
  rewrite Hissued, Hrun. clear Hrun Hissued.
  destruct (github env (trace w) org) as [repos|e] eqn:Horg.
  - split; [eauto|]. split; [|split; [|split]].
    + simpl. split.
      * intros [H|[]]. discriminate H.
      * intros (e & He & _). discriminate He.
    + discriminate.
    + intros repos' H. inversion H. auto.
    + discriminate.
  - destruct (status_is e 404) eqn:Hst.
    + apply status_is_iff in Hst.
      split; [eauto|]. split; [|split; [|split]].
      * simpl. split; eauto.
      * intros e' H Hne. inversion H; subst. contradiction.
      * discriminate.
      * intros e' H _. inversion H; subst. auto.
    + assert (Hne : error_status e <> Some 404).
      { intros H. apply status_is_iff in H. congruence. }
      split; [eauto|]. split; [|split; [|split]].
      * simpl. split.
        -- intros [H|[]]. discriminate H.
        -- intros (e' & He & H404). inversion He; subst. contradiction.
      * intros e' H _. inversion H; auto.
      * discriminate.
      * intros e' H H404. inversion H; subst. contradiction.
Qed.

End RepositoriesProperties.

Module RepositoriesWitness.
Import PluginApiClient Examples.

Lemma getRepositories_user_listing_iff_404_witness :
  authorized ownerIsUser
  /\ requests (issued (getRepositories ownerIsUser "octocat") newWorld)
     = [PaginateReposListForOrg "octocat" 100;
        PaginateReposListForUser "octocat" 100]
  /\ fst (getRepositories ownerIsUser "octocat" newWorld)
     = Resolved ["dotfiles"].
Proof.
  assert (Hauth : authorized ownerIsUser) by (intros h; reflexivity).
  split; [exact Hauth|].
  apply (proj2 (proj2 (proj2 (proj2
    (RepositoriesProperties.getRepositories_user_listing_iff_404
       ownerIsUser "octocat" newWorld Hauth)))) notFound); reflexivity.
Defined.

End RepositoriesWitness.

Module LatestReleaseProperties.
Import PluginApiClient.

(** C8.  [getLatestRelease] asks for the releases one per page.  Where the
    listing answers with the first page of the repository's releases, the
    result is null exactly when the repository has no release, and otherwise
    the first release listed, reduced to targetCommitish, tagName,
    prerelease, id, htmlUrl and body. *)
Theorem getLatestRelease_null_iff_no_release
    (env : Env) (ownerName repoName : string) (w : World)
    (releases : list ReleaseData) :
  authorized env ->
  (forall per_page headers,
      github env (trace w) (ReposListReleases ownerName repoName per_page
                                              headers)
      = Resolved (GitHub.firstPage per_page releases)) ->
  let run := getLatestRelease env ownerName repoName in
  requests (issued run w)
    = [ReposListReleases ownerName repoName 1 (DISABLE_CACHE env)]
  /\ (fst (run w) = Resolved None <-> releases = [])
  /\ (forall first rest,
        releases = first :: rest ->
        fst (run w)
        = Resolved (Some {| targetCommitish := release_target_commitish first;
                            tagName := release_tag_name first;
                            prerelease := release_prerelease first;
                            id := release_id first;
                            htmlUrl := release_html_url first;
                            body := release_body first |})).
Proof.
  intros Hauth Hlist run.
  destruct (authorized_token env (trace w) Hauth) as [token Htok].
  assert (Hrun : run w =
    (match releases with
     | [] => Resolved None
     | first :: _ =>
         Resolved (Some {| targetCommitish := release_target_commitish first;
                           tagName := release_tag_name first;
                           prerelease := release_prerelease first;
                           id := release_id first;
                           htmlUrl := release_html_url first;
                           body := release_body first |})
     end,
     emit (Sent (ReposListReleases ownerName repoName 1 (DISABLE_CACHE env))
                true) w)).
  { unfold run, getLatestRelease, bind, getOctokit, send, ret.
    rewrite Htok, Hlist. unfold GitHub.firstPage.
    destruct releases as [|first rest]; reflexivity. }
  split; [|split].
  - unfold issued. rewrite Hrun. simpl. rewrite skipn_length_app. reflexivity.
  - rewrite Hrun. simpl. destruct releases; split; congruence.
  - intros first rest ->. rewrite Hrun. reflexivity.
Qed.

End LatestReleaseProperties.

Module LatestReleaseWitness.
Import PluginApiClient Examples.

Lemma getLatestRelease_null_iff_no_release_witness :
  authorized noReleases
  /\ (fst (getLatestRelease noReleases "octo" "app" newWorld) = Resolved None
      <-> @nil ReleaseData = []).
Proof.
  assert (Hauth : authorized noReleases) by (intros h; reflexivity).
  split; [exact Hauth|].
  apply (LatestReleaseProperties.getLatestRelease_null_iff_no_release
           noReleases "octo" "app" newWorld [] Hauth).
  intros per_page headers. reflexivity.
Defined.

End LatestReleaseWitness.

(** ** Tag dates *)

Module TagDateProperties.
Import PluginApiClient Stats Examples.

(** C5, as stated, fails: on a server that answers the tag lookup with
    status 500, [getTagDate] still resolves, so the error is swallowed
    although nothing says that the tag is lightweight; and the date it
    returns is the commit's committer date, which here differs from its
    author date. *)
Lemma getTagDate_swallows_server_error_and_reads_committer :
  github tagLookupFails [] (GitGetTag "octo" "app" "7a9")
    = Rejected serverError
  /\ error_status serverError = Some 500
  /\ fst (getTagDate tagLookupFails octoApp "7a9" newWorld)
     = Resolved {| tagDate := Some "2021-02-02T12:00:00Z" |}
  /\ option_map user_date (commit_author someCommit)
     = Some (Some "2021-01-01T10:00:00Z")
  /\ option_map user_date (commit_committer someCommit)
     = Some (Some "2021-02-02T12:00:00Z").
Proof. repeat split. Qed.

(** C5, amended.  [getTagDate] returns the annotated tag's own date when the
    tag lookup succeeds, and then sends nothing else.  When the tag lookup
    fails, whatever the error, it fetches the commit of the same sha and
    returns that commit's committer date (nothing when the commit has none);
    an error of the commit lookup reaches the caller. *)
Theorem getTagDate_tag_date_else_committer_date
    (env : Env) (project : Project) (tagSha : string) (w : World) :
  authorized env ->
  let getTag := GitGetTag (owner project) (repo project) tagSha in
  let getCommit :=
    ReposGetCommit (owner project) (repo project) tagSha [] in
  let run := getTagDate env project tagSha in
  (forall tag,
      github env (trace w) getTag = Resolved tag ->
      fst (run w) = Resolved {| tagDate := Some (tag_tagger_date tag) |}
      /\ requests (issued run w) = [getTag])
  /\ (forall e,
        github env (trace w) getTag = Rejected e ->
        requests (issued run w) = [getTag; getCommit]
        /\ fst (run w) =
             match github env (trace w ++ [Sent getTag false])%list getCommit
             with
             | Resolved commit =>
                 Resolved {| tagDate :=
                               match commit_committer commit with
                               | Some committer => user_date committer
                               | None => None
                               end |}
             | Rejected e' => Rejected e'
             end).
Proof.
  intros Hauth getTag getCommit run.
  destruct (authorized_token env (trace w) Hauth) as [token Htok].
  destruct (authorized_token env (trace w ++ [Sent getTag false])%list Hauth)
    as [token' Htok'].
  split.
  - intros tag Htag.
    unfold run, issued, getTagDate. run_async.
    answered Htok. fold getTag. answered Htag.
    rewrite skipn_length_app. auto.
  - intros e He.
    unfold run, issued, getTagDate. run_async.
    answered Htok. fold getTag. answered He.
    answered Htok'. fold getCommit.
    destruct (github env (trace w ++ [Sent getTag false])%list getCommit)
      as [commit|e']; tidy;
      rewrite <- app_assoc, skipn_length_app; auto.
Qed.

Lemma getTagDate_tag_date_else_committer_date_witness :
  authorized obliging
  /\ fst (getTagDate obliging octoApp "7a9" newWorld)
     = Resolved {| tagDate := Some "2021-03-03T09:00:00Z" |}
  /\ requests (issued (getTagDate obliging octoApp "7a9") newWorld)
     = [GitGetTag "octo" "app" "7a9"].
Proof.
  assert (Hauth : authorized obliging) by (intros h; reflexivity).
  split; [exact Hauth|].
  apply (proj1 (getTagDate_tag_date_else_committer_date
                  obliging octoApp "7a9" newWorld Hauth) someTag).
  reflexivity.
Defined.

End TagDateProperties.

(** ** Promotion *)

Module PromoteRcProperties.
Import PluginApiClient PromoteRc Examples.



End PromoteRcProperties.

(** ** Release-candidate creation *)

(** Unfolds the hook down to the async functions of the client. *)
Ltac run_hook :=
  cbv beta iota zeta delta
    [useAsync CreateRc.useCreateRc CreateRc.run CreateRc.releaseBranch
     CreateRc.tagObject CreateRc.createRc CreateRc.getComparison
     CreateRc.createRelease CreateRc.runSuccessCb CreateRc.callSuccessCb];
  run_async.

(** Brings a trace into the form [h ++ [e1; ...; en]]. *)
Ltac flatten_trace := rewrite <- ?app_assoc; cbn [app].

(** Splits on every test the hook still waits for. *)
Ltac explore :=
  repeat (tidy;
          match goal with
          | |- context [match ?o with Resolved _ => _ | Rejected _ => _ end] =>
              let Ho := fresh "Ho" in destruct o eqn:Ho
          | |- context [if body_message_is ?e ?m then _ else _] =>
              let Hm := fresh "Hm" in destruct (body_message_is e m) eqn:Hm
          end);
  tidy.

(** Takes the token, then the answer [H] to the request that follows. *)
Ltac proceed Hauth H :=
  flatten_trace;
  match goal with
  | |- context [getAccessToken ?env ?h] =>
      let token := fresh "token" in
      let Htok := fresh "Htok" in
      destruct (authorized_token env h Hauth) as [token Htok];
      rewrite Htok; tidy
  end;
  flatten_trace; rewrite H; tidy.

Module CreateRcProperties.
Import PluginApiClient CreateRc CreateRcRequests Examples.

Lemma stepOf_branch ownerName repoName branch sha ok :
  stepOf (Sent (GitCreateRef ownerName repoName ("refs/heads/" ++ branch) sha)
               ok)
  = CreateReleaseBranch.
Proof. destruct branch; reflexivity. Qed.

Lemma stepOf_tagRef ownerName repoName tag sha ok :
  stepOf (Sent (GitCreateRef ownerName repoName ("refs/tags/" ++ tag) sha) ok)
  = CreateTagReference.
Proof. destruct tag; reflexivity. Qed.

(** Names the steps of the events of a run. *)
Ltac name_steps :=
  cbn [map]; rewrite ?stepOf_branch, ?stepOf_tagRef; cbn [stepOf].

Lemma useCreateRc_order_any_run
    (env : Env) (defaultBranch : string)
    (latestRelease : option LatestRelease) (nextGitHubInfo : RcGitHubInfo)
    (project : Project) (successCb : option SuccessCb) (user : User)
    (w : World) :
  let run :=
    useCreateRc env defaultBranch latestRelease nextGitHubInfo project
                successCb user in
  isPrefixOf (map stepOf (issued run w)) createRcOrder
  /\ Forall (fun e => event_ok e = true) (removelast (issued run w)).
Proof.
  intros run. unfold run, issued.
  unfold useCreateRc.
  destruct (info_error nextGitHubInfo) as [e|].
  { cbn [snd]. rewrite skipn_length_self. split; [eexists; reflexivity|].
    constructor. }
  destruct successCb as [cb|]; run_hook; explore;
    flatten_trace; rewrite ?app_nil_r, ?skipn_length_app, ?skipn_length_self;
    (split; [name_steps; eexists; reflexivity
           | cbn [removelast]; repeat constructor]).
Qed.

Lemma useCreateRc_trace_when_all_succeed
    (env : Env) (defaultBranch : string)
    (latestRelease : option LatestRelease) (nextGitHubInfo : RcGitHubInfo)
    (project : Project) (successCb : option SuccessCb) (user : User)
    (w : World)
    (commit : CommitData) (branch : RefData) (tag : TagData)
    (tagRef : RefData) (compared : CompareData) (release : ReleaseData) :
  authorized env ->
  info_error nextGitHubInfo = None ->
  let run :=
    useCreateRc env defaultBranch latestRelease nextGitHubInfo project
                successCb user in
  let h := trace w in
  let r1 := fetchLatestCommit env defaultBranch project in
  let e1 := Sent r1 true in
  let r2 := createBranch nextGitHubInfo project commit in
  let e2 := Sent r2 true in
  let r3 :=
    createTag nextGitHubInfo project user (now env (h ++ [e1; e2])%list)
              branch in
  let e3 := Sent r3 true in
  let r4 := createTagRef nextGitHubInfo project tag in
  let e4 := Sent r4 true in
  let r5 := compareBranches defaultBranch latestRelease nextGitHubInfo
                            project in
  let e5 := Sent r5 true in
  let r6 := createPrerelease nextGitHubInfo project compared tagRef in
  let e6 := Sent r6 true in
  let payload := successPayload latestRelease compared release in
  github env h r1 = Resolved commit ->
  github env (h ++ [e1])%list r2 = Resolved branch ->
  github env (h ++ [e1; e2])%list r3 = Resolved tag ->
  github env (h ++ [e1; e2; e3])%list r4 = Resolved tagRef ->
  github env (h ++ [e1; e2; e3; e4])%list r5 = Resolved compared ->
  github env (h ++ [e1; e2; e3; e4; e5])%list r6 = Resolved release ->
  issued run w =
    ([e1; e2; e3; e4; e5; e6]
       ++ match successCb with
          | Some cb =>
              [CreateRcSuccessCb payload
                 (resolved (cb (h ++ [e1; e2; e3; e4; e5; e6])%list payload))]
          | None => []
          end)%list.
Proof.
  intros Hauth Hinfo run h r1 e1 r2 e2 r3 e3 r4 e4 r5 e5 r6 e6 payload
         H1 H2 H3 H4 H5 H6.
  cbv beta zeta delta
    [h r1 e1 r2 e2 r3 e3 r4 e4 r5 e5 r6 e6 payload fetchLatestCommit
     createBranch createTag createTagRef compareBranches previousBranch
     createPrerelease bodyFrom successPayload] in *.
  clear h r1 e1 r2 e2 r3 e3 r4 e4 r5 e5 r6 e6 payload.
  unfold run, issued, useCreateRc. rewrite Hinfo.
  destruct successCb as [cb|]; run_hook;
    proceed Hauth H1; proceed Hauth H2; proceed Hauth H3;
    proceed Hauth H4; proceed Hauth H5;
    unfold composeReleaseBody; tidy; proceed Hauth H6.
  - flatten_trace.
    destruct (cb _ _); tidy; flatten_trace; rewrite skipn_length_app;
      reflexivity.
  - flatten_trace. rewrite skipn_length_app. reflexivity.
Qed.

(** C1.  The release-candidate flow sends its requests in one order: after
    the fetch of the latest commit of the default branch, it creates the
    release branch, then the tag object, then the tag reference, then asks
    for the comparison, then creates the prerelease, then invokes the success
    callback.  In every execution the steps taken are a prefix of this order
    and every step but the last one taken has succeeded.  When all succeed,
    the branch is created at the sha of the latest commit; the tag object
    points at the sha that the creation of the branch answered with, which
    is the sha of the latest commit when GitHub answers with the reference
    it was asked to create; the tag reference points at the tag object; the
    comparison is between the previous and the new branch; and the release
    is a prerelease whose body is built from the comparison: its link and
    the number of commits ahead, and the tag reference. *)
Theorem useCreateRc_steps_in_strict_order
    (env : Env) (defaultBranch : string)
    (latestRelease : option LatestRelease) (nextGitHubInfo : RcGitHubInfo)
    (project : Project) (successCb : option SuccessCb) (user : User)
    (w : World) :
  let run :=
    useCreateRc env defaultBranch latestRelease nextGitHubInfo project
                successCb user in
  (isPrefixOf (map stepOf (issued run w)) createRcOrder
   /\ Forall (fun e => event_ok e = true) (removelast (issued run w)))
  /\ (authorized env ->
      info_error nextGitHubInfo = None ->
      forall (commit : CommitData) (branch : RefData) (tag : TagData)
             (tagRef : RefData) (compared : CompareData)
             (release : ReleaseData),
        let h := trace w in
        let r1 := fetchLatestCommit env defaultBranch project in
        let e1 := Sent r1 true in
        let r2 :=
          GitCreateRef (owner project) (repo project)
                       ("refs/heads/" ++ rcBranch nextGitHubInfo)
                       (commit_sha commit) in
        let e2 := Sent r2 true in
        let tagger :=
          {| tagger_date := now env (h ++ [e1; e2])%list;
             tagger_name := Some (user_username user);
             tagger_email := user_email user |} in
        let r3 :=
          GitCreateTag (owner project) (repo project)
                       (rcReleaseTag nextGitHubInfo) tagMessage
                       (ref_object_sha branch) "commit" tagger in
        let e3 := Sent r3 true in
        let r4 := createTagRef nextGitHubInfo project tag in
        let e4 := Sent r4 true in
        let r5 := compareBranches defaultBranch latestRelease nextGitHubInfo
                                  project in
        let e5 := Sent r5 true in
        let body :=
          "**Compare** " ++ compare_html_url compared ++ nl ++ nl
            ++ "**Ahead by** " ++ string_of_nat (compare_ahead_by compared)
            ++ " commits" ++ nl ++ nl
            ++ "**Release branch** " ++ ref_ref tagRef ++ nl ++ nl
            ++ "---" ++ nl ++ nl in
        let r6 :=
          ReposCreateRelease (owner project) (repo project)
                             (rcReleaseTag nextGitHubInfo)
                             (releaseName nextGitHubInfo)
                             (rcBranch nextGitHubInfo) body true in
        let e6 := Sent r6 true in
        let payload := successPayload latestRelease compared release in
        github env h r1 = Resolved commit ->
        github env (h ++ [e1])%list r2 = Resolved branch ->
        github env (h ++ [e1; e2])%list r3 = Resolved tag ->
        github env (h ++ [e1; e2; e3])%list r4 = Resolved tagRef ->
        github env (h ++ [e1; e2; e3; e4])%list r5 = Resolved compared ->
        github env (h ++ [e1; e2; e3; e4; e5])%list r6 = Resolved release ->
        issued run w =
          ([e1; e2; e3; e4; e5; e6]
             ++ match successCb with
                | Some cb =>
                    [CreateRcSuccessCb payload
                       (resolved
                          (cb (h ++ [e1; e2; e3; e4; e5; e6])%list payload))]
                | None => []
                end)%list
        /\ (GitHub.created r2 branch ->
            r3 = GitCreateTag (owner project) (repo project)
                              (rcReleaseTag nextGitHubInfo) tagMessage
                              (commit_sha commit) "commit" tagger)).
Proof.
  intros run. split.
  - apply useCreateRc_order_any_run.
  - intros Hauth Hinfo commit branch tag tagRef compared release
           h r1 e1 r2 e2 tagger r3 e3 r4 e4 r5 e5 body r6 e6 payload
           H1 H2 H3 H4 H5 H6.
    split.
    + exact (useCreateRc_trace_when_all_succeed
               env defaultBranch latestRelease nextGitHubInfo project
               successCb user w commit branch tag tagRef compared release
               Hauth Hinfo H1 H2 H3 H4 H5 H6).
    + intros [_ Hsha]. unfold r3. rewrite Hsha. reflexivity.
Qed.

Lemma useCreateRc_steps_in_strict_order_witness :
  authorized obliging
  /\ exists events,
       issued (useCreateRc obliging "main" (Some rc123) next130 octoApp
                           (Some created) octocat) newWorld = events
       /\ map stepOf events = createRcOrder
       /\ forallb event_ok events = true
       /\ GitHub.created
            (GitCreateRef "octo" "app" "refs/heads/rc/1.3.0"
                          (commit_sha someCommit))
            (Examples.answer
               (GitCreateRef "octo" "app" "refs/heads/rc/1.3.0"
                             (commit_sha someCommit)))
       /\ In (Sent (GitCreateTag "octo" "app" "rc-1.3.0" tagMessage
                                 (commit_sha someCommit) "commit"
                                 {| tagger_date := "2021-03-03T09:00:00.000Z";
                                    tagger_name := Some "octocat";
                                    tagger_email :=
                                      Some "octocat@example.net" |})
                   true)
             events.
Proof.
  assert (Hauth : authorized obliging) by (intros h; reflexivity).
  split; [exact Hauth|].
  eexists. split; [|split; [|split; [|split]]].
  - edestruct (proj2 (useCreateRc_steps_in_strict_order
                        obliging "main" (Some rc123) next130 octoApp
                        (Some created) octocat newWorld) Hauth eq_refl)
      as [Htrace _]; [reflexivity .. | exact Htrace].
  - reflexivity.
  - reflexivity.
  - split; reflexivity.
  - right. right. left. reflexivity.
Defined.

(** C2.  When the creation of the release branch is rejected, nothing is
    sent after the rejected request (no tag object, no tag reference, no
    comparison, no release), and the step and every later step end with one
    error and without a value.  That error is a GitHubReleaseManagerError
    whose message names the release branch when the rejection carries the
    message "Reference already exists" under [body]; in every other case it
    is the rejection itself.  The HttpError of the client carries GitHub's
    message as its own message and has no body: for it the guard does not
    fire, and the message that is surfaced, "Reference already exists", does
    not name the branch. *)
Theorem useCreateRc_branch_conflict_stops_chain
    (env : Env) (defaultBranch : string)
    (latestRelease : option LatestRelease) (nextGitHubInfo : RcGitHubInfo)
    (project : Project) (successCb : option SuccessCb) (user : User)
    (w : World) (commit : CommitData) (conflict : JsError) :
  authorized env ->
  info_error nextGitHubInfo = None ->
  let run :=
    useCreateRc env defaultBranch latestRelease nextGitHubInfo project
                successCb user in
  let r1 := fetchLatestCommit env defaultBranch project in
  let r2 := createBranch nextGitHubInfo project commit in
  github env (trace w) r1 = Resolved commit ->
  github env (trace w ++ [Sent r1 true])%list r2 = Rejected conflict ->
  issued run w = [Sent r1 true; Sent r2 false]
  /\ exists hook surfaced,
       fst (run w) = Resolved hook
       /\ releaseBranchRes hook = failedWith surfaced
       /\ tagObjectRes hook = failedWith surfaced
       /\ createRcRes hook = failedWith surfaced
       /\ getComparisonRes hook = failedWith surfaced
       /\ createReleaseRes hook = failedWith surfaced
       /\ (error_body_message conflict = Some "Reference already exists" ->
           surfaced
           = GitHubReleaseManagerError
               ("Branch " ++ dq ++ rcBranch nextGitHubInfo ++ dq
                  ++ " already exists: .../tree/" ++ rcBranch nextGitHubInfo)
           /\ mentions (error_message surfaced) (rcBranch nextGitHubInfo))
       /\ (error_body_message conflict <> Some "Reference already exists" ->
           surfaced = conflict).
Proof.
  intros Hauth Hinfo run r1 r2 H1 H2.
  cbv beta zeta delta [r1 r2 fetchLatestCommit createBranch] in *.
  clear r1 r2.
  unfold run, issued, useCreateRc. rewrite Hinfo.
  destruct (body_message_is conflict "Reference already exists") eqn:Hm.
  - assert (Hbody : error_body_message conflict
                    = Some "Reference already exists").
    { unfold body_message_is in Hm.
      destruct (error_body_message conflict) as [m|]; [|discriminate].
      apply String.eqb_eq in Hm. now subst m. }
    destruct successCb as [cb|]; run_hook;
      proceed Hauth H1; proceed Hauth H2; rewrite Hm; tidy;
      flatten_trace; rewrite skipn_length_app;
      (split; [reflexivity|]);
      eexists; exists (GitHubReleaseManagerError
                         (branchExistsMessage nextGitHubInfo));
      (repeat (split; [reflexivity|])); (split; [|congruence]);
      intros _; (split; [reflexivity|]);
      exists ("Branch " ++ dq),
             (dq ++ " already exists: .../tree/" ++ rcBranch nextGitHubInfo);
      reflexivity.
  - assert (Hbody : error_body_message conflict
                    <> Some "Reference already exists").
    { unfold body_message_is in Hm. intros E. rewrite E in Hm.
      discriminate Hm. }
    destruct successCb as [cb|]; run_hook;
      proceed Hauth H1; proceed Hauth H2; rewrite Hm; tidy;
      flatten_trace; rewrite skipn_length_app;
      (split; [reflexivity|]);
      eexists; exists conflict;
      (repeat (split; [reflexivity|])); (split; [|reflexivity]);
      intros E; contradiction.
Qed.

(** At the error the client throws for a branch that is there already, the
    two requests are all that is sent, and what is surfaced is that
    HttpError, whose message does not name the branch [rc/1.3.0]. *)
Lemma useCreateRc_branch_conflict_stops_chain_witness :
  authorized branchTaken
  /\ issued (useCreateRc branchTaken "main" (Some rc123) next130 octoApp
                         (Some created) octocat) newWorld
     = [Sent (ReposGetCommit "octo" "app" "main"
                             [("If-None-Match", EmptyString)]) true;
        Sent (GitCreateRef "octo" "app" "refs/heads/rc/1.3.0" "c0ffee")
             false]
  /\ (exists hook,
        fst (useCreateRc branchTaken "main" (Some rc123) next130 octoApp
                         (Some created) octocat newWorld) = Resolved hook
        /\ releaseBranchRes hook = failedWith referenceExists
        /\ createReleaseRes hook = failedWith referenceExists)
  /\ error_message referenceExists = "Reference already exists"
  /\ ~ mentions (error_message referenceExists) (rcBranch next130).
Proof.
  assert (Hauth : authorized branchTaken) by (intros h; reflexivity).
  split; [exact Hauth|].
  destruct (useCreateRc_branch_conflict_stops_chain
              branchTaken "main" (Some rc123) next130 octoApp (Some created)
              octocat newWorld someCommit referenceExists Hauth eq_refl
              eq_refl eq_refl)
    as (Htrace & hook & surfaced & Hhook & H2 & _ & _ & _ & H6 & _ & Hsame).
  rewrite (Hsame ltac:(discriminate)) in H2, H6.
  split; [exact Htrace|]. split; [|split].
  - exists hook. auto.
  - reflexivity.
  - intros Hmentions. apply mentions_includes in Hmentions.
    discriminate Hmentions.
Defined.

(** *** The step log *)

(** Closes a case of [appendsOnePerCompleted]: the entries added are read
    off the final log. *)
Ltac log_case :=
  flatten_trace; rewrite ?skipn_length_app, ?skipn_length_self;
  first [ exists []; split; [symmetry; apply app_nil_r | reflexivity]
        | eexists; split; reflexivity ].

(** Takes the state of the step before apart. *)
Ltac any_state st :=
  let v := fresh "v" in
  let e := fresh "e" in
  destruct st as [? [v|] [e|]].

Section StepLog.
Context (env : Env) (defaultBranch : string)
        (latestRelease : option LatestRelease)
        (nextGitHubInfo : RcGitHubInfo) (project : Project)
        (successCb : option SuccessCb) (user : User).

Lemma run_appends : appendsOnePerCompleted (run env defaultBranch project).
Proof.
  intros w. unfold issued. run_hook. explore; log_case.
Qed.

Lemma releaseBranch_appends st :
  appendsOnePerCompleted (releaseBranch env nextGitHubInfo project st).
Proof.
  intros w. unfold issued. any_state st; run_hook; explore; log_case.
Qed.

Lemma tagObject_appends st :
  appendsOnePerCompleted (tagObject env nextGitHubInfo project user st).
Proof.
  intros w. unfold issued. any_state st; run_hook; explore; log_case.
Qed.

Lemma createRc_appends st :
  appendsOnePerCompleted (createRc env nextGitHubInfo project st).
Proof.
  intros w. unfold issued. any_state st; run_hook; explore; log_case.
Qed.

Lemma getComparison_appends st :
  appendsOnePerCompleted
    (getComparison env defaultBranch latestRelease nextGitHubInfo project st).
Proof.
  intros w. unfold issued. any_state st; run_hook; explore; log_case.
Qed.

Lemma createRelease_appends st :
  appendsOnePerCompleted (createRelease env nextGitHubInfo project st).
Proof.
  intros w. unfold issued. any_state st; run_hook; explore; log_case.
Qed.

Lemma runSuccessCb_appends st st' :
  appendsOnePerCompleted (runSuccessCb latestRelease successCb st st').
Proof.
  intros w. unfold issued.
  destruct successCb as [cb|]; any_state st; any_state st';
    run_hook; explore; log_case.
Qed.

Lemma useCreateRc_appends :
  appendsOnePerCompleted
    (useCreateRc env defaultBranch latestRelease nextGitHubInfo project
                 successCb user).
Proof.
  intros w. unfold issued, useCreateRc.
  destruct (info_error nextGitHubInfo) as [e|].
  { cbn [snd]. log_case. }
  destruct successCb as [cb|]; run_hook; explore; log_case.
Qed.

Lemma useCreateRc_ignores_step_log w1 w2 :
  trace w1 = trace w2 ->
  let run :=
    useCreateRc env defaultBranch latestRelease nextGitHubInfo project
                successCb user in
  outcome_map statesOf (fst (run w1)) = outcome_map statesOf (fst (run w2))
  /\ trace (snd (run w1)) = trace (snd (run w2)).
Proof.
  intros Htrace run.
  destruct w1 as [t log1], w2 as [t2 log2]. cbn [trace] in Htrace. subst t2.
  unfold run, useCreateRc.
  destruct (info_error nextGitHubInfo) as [e|].
  { split; reflexivity. }
  destruct successCb as [cb|]; run_hook; explore; split; reflexivity.
Qed.

Lemma useCreateRc_progress w hook :
  let run :=
    useCreateRc env defaultBranch latestRelease nextGitHubInfo project
                successCb user in
  fst (run w) = Resolved hook ->
  progress hook = progressOf successCb (responseSteps (snd (run w))).
Proof.
  intros run. unfold run, useCreateRc.
  destruct (info_error nextGitHubInfo) as [e|].
  { discriminate. }
  destruct successCb as [cb|]; run_hook; explore;
    intros H; inversion H; reflexivity.
Qed.

End StepLog.

(** C7.  During a release-candidate run the step log is append-only: each
    of the seven async steps, and so the whole run, leaves the entries it
    finds in place and appends one entry for each step that completed
    (a request that resolved, or the success callback that returned), and
    none otherwise.  The log does not influence control flow: two runs that
    differ only in the log they start with send the same requests and end in
    the same states.  Starting from the empty log, the progress reported is
    the number of completed steps divided by the total number of steps,
    times 100, the total being 6 without a success callback and 7 with
    one. *)
Theorem useCreateRc_step_log_append_only_and_progress
    (env : Env) (defaultBranch : string)
    (latestRelease : option LatestRelease) (nextGitHubInfo : RcGitHubInfo)
    (project : Project) (successCb : option SuccessCb) (user : User) :
  let hook :=
    useCreateRc env defaultBranch latestRelease nextGitHubInfo project
                successCb user in
  (appendsOnePerCompleted (run env defaultBranch project)
   /\ (forall st, appendsOnePerCompleted
                    (releaseBranch env nextGitHubInfo project st))
   /\ (forall st, appendsOnePerCompleted
                    (tagObject env nextGitHubInfo project user st))
   /\ (forall st, appendsOnePerCompleted
                    (createRc env nextGitHubInfo project st))
   /\ (forall st, appendsOnePerCompleted
                    (getComparison env defaultBranch latestRelease
                                   nextGitHubInfo project st))
   /\ (forall st, appendsOnePerCompleted
                    (createRelease env nextGitHubInfo project st))
   /\ (forall st st', appendsOnePerCompleted
                        (runSuccessCb latestRelease successCb st st'))
   /\ appendsOnePerCompleted hook)
  /\ (forall w1 w2,
        trace w1 = trace w2 ->
        outcome_map statesOf (fst (hook w1))
        = outcome_map statesOf (fst (hook w2))
        /\ trace (snd (hook w1)) = trace (snd (hook w2)))
  /\ (forall w settled,
        responseSteps w = [] ->
        fst (hook w) = Resolved settled ->
        progress settled
        = ((inject_Z (Z.of_nat (completed (issued hook w)))
              / inject_Z (Z.of_nat (TOTAL_STEPS successCb))) * 100)%Q)
  /\ TOTAL_STEPS successCb
     = match successCb with Some _ => 7 | None => 6 end.
Proof.
  intros hook. split; [|split; [|split]].
  - unfold hook. repeat split;
      auto using run_appends, releaseBranch_appends, tagObject_appends,
        createRc_appends, getComparison_appends, createRelease_appends,
        runSuccessCb_appends, useCreateRc_appends.
  - intros w1 w2 Htrace. now apply useCreateRc_ignores_step_log.
  - intros w settled Hlog Hsettled.
    apply useCreateRc_progress in Hsettled. rewrite Hsettled.
    destruct (useCreateRc_appends env defaultBranch latestRelease
                nextGitHubInfo project successCb user w)
      as (added & Hadded & Hlen).
    unfold progressOf. fold hook in Hadded, Hlen |- *.
    rewrite Hadded, Hlog. cbn [app]. rewrite Hlen. reflexivity.
  - destruct successCb; reflexivity.
Qed.

Lemma useCreateRc_step_log_append_only_and_progress_witness :
  responseSteps newWorld = []
  /\ exists settled,
       fst (useCreateRc obliging "main" (Some rc123) next130 octoApp
                        (Some created) octocat newWorld) = Resolved settled
       /\ progress settled
          = ((inject_Z (Z.of_nat (completed
                (issued (useCreateRc obliging "main" (Some rc123) next130
                                     octoApp (Some created) octocat)
                        newWorld)))
               / inject_Z (Z.of_nat (TOTAL_STEPS (Some created)))) * 100)%Q.
Proof.
  split; [reflexivity|].
  pose proof (proj1 (proj2 (proj2
    (useCreateRc_step_log_append_only_and_progress
       obliging "main" (Some rc123) next130 octoApp (Some created) octocat)))
    newWorld) as Hprogress.
  cbv zeta in Hprogress.
  destruct (fst (useCreateRc obliging "main" (Some rc123) next130 octoApp
                             (Some created) octocat newWorld))
    as [settled|e] eqn:Hsettled.
  - exists settled. split; [reflexivity|].
    apply Hprogress; reflexivity.
  - vm_compute in Hsettled. discriminate Hsettled.
Defined.

Example progress_of_a_full_run :
  completed (issued (useCreateRc obliging "main" (Some rc123) next130 octoApp
                                 (Some created) octocat) newWorld) = 7.
Proof. vm_compute. reflexivity. Qed.

End CreateRcProperties.

(** ** The patch sequence *)

Module PatchProperties.
Import PluginApiClient Patch PatchRequests Examples.

Ltac run_patch := cbv beta iota zeta delta [Patch.patch]; run_async.

Lemma stepOf_bumpedTagRef ownerName repoName tag sha ok :
  stepOf (Sent (GitCreateRef ownerName repoName ("refs/tags/" ++ tag) sha) ok)
  = CreateTagReference.
Proof. destruct tag; reflexivity. Qed.

Lemma patch_order_any_run
    (env : Env) (project : Project) (user : User)
    (latestRelease : LatestRelease) (releaseBranch : Branch)
    (selectedPatchCommit : RecentCommit) (latestTag : PatchableTag)
    (w : World) :
  let run :=
    Patch.patch env project user latestRelease releaseBranch
                selectedPatchCommit latestTag in
  isPrefixOf (map stepOf (issued run w)) patchOrder
  /\ Forall (fun e => event_ok e = true) (removelast (issued run w)).
Proof.
  intros run. unfold run, issued. run_patch. explore;
    flatten_trace; rewrite ?skipn_length_app, ?skipn_length_self;
    (split; [cbn [map]; rewrite ?stepOf_bumpedTagRef; cbn [stepOf];
             eexists; reflexivity
           | cbn [removelast]; repeat constructor]).
Qed.

Lemma patch_trace_when_all_succeed
    (env : Env) (project : Project) (user : User)
    (latestRelease : LatestRelease) (releaseBranch : Branch)
    (selectedPatchCommit : RecentCommit) (latestTag : PatchableTag)
    (w : World)
    (temp : GitCommitData) (forced : RefData) (merged : MergeData)
    (cherryPick : GitCommitData) (updated : RefData) (tag : TagData)
    (tagRef : RefData) (release : ReleaseData) :
  authorized env ->
  let run :=
    Patch.patch env project user latestRelease releaseBranch
                selectedPatchCommit latestTag in
  let before := beforePatch latestTag in
  let previousPatch := PluginApiClient.patch (tagParts latestTag) in
  let h := trace w in
  let r1 := createTemp project releaseBranch selectedPatchCommit
                       previousPatch in
  let e1 := Sent r1 true in
  let r2 := forceHead project releaseBranch temp in
  let e2 := Sent r2 true in
  let r3 := mergeSelected project releaseBranch selectedPatchCommit in
  let e3 := Sent r3 true in
  let r4 :=
    createCherryPick project releaseBranch selectedPatchCommit before
                     previousPatch merged in
  let e4 := Sent r4 true in
  let r5 := forceHead project releaseBranch cherryPick in
  let e5 := Sent r5 true in
  let r6 :=
    createBumpedTag project user before previousPatch
                    (now env (h ++ [e1; e2; e3; e4; e5])%list) updated in
  let e6 := Sent r6 true in
  let r7 := createBumpedTagRef project before previousPatch tag in
  let e7 := Sent r7 true in
  let r8 :=
    updatePatchedRelease project latestRelease selectedPatchCommit before
                         previousPatch in
  let e8 := Sent r8 true in
  github env h r1 = Resolved temp ->
  github env (h ++ [e1])%list r2 = Resolved forced ->
  github env (h ++ [e1; e2])%list r3 = Resolved merged ->
  github env (h ++ [e1; e2; e3])%list r4 = Resolved cherryPick ->
  github env (h ++ [e1; e2; e3; e4])%list r5 = Resolved updated ->
  github env (h ++ [e1; e2; e3; e4; e5])%list r6 = Resolved tag ->
  github env (h ++ [e1; e2; e3; e4; e5; e6])%list r7 = Resolved tagRef ->
  github env (h ++ [e1; e2; e3; e4; e5; e6; e7])%list r8 = Resolved release ->
  issued run w = [e1; e2; e3; e4; e5; e6; e7; e8]
  /\ fst (run w) = Resolved (releaseResult release).
Proof.
  intros Hauth run before previousPatch h r1 e1 r2 e2 r3 e3 r4 e4 r5 e5 r6 e6
         r7 e7 r8 e8 H1 H2 H3 H4 H5 H6 H7 H8.
  cbv beta zeta delta
    [h r1 e1 r2 e2 r3 e3 r4 e4 r5 e5 r6 e6 r7 e7 r8 e8 createTemp forceHead
     mergeSelected createCherryPick createBumpedTag createBumpedTagRef
     updatePatchedRelease patchedBody provenance newTag] in *.
  clear h r1 e1 r2 e2 r3 e3 r4 e4 r5 e5 r6 e6 r7 e7 r8 e8.
  rewrite Nat.add_1_r in *.
  unfold run, issued. run_patch.
  unfold patch.cherryPickMessage, patch.releaseBodyWithPatch, patchCommitSuffix,
    tagNameOf, getBumpedTag.
  cbn [PluginApiClient.patch tagParts beforePatch].
  fold before previousPatch.
  proceed Hauth H1; proceed Hauth H2; proceed Hauth H3; proceed Hauth H4;
    proceed Hauth H5; proceed Hauth H6; proceed Hauth H7; proceed Hauth H8.
  flatten_trace. rewrite skipn_length_app. split; reflexivity.
Qed.


(** C6.  The patch sequence, for a selected commit and the current release
    branch, sends its requests in one order: the temporary commit on the
    branch's tree, the forced update of the branch head to it, the merge
    that yields the merge tree, the cherry-pick commit made from that tree,
    the forced update of the branch head to the cherry-pick commit, the
    annotated tag of the bumped tag name, its reference, and the update of
    the existing release's tag and body.  In every execution the calls made
    are a prefix of this order and every call but the last one made has
    succeeded.  When all succeed: the new tag is the tag that was patched
    with its patch component one greater; the message of the cherry-pick
    commit is the original commit message, after a "[patch <new tag>]"
    prefix, followed by an empty line and the suffix
    "(cherry picked from commit <sha of the selected commit>)"; and the
    release is given the new tag and its old body followed by the section of
    the patch, with the link and the message of the selected commit. *)
Theorem patch_calls_in_order
    (env : Env) (project : Project) (user : User)
    (latestRelease : LatestRelease) (releaseBranch : Branch)
    (selectedPatchCommit : RecentCommit) (latestTag : PatchableTag)
    (w : World) :
  let run :=
    Patch.patch env project user latestRelease releaseBranch
                selectedPatchCommit latestTag in
  let before := beforePatch latestTag in
  let previousPatch := PluginApiClient.patch (tagParts latestTag) in
  let newTag := before ++ string_of_nat (previousPatch + 1) in
  tagNameOf latestTag = before ++ string_of_nat previousPatch
  /\ (isPrefixOf (map stepOf (issued run w)) patchOrder
      /\ Forall (fun e => event_ok e = true) (removelast (issued run w)))
  /\ (authorized env ->
      forall (temp : GitCommitData) (forced : RefData) (merged : MergeData)
             (cherryPick : GitCommitData) (updated : RefData) (tag : TagData)
             (tagRef : RefData) (release : ReleaseData),
        let h := trace w in
        let r1 :=
          createTemp project releaseBranch selectedPatchCommit
                     previousPatch in
        let e1 := Sent r1 true in
        let r2 := forceHead project releaseBranch temp in
        let e2 := Sent r2 true in
        let r3 := mergeSelected project releaseBranch selectedPatchCommit in
        let e3 := Sent r3 true in
        let r4 :=
          GitCreateCommit (owner project) (repo project)
            ("[patch " ++ newTag ++ "] " ++ recent_message selectedPatchCommit
               ++ nl ++ nl
               ++ "(cherry picked from commit "
               ++ recent_sha selectedPatchCommit ++ ")")
            (merge_commit_tree_sha merged)
            [branch_commit_sha releaseBranch] in
        let e4 := Sent r4 true in
        let r5 := forceHead project releaseBranch cherryPick in
        let e5 := Sent r5 true in
        let r6 :=
          GitCreateTag (owner project) (repo project) newTag tagMessage
                       (ref_object_sha updated) "commit"
                       {| tagger_date :=
                            now env (h ++ [e1; e2; e3; e4; e5])%list;
                          tagger_name := Some (user_username user);
                          tagger_email := user_email user |} in
        let e6 := Sent r6 true in
        let r7 :=
          GitCreateRef (owner project) (repo project)
                       ("refs/tags/" ++ newTag) (tag_sha tag) in
        let e7 := Sent r7 true in
        let r8 :=
          ReposUpdateRelease (owner project) (repo project)
            (id latestRelease) newTag
            (Some (string_of_nullable (body latestRelease) ++ nl ++ nl
                     ++ "#### [Patch " ++ string_of_nat (previousPatch + 1)
                     ++ "](" ++ recent_htmlUrl selectedPatchCommit ++ ")"
                     ++ nl ++ "  " ++ nl
                     ++ recent_message selectedPatchCommit))
            None in
        let e8 := Sent r8 true in
        github env h r1 = Resolved temp ->
        github env (h ++ [e1])%list r2 = Resolved forced ->
        github env (h ++ [e1; e2])%list r3 = Resolved merged ->
        github env (h ++ [e1; e2; e3])%list r4 = Resolved cherryPick ->
        github env (h ++ [e1; e2; e3; e4])%list r5 = Resolved updated ->
        github env (h ++ [e1; e2; e3; e4; e5])%list r6 = Resolved tag ->
        github env (h ++ [e1; e2; e3; e4; e5; e6])%list r7
          = Resolved tagRef ->
        github env (h ++ [e1; e2; e3; e4; e5; e6; e7])%list r8
          = Resolved release ->
        issued run w = [e1; e2; e3; e4; e5; e6; e7; e8]
        /\ fst (run w) = Resolved (releaseResult release)).
Proof.
  intros run before previousPatch newTag. split; [reflexivity|]. split.
  - apply patch_order_any_run.
  - intros Hauth temp forced merged cherryPick updated tag tagRef release.
    exact (patch_trace_when_all_succeed
             env project user latestRelease releaseBranch selectedPatchCommit
             latestTag w temp forced merged cherryPick updated tag tagRef
             release Hauth).
Qed.

Lemma patch_calls_in_order_witness :
  authorized obliging
  /\ exists events,
       issued (Patch.patch obliging octoApp octocat rc123 rcBranch123 hotfix
                           rc123Tag) newWorld
       = events
       /\ map stepOf events = patchOrder
       /\ forallb event_ok events = true
       /\ In (Sent (GitCreateRef "octo" "app" "refs/tags/rc-1.2.4" "7a9") true)
             events.
Proof.
  assert (Hauth : authorized obliging) by (intros h; reflexivity).
  split; [exact Hauth|].
  eexists. split; [|split; [|split]].
  - edestruct (proj2 (proj2 (patch_calls_in_order
                 obliging octoApp octocat rc123 rcBranch123 hotfix rc123Tag
                 newWorld)) Hauth)
      as [Htrace _]; [reflexivity .. | exact Htrace].
  - reflexivity.
  - reflexivity.
  - simpl. tauto.
Defined.

End PatchProperties.

(** ** The strategy validation *)

Module VersioningProperties.
Import Versioning.

Lemma isDigit_iff (c : ascii) : isDigit c = true <-> Digit c.
Proof.
  destruct c as [[] [] [] [] [] [] [] []]; vm_compute;
    (split;
     [ intros H; first [discriminate H
                       | repeat (first [left; reflexivity | right]) ]
     | intros H; first [reflexivity | intuition discriminate] ]).
Qed.

Lemma isNumber_iff (s : string) : isNumber s = true <-> Number s.
Proof.
  split.
  - induction s as [|c s IH]; [discriminate|].
    cbn [isNumber allDigits]. intros H. apply andb_true_iff in H.
    destruct H as [Hc Hs]. apply isDigit_iff in Hc.
    destruct s as [|c' s]; [now constructor|].
    apply Number_more; [exact Hc | apply IH; exact Hs].
  - induction 1 as [d Hd | d n Hd Hn IH]; cbn [isNumber allDigits].
    + apply isDigit_iff in Hd. rewrite Hd. reflexivity.
    + apply isDigit_iff in Hd. rewrite Hd.
      destruct n as [|c n]; [discriminate IH | exact IH].
Qed.

Lemma isNumber_allDigits (s : string) : isNumber s = true -> allDigits s = true.
Proof. destruct s; [discriminate | auto]. Qed.

Lemma digit_is_no_dot (c : ascii) : isDigit c = true -> Ascii.eqb c "." = false.
Proof.
  intros H. destruct (Ascii.eqb_spec c "."%char) as [->|]; [|reflexivity].
  discriminate H.
Qed.

Lemma split_digits_dot (a rest : string) :
  allDigits a = true ->
  split "." (a ++ String "." rest) = a :: split "." rest.
Proof.
  induction a as [|c a IH]; intros H.
  - reflexivity.
  - cbn [allDigits] in H. apply andb_true_iff in H. destruct H as [Hc Ha].
    cbn [append split]. rewrite (digit_is_no_dot c Hc), (IH Ha). reflexivity.
Qed.

Lemma split_digits (a : string) : allDigits a = true -> split "." a = [a].
Proof.
  induction a as [|c a IH]; intros H.
  - reflexivity.
  - cbn [allDigits] in H. apply andb_true_iff in H. destruct H as [Hc Ha].
    cbn [split]. rewrite (digit_is_no_dot c Hc), (IH Ha). reflexivity.
Qed.

Lemma split_is_not_empty (sep : ascii) (s : string) : split sep s <> [].
Proof.
  destruct s as [|c s]; cbn [split]; [discriminate|].
  destruct (Ascii.eqb c sep); [discriminate|].
  destruct (split sep s); discriminate.
Qed.

Lemma join_split (sep : ascii) (s : string) : join sep (split sep s) = s.
Proof.
  induction s as [|c s IH]; [reflexivity|].
  cbn [split]. pose proof (split_is_not_empty sep s) as Hne.
  destruct (Ascii.eqb_spec c sep) as [->|_];
    destruct (split sep s) as [|first others]; try contradiction.
  - cbn [join] in IH |- *. rewrite IH. reflexivity.
  - cbn [join] in IH |- *. rewrite <- IH.
    destruct others; reflexivity.
Qed.

Lemma stripPrefix_append (p rest : string) : stripPrefix p (p ++ rest) = Some rest.
Proof.
  induction p as [|c p IH]; cbn [append stripPrefix].
  - destruct rest; reflexivity.
  - rewrite Ascii.eqb_refl. exact IH.
Qed.

Lemma stripPrefix_some (p s rest : string) :
  stripPrefix p s = Some rest -> s = p ++ rest.
Proof.
  revert s. induction p as [|c p IH]; intros s H.
  - destruct s; cbn [stripPrefix] in H; injection H as <-; reflexivity.
  - destruct s as [|c' s]; cbn [stripPrefix] in H; [discriminate|].
    destruct (Ascii.eqb_spec c c') as [->|]; [|discriminate].
    cbn [append]. f_equal. apply IH, H.
Qed.

Lemma versionOf_some (tagName version : string) :
  versionOf tagName = Some version ->
  exists p, TagPrefix p /\ tagName = p ++ version.
Proof.
  unfold versionOf, TagPrefix.
  destruct (stripPrefix "rc-" tagName) as [v|] eqn:Hrc.
  - intros H. injection H as ->. apply stripPrefix_some in Hrc. eauto.
  - intros H. apply stripPrefix_some in H. eauto.
Qed.

Lemma versionOf_prefixed (p version : string) :
  TagPrefix p -> versionOf (p ++ version) = Some version.
Proof.
  intros [-> | ->]; unfold versionOf.
  - rewrite stripPrefix_append. reflexivity.
  - replace (stripPrefix "rc-" ("version-" ++ version)) with (@None string)
      by reflexivity.
    apply stripPrefix_append.
Qed.

Lemma accepts_iff_grammar (strategy : VersioningStrategy) (tagName : string) :
  accepts strategy tagName = true <-> matchesGrammar strategy tagName.
Proof.
  unfold accepts, matchesGrammar. split.
  - destruct (versionOf tagName) as [version|] eqn:Hv; [|discriminate].
    cbn [option_map].
    destruct (split "." version) as [|a [|b [|c [|d rest]]]] eqn:Hs;
      try discriminate.
    intros H.
    destruct (versionOf_some _ _ Hv) as (p & Hp & ->).
    pose proof (join_split "." version) as Hj. rewrite Hs in Hj.
    exists p, a, b, c. split; [exact Hp|]. split; [now rewrite <- Hj|].
    destruct strategy;
      repeat match goal with
        | H : (_ && _)%bool = true |- _ =>
            apply andb_true_iff in H; destruct H
        | H : isNumber _ = true |- _ => apply isNumber_iff in H
        | H : (_ =? _)%nat = true |- _ => apply Nat.eqb_eq in H
        end; auto.
  - intros (p & a & b & c & Hp & -> & H).
    rewrite (versionOf_prefixed _ _ Hp). cbn [option_map].
    assert (Hdigits :
      allDigits a = true /\ allDigits b = true /\ allDigits c = true).
    { destruct strategy;
        repeat match goal with
          | H : _ /\ _ |- _ => destruct H
          | H : Number _ |- _ => apply isNumber_iff, isNumber_allDigits in H
          end; auto. }
    destruct Hdigits as (Ha & Hb & Hc).
    change (a ++ "." ++ b ++ "." ++ c)
      with (a ++ String "." (b ++ String "." c)).
    rewrite (split_digits_dot a _ Ha), (split_digits_dot b _ Hb),
      (split_digits c Hc).
    destruct strategy;
      repeat match goal with
        | H : _ /\ _ |- _ => destruct H
        | H : Number _ |- _ => apply isNumber_iff in H; rewrite H
        | H : String.length _ = _ |- _ => rewrite H
        end; reflexivity.
Qed.

Example semver_tag_is_accepted : accepts semver "version-1.2.3" = true.
Proof. reflexivity. Qed.

Example calver_tag_is_accepted : accepts calver "version-2024.01.15" = true.
Proof. reflexivity. Qed.

Example semver_tag_is_no_calver_tag : accepts calver "rc-1.2.3" = false.
Proof. reflexivity. Qed.

Example short_tag_is_rejected : accepts semver "rc-1.2" = false.
Proof. reflexivity. Qed.

End VersioningProperties.

(** ** What is rendered on a versioning mismatch *)

Module RenderProperties.
Import PluginApiClient Render Versioning Examples.

Lemma actionCards_when c e :
  actionCards (when c e) = if c then actionCards [e] else [].
Proof. destruct c; reflexivity. Qed.

Lemma filter_when p c (e : Element) :
  filter p (when c e) = if c then filter p [e] else [].
Proof. destruct c; reflexivity. Qed.

Lemma mismatch_text_is_mismatch s :
  String.prefix "Versioning mismatch" ("Versioning mismatch, expected " ++ s)
  = true.
Proof. destruct s; reflexivity. Qed.

(** Whatever the two validators are, as long as the check of the tag name
    reports an error for the batch info at hand and the hook reports a
    mismatch, neither component renders a card. *)
Lemma agreeing_validators_block_cards
    (hook : option string -> Project -> option string -> bool)
    (validate : Project -> option string -> option CreateRc.AlertError)
    (config : FeaturesConfig) (project : Project)
    (batchInfo : AsyncState GitBatchInfo) :
  hook (match value batchInfo with
        | Some v => option_map tagName (latestRelease v)
        | None => None
        end)
       project
       (option_map (fun v => repository_name (repository v))
                   (value batchInfo))
  = false ->
  (forall v, value batchInfo = Some v ->
             validate project (option_map tagName (latestRelease v)) <> None) ->
  (actionCards (Cards hook config project batchInfo) = []
   /\ length (Cards hook config project batchInfo) = 1)
  /\ (actionCards (Features hook validate config project batchInfo) = []
      /\ length (Features hook validate config project batchInfo) = 1).
Proof.
  intros Hmismatch Hvalidate. unfold Cards, Features. rewrite Hmismatch.
  destruct (error batchInfo); [repeat split|].
  destruct (loading batchInfo); [repeat split|].
  destruct (value batchInfo) as [v|]; [|repeat split].
  destruct (falsy (pushPermissions (repository v))); [repeat split|].
  specialize (Hvalidate v eq_refl).
  destruct (validate project (option_map tagName (latestRelease v)));
    [repeat split | contradiction].
Qed.

(** C3.  The strategy validation accepts a tag exactly when the tag matches
    the grammar of the configured strategy: [rc-] or [version-], then three
    numbers separated by dots for semver, and a year of four digits, a month
    and a day of two digits each for calver.  Whenever the tag of the most
    recent release does not match the configured strategy, both the
    [Features] component and the older [Cards] render one element, and no
    action card (create RC, promote, patch); once the batch info is fetched
    and the user may push, that element is the alert of the versioning
    mismatch.  The validation is a function of the tag name and the
    strategy: it reads nothing else and changes nothing.  The cards are
    blocked in this way for any pair of validators of which the check of the
    tag name reports an error where the hook reports a mismatch. *)
Theorem validation_accepts_iff_grammar_and_mismatch_blocks_cards :
  (forall strategy tagName,
      accepts strategy tagName = true <-> matchesGrammar strategy tagName)
  /\ (forall (config : FeaturesConfig) (project : Project)
             (batchInfo : AsyncState GitBatchInfo) (v : GitBatchInfo)
             (r : LatestRelease),
        value batchInfo = Some v ->
        latestRelease v = Some r ->
        ~ matchesGrammar (versioningStrategy project) (tagName r) ->
        let cards :=
          Cards useVersioningStrategyMatchesRepoTags config project
                batchInfo in
        let features :=
          Features useVersioningStrategyMatchesRepoTags validateTagName
                   config project batchInfo in
        (actionCards cards = [] /\ length cards = 1)
        /\ (actionCards features = [] /\ length features = 1)
        /\ (error batchInfo = None ->
            loading batchInfo = false ->
            pushPermissions (repository v) = Some true ->
            cards = [Alert SeverityError None
                       ("Versioning mismatch, expected "
                          ++ strategy_name (versioningStrategy project)
                          ++ " version, got " ++ tagName r)]
            /\ features = [Alert SeverityError None
                            ("Versioning mismatch, expected "
                               ++ strategy_name (versioningStrategy project)
                               ++ " version, got " ++ dq ++ tagName r ++ dq)]
            /\ mismatchAlerts cards = cards
            /\ mismatchAlerts features = features))
  /\ (forall (hook : option string -> Project -> option string -> bool)
             (validate : Project -> option string
                         -> option CreateRc.AlertError)
             (config : FeaturesConfig) (project : Project)
             (batchInfo : AsyncState GitBatchInfo),
        hook (match value batchInfo with
              | Some v => option_map tagName (latestRelease v)
              | None => None
              end)
             project
             (option_map (fun v => repository_name (repository v))
                         (value batchInfo))
        = false ->
        (forall v, value batchInfo = Some v ->
                   validate project (option_map tagName (latestRelease v))
                   <> None) ->
        (actionCards (Cards hook config project batchInfo) = []
         /\ length (Cards hook config project batchInfo) = 1)
        /\ (actionCards (Features hook validate config project batchInfo)
            = []
            /\ length (Features hook validate config project batchInfo)
               = 1)).
Proof.
  split; [exact VersioningProperties.accepts_iff_grammar|].
  split; [|exact agreeing_validators_block_cards].
  intros config project batchInfo v r Hvalue Hlatest Hmismatch cards features.
  assert (Hrejected : accepts (versioningStrategy project) (tagName r) = false).
  { destruct (accepts (versioningStrategy project) (tagName r)) eqn:E;
      [|reflexivity].
    apply VersioningProperties.accepts_iff_grammar in E. contradiction. }
  unfold cards, features, Cards, Features,
    useVersioningStrategyMatchesRepoTags, validateTagName.
  rewrite Hvalue, Hlatest. cbn [option_map]. rewrite Hrejected.
  cbn [negb mismatch CreateRc.title CreateRc.subtitle nullish].
  split; [|split].
  - destruct (error batchInfo); [split; reflexivity|].
    destruct (loading batchInfo); [split; reflexivity|].
    destruct (falsy (pushPermissions (repository v))); split; reflexivity.
  - destruct (error batchInfo); [split; reflexivity|].
    destruct (loading batchInfo); [split; reflexivity|].
    destruct (falsy (pushPermissions (repository v))); split; reflexivity.
  - intros -> -> ->. cbn [falsy].
    unfold mismatchAlerts. cbn [filter isMismatchAlert].
    rewrite !mismatch_text_is_mismatch. auto.
Qed.

Lemma validation_accepts_iff_grammar_and_mismatch_blocks_cards_witness :
  ~ matchesGrammar calver "rc-1.2.3"
  /\ actionCards (Features useVersioningStrategyMatchesRepoTags
                          validateTagName allFeatures octoAppCalver fetched)
     = []
  /\ Cards useVersioningStrategyMatchesRepoTags allFeatures octoAppCalver
           fetched
     = [Alert SeverityError None
          "Versioning mismatch, expected calver version, got rc-1.2.3"].
Proof.
  assert (Hmismatch : ~ matchesGrammar calver "rc-1.2.3").
  { intros H.
    apply (proj1 validation_accepts_iff_grammar_and_mismatch_blocks_cards)
      in H.
    discriminate H. }
  split; [exact Hmismatch|].
  destruct (proj1 (proj2
              validation_accepts_iff_grammar_and_mismatch_blocks_cards)
              allFeatures octoAppCalver fetched _ rc123 eq_refl eq_refl
              Hmismatch)
    as (_ & [Hfeatures _] & Hfetched).
  split; [exact Hfeatures|].
  exact (proj1 (Hfetched eq_refl eq_refl eq_refl)).
Defined.

End RenderProperties.

(** * Further properties *)

(** ** Release-candidate creation, continued *)

Module CreateRcFurther.
Import PluginApiClient CreateRc CreateRcRequests Examples MoreExamples.

(** X1.  When the creation of the tag reference is rejected, the comparison
    and the release are not requested, the step and the two after it end
    with one error, and the release branch and the tag object created before
    stay as they are: nothing is sent to undo them.  The error is a
    GitHubReleaseManagerError whose message names the tag when the
    rejection carries "Reference already exists" under [body], and the
    rejection itself in every other case, among them the HttpError of the
    client, which has GitHub's message as its own and no body. *)
Theorem useCreateRc_tag_conflict_stops_without_rollback
    (env : Env) (defaultBranch : string)
    (latestRelease : option LatestRelease) (nextGitHubInfo : RcGitHubInfo)
    (project : Project) (successCb : option SuccessCb) (user : User)
    (w : World) (commit : CommitData) (branch : RefData) (tag : TagData)
    (conflict : JsError) :
  authorized env ->
  info_error nextGitHubInfo = None ->
  let run :=
    useCreateRc env defaultBranch latestRelease nextGitHubInfo project
                successCb user in
  let h := trace w in
  let r1 := fetchLatestCommit env defaultBranch project in
  let e1 := Sent r1 true in
  let r2 := createBranch nextGitHubInfo project commit in
  let e2 := Sent r2 true in
  let r3 :=
    createTag nextGitHubInfo project user (now env (h ++ [e1; e2])%list)
              branch in
  let e3 := Sent r3 true in
  let r4 := createTagRef nextGitHubInfo project tag in
  github env h r1 = Resolved commit ->
  github env (h ++ [e1])%list r2 = Resolved branch ->
  github env (h ++ [e1; e2])%list r3 = Resolved tag ->
  github env (h ++ [e1; e2; e3])%list r4 = Rejected conflict ->
  issued run w = [e1; e2; e3; Sent r4 false]
  /\ exists hook surfaced,
       fst (run w) = Resolved hook
       /\ value (releaseBranchRes hook) = Some (ref_object_sha branch)
       /\ option_map tagSha (value (tagObjectRes hook)) = Some (tag_sha tag)
       /\ createRcRes hook = failedWith surfaced
       /\ getComparisonRes hook = failedWith surfaced
       /\ createReleaseRes hook = failedWith surfaced
       /\ (error_body_message conflict = Some "Reference already exists" ->
           surfaced
           = GitHubReleaseManagerError
               ("Tag reference " ++ dq ++ rcReleaseTag nextGitHubInfo ++ dq
                  ++ " already exists")
           /\ mentions (error_message surfaced)
                       (rcReleaseTag nextGitHubInfo))
       /\ (error_body_message conflict <> Some "Reference already exists" ->
           surfaced = conflict).
Proof.
  intros Hauth Hinfo run h r1 e1 r2 e2 r3 e3 r4 H1 H2 H3 H4.
  cbv beta zeta delta
    [h r1 e1 r2 e2 r3 e3 r4 fetchLatestCommit createBranch createTag
     createTagRef] in *.
  clear h r1 e1 r2 e2 r3 e3 r4.
  unfold run, issued, useCreateRc. rewrite Hinfo.
  destruct (body_message_is conflict "Reference already exists") eqn:Hm.
  - assert (Hbody : error_body_message conflict
                    = Some "Reference already exists").
    { unfold body_message_is in Hm.
      destruct (error_body_message conflict) as [m|]; [|discriminate].
      apply String.eqb_eq in Hm. now subst m. }
    destruct successCb as [cb|]; run_hook;
      proceed Hauth H1; proceed Hauth H2; proceed Hauth H3;
      proceed Hauth H4; rewrite Hm; tidy;
      flatten_trace; rewrite skipn_length_app;
      (split; [reflexivity|]);
      eexists; exists (GitHubReleaseManagerError
                         (tagExistsMessage nextGitHubInfo));
      (repeat (split; [reflexivity|])); (split; [|congruence]);
      intros _; (split; [reflexivity|]);
      exists ("Tag reference " ++ dq), (dq ++ " already exists");
      reflexivity.
  - assert (Hbody : error_body_message conflict
                    <> Some "Reference already exists").
    { unfold body_message_is in Hm. intros E. rewrite E in Hm.
      discriminate Hm. }
    destruct successCb as [cb|]; run_hook;
      proceed Hauth H1; proceed Hauth H2; proceed Hauth H3;
      proceed Hauth H4; rewrite Hm; tidy;
      flatten_trace; rewrite skipn_length_app;
      (split; [reflexivity|]);
      eexists; exists conflict;
      (repeat (split; [reflexivity|])); (split; [|reflexivity]);
      intros E; contradiction.
Qed.

Lemma useCreateRc_tag_conflict_stops_without_rollback_witness :
  authorized tagTaken
  /\ map stepOf
         (issued (useCreateRc tagTaken "main" (Some rc123) next130 octoApp
                              (Some created) octocat) newWorld)
     = [FetchLatestCommit; CreateReleaseBranch; CreateTagObject;
        CreateTagReference]
  /\ exists hook,
       fst (useCreateRc tagTaken "main" (Some rc123) next130 octoApp
                        (Some created) octocat newWorld) = Resolved hook
       /\ createReleaseRes hook = failedWith referenceExists.
Proof.
  assert (Hauth : authorized tagTaken) by (intros h; reflexivity).
  split; [exact Hauth|].
  destruct (useCreateRc_tag_conflict_stops_without_rollback
       tagTaken "main" (Some rc123) next130 octoApp (Some created) octocat
       newWorld someCommit
       {| ref_ref := "refs/heads/rc/1.3.0"; ref_object_sha := "c0ffee" |}
       {| tag_tag := "rc-1.3.0";
          tag_sha := "7a9";
          tag_tagger_date := "2021-03-03T09:00:00.000Z";
          tag_tagger_name := "octocat";
          tag_tagger_email := "octocat@example.net" |}
       referenceExists Hauth eq_refl eq_refl eq_refl eq_refl eq_refl)
    as (Htrace & hook & surfaced & Hhook & _ & _ & _ & _ & H6 & _ & Hsame).
  rewrite (Hsame ltac:(discriminate)) in H6.
  split.
  - rewrite Htrace. reflexivity.
  - exists hook. auto.
Defined.

(** X2.  In every run, once a step has ended with an error every later
    step ends with that same error, a step has a value only if the step
    before it has one, and no step has both a value and an error: the
    error at the end of the chain is the first failure. *)
Theorem useCreateRc_first_failure_reaches_the_end
    (env : Env) (defaultBranch : string)
    (latestRelease : option LatestRelease) (nextGitHubInfo : RcGitHubInfo)
    (project : Project) (successCb : option SuccessCb) (user : User)
    (w : World) (hook : CardHook) :
  fst (useCreateRc env defaultBranch latestRelease nextGitHubInfo project
                   successCb user w) = Resolved hook ->
  (forall i j e,
      nth_error (settledErrors hook) i = Some (Some e) ->
      i <= j < 6 ->
      nth_error (settledErrors hook) j = Some (Some e))
  /\ (forall i,
        nth (S i) (settledValues hook) false = true ->
        nth i (settledValues hook) false = true)
  /\ (forall i e,
        nth_error (settledErrors hook) i = Some (Some e) ->
        nth i (settledValues hook) false = false).
Proof.
  unfold useCreateRc.
  destruct (info_error nextGitHubInfo) as [e|]; [discriminate|].
  destruct successCb as [cb|]; run_hook; explore;
    intros Hhook; inversion Hhook; subst hook; clear Hhook;
    cbv beta iota delta [settledErrors settledValues hasValue];
    cbn [latestCommitRes releaseBranchRes tagObjectRes createRcRes
         getComparisonRes createReleaseRes value error];
    (split;
     [ intros [|[|[|[|[|[|i]]]]]] j e' Hi Hj; cbn [nth_error] in Hi;
       try discriminate Hi; try (destruct i; discriminate Hi);
       destruct j as [|[|[|[|[|[|j]]]]]]; try lia; exact Hi
     | split;
       [ intros [|[|[|[|[|[|i]]]]]]; cbn [nth]; congruence
       | intros [|[|[|[|[|[|i]]]]]] e' Hi; cbn [nth_error] in Hi;
         try discriminate Hi; try (destruct i; discriminate Hi);
         reflexivity ] ]).
Qed.

Lemma useCreateRc_first_failure_reaches_the_end_witness :
  exists hook,
    fst (useCreateRc branchTaken "main" (Some rc123) next130 octoApp
                     (Some created) octocat newWorld) = Resolved hook
    /\ nth_error (settledErrors hook) 5 = Some (Some referenceExists).
Proof.
  pose proof (useCreateRc_first_failure_reaches_the_end
                branchTaken "main" (Some rc123) next130 octoApp
                (Some created) octocat newWorld) as Hreach.
  destruct (fst (useCreateRc branchTaken "main" (Some rc123) next130 octoApp
                             (Some created) octocat newWorld))
    as [hook|e] eqn:Hhook.
  - exists hook. split; [reflexivity|].
    assert (Hsecond :
      nth_error (settledErrors hook) 1 = Some (Some referenceExists)).
    { vm_compute in Hhook. injection Hhook as <-. reflexivity. }
    apply (proj1 (Hreach hook eq_refl) 1 5 _ Hsecond). lia.
  - vm_compute in Hhook. discriminate Hhook.
Defined.

Lemma completed_within_total
    (env : Env) (defaultBranch : string)
    (latestRelease : option LatestRelease) (nextGitHubInfo : RcGitHubInfo)
    (project : Project) (successCb : option SuccessCb) (user : User)
    (w : World) :
  completed (issued (useCreateRc env defaultBranch latestRelease
                                 nextGitHubInfo project successCb user) w)
  <= TOTAL_STEPS successCb.
Proof.
  unfold issued, useCreateRc.
  destruct (info_error nextGitHubInfo) as [e|].
  { cbn [snd]. rewrite skipn_length_self. cbn. lia. }
  destruct successCb as [cb|]; run_hook; explore;
    flatten_trace; rewrite ?skipn_length_app, ?skipn_length_self;
    cbv [completed TOTAL_STEPS]; cbn [filter event_ok length Nat.add]; lia.
Qed.

Lemma percentage_bounds (c t : nat) :
  (t = 6 \/ t = 7) -> c <= t ->
  let p := ((inject_Z (Z.of_nat c) / inject_Z (Z.of_nat t)) * 100)%Q in
  (0 <= p)%Q /\ (p <= 100)%Q /\ ((p == 100)%Q <-> c = t).
Proof.
  intros [-> | ->] Hc;
    do 8 (try destruct c as [|c]); try lia;
    cbv zeta; unfold Qle, Qeq; cbn;
    (split; [lia | split; [lia | split; intros H; (lia || discriminate H)]]).
Qed.

(** X3.  Starting from the empty log, the progress that a run reports lies
    between 0 and 100, and it is 100 exactly when every step has completed:
    the six requests, and the success callback when there is one. *)
Theorem useCreateRc_progress_within_bounds
    (env : Env) (defaultBranch : string)
    (latestRelease : option LatestRelease) (nextGitHubInfo : RcGitHubInfo)
    (project : Project) (successCb : option SuccessCb) (user : User)
    (w : World) (hook : CardHook) :
  let run :=
    useCreateRc env defaultBranch latestRelease nextGitHubInfo project
                successCb user in
  responseSteps w = [] ->
  fst (run w) = Resolved hook ->
  (0 <= progress hook)%Q
  /\ (progress hook <= 100)%Q
  /\ ((progress hook == 100)%Q
      <-> completed (issued run w) = TOTAL_STEPS successCb).
Proof.
  intros run Hlog Hhook.
  apply CreateRcProperties.useCreateRc_progress in Hhook. rewrite Hhook.
  destruct (CreateRcProperties.useCreateRc_appends
              env defaultBranch latestRelease nextGitHubInfo project
              successCb user w) as (added & Hadded & Hlen).
  fold run in Hadded, Hlen |- *.
  unfold progressOf. rewrite Hadded, Hlog. cbn [app]. rewrite Hlen.
  apply percentage_bounds.
  - destruct successCb; cbn; auto.
  - apply completed_within_total.
Qed.

Lemma useCreateRc_progress_within_bounds_witness :
  responseSteps newWorld = []
  /\ exists hook,
       fst (useCreateRc obliging "main" (Some rc123) next130 octoApp
                        (Some created) octocat newWorld) = Resolved hook
       /\ (progress hook <= 100)%Q.
Proof.
  split; [reflexivity|].
  pose proof (useCreateRc_progress_within_bounds
                obliging "main" (Some rc123) next130 octoApp (Some created)
                octocat newWorld) as Hbounds.
  cbv zeta in Hbounds.
  destruct (fst (useCreateRc obliging "main" (Some rc123) next130 octoApp
                             (Some created) octocat newWorld))
    as [hook|e] eqn:Hhook.
  - exists hook. split; [reflexivity|].
    apply (Hbounds hook eq_refl eq_refl).
  - vm_compute in Hhook. discriminate Hhook.
Defined.

(** X4.  When the creation of the release branch is rejected with anything
    but the message "Reference already exists", the error is surfaced as the
    server gave it, nothing is sent afterwards, and every later step ends
    with that error. *)
Theorem useCreateRc_other_branch_error_verbatim
    (env : Env) (defaultBranch : string)
    (latestRelease : option LatestRelease) (nextGitHubInfo : RcGitHubInfo)
    (project : Project) (successCb : option SuccessCb) (user : User)
    (w : World) (commit : CommitData) (failure : JsError) :
  authorized env ->
  info_error nextGitHubInfo = None ->
  let run :=
    useCreateRc env defaultBranch latestRelease nextGitHubInfo project
                successCb user in
  let r1 := fetchLatestCommit env defaultBranch project in
  let r2 := createBranch nextGitHubInfo project commit in
  github env (trace w) r1 = Resolved commit ->
  github env (trace w ++ [Sent r1 true])%list r2 = Rejected failure ->
  error_body_message failure <> Some "Reference already exists" ->
  issued run w = [Sent r1 true; Sent r2 false]
  /\ exists hook,
       fst (run w) = Resolved hook
       /\ releaseBranchRes hook = failedWith failure
       /\ tagObjectRes hook = failedWith failure
       /\ createRcRes hook = failedWith failure
       /\ getComparisonRes hook = failedWith failure
       /\ createReleaseRes hook = failedWith failure.
Proof.
  intros Hauth Hinfo run r1 r2 H1 H2 Hmsg.
  assert (Hm : body_message_is failure "Reference already exists" = false).
  { unfold body_message_is.
    destruct (error_body_message failure) as [m|]; [|reflexivity].
    destruct (String.eqb m "Reference already exists") eqn:E; [|reflexivity].
    apply String.eqb_eq in E. subst m. contradiction. }
  cbv beta zeta delta [r1 r2 fetchLatestCommit createBranch] in *.
  clear r1 r2.
  unfold run, issued, useCreateRc. rewrite Hinfo.
  destruct successCb as [cb|]; run_hook;
    proceed Hauth H1; proceed Hauth H2; rewrite Hm; tidy;
    flatten_trace; rewrite skipn_length_app;
    (split; [reflexivity|]); eexists; repeat split.
Qed.

Lemma useCreateRc_other_branch_error_verbatim_witness :
  authorized FailingServers.readOnly
  /\ issued (useCreateRc FailingServers.readOnly "main" (Some rc123) next130
                         octoApp (Some created) octocat) newWorld
     = [Sent (ReposGetCommit "octo" "app" "main"
                             [("If-None-Match", EmptyString)]) true;
        Sent (GitCreateRef "octo" "app" "refs/heads/rc/1.3.0" "c0ffee")
             false].
Proof.
  assert (Hauth : authorized FailingServers.readOnly)
    by (intros h; reflexivity).
  split; [exact Hauth|].
  refine (proj1
    (useCreateRc_other_branch_error_verbatim
       FailingServers.readOnly "main" (Some rc123) next130 octoApp
       (Some created) octocat newWorld someCommit
       (RequestError 403 "Forbidden") Hauth eq_refl eq_refl eq_refl _)).
  discriminate.
Defined.

End CreateRcFurther.

(** ** Without a token, and promotion continued *)

Module ClientFurther.
Import PluginApiClient CreateRc Stats Examples MoreExamples.

(** X5.  When the access token cannot be obtained, no request leaves the
    browser: [getRepositories], [getLatestRelease], [getTagDate] (whose
    fallback asks for the token again) and [promoteRc] reject with the error
    of the token and leave the world as it is, the success callback of the
    promotion is not invoked, and every step of the release-candidate flow
    ends with that error. *)
Theorem nothing_is_sent_without_token
    (env : Env) (w : World) (denied : JsError) :
  getAccessToken env (trace w) = Rejected denied ->
  (forall ownerName, getRepositories env ownerName w = (Rejected denied, w))
  /\ (forall ownerName repoName,
        getLatestRelease env ownerName repoName w = (Rejected denied, w))
  /\ (forall project tagSha,
        getTagDate env project tagSha w = (Rejected denied, w))
  /\ (forall project rcRelease releaseVersion successCb,
        PromoteRc.promoteRc env project rcRelease releaseVersion successCb w
        = (Rejected denied, w))
  /\ (forall defaultBranch latestRelease nextGitHubInfo project successCb
             user,
        info_error nextGitHubInfo = None ->
        let run :=
          useCreateRc env defaultBranch latestRelease nextGitHubInfo project
                      successCb user in
        snd (run w) = w
        /\ exists hook,
             fst (run w) = Resolved hook
             /\ latestCommitRes hook = failedWith denied
             /\ releaseBranchRes hook = failedWith denied
             /\ tagObjectRes hook = failedWith denied
             /\ createRcRes hook = failedWith denied
             /\ getComparisonRes hook = failedWith denied
             /\ createReleaseRes hook = failedWith denied).
Proof.
  intros Hdenied. repeat split.
  - unfold getRepositories. run_async. answered Hdenied. reflexivity.
  - unfold getLatestRelease. run_async. answered Hdenied. reflexivity.
  - unfold getTagDate. run_async. answered Hdenied. answered Hdenied.
    reflexivity.
  - unfold PromoteRc.promoteRc. run_async. answered Hdenied. reflexivity.
  - unfold run, useCreateRc. rewrite H.
    destruct successCb; run_hook; answered Hdenied; reflexivity.
  - unfold run, useCreateRc. rewrite H.
    destruct successCb; run_hook; answered Hdenied;
      eexists; repeat split.
Qed.

Lemma nothing_is_sent_without_token_witness :
  getAccessToken signedOut (trace newWorld) = Rejected expired
  /\ getRepositories signedOut "octo" newWorld = (Rejected expired, newWorld).
Proof.
  split; [reflexivity|].
  exact (proj1 (nothing_is_sent_without_token signedOut newWorld expired
                  eq_refl) "octo").
Defined.



End ClientFurther.

(** ** What is rendered, continued *)

Module RenderFurther.
Import PluginApiClient Render Examples.

Lemma In_when c (e x : Element) : In x (when c e) <-> c = true /\ x = e.
Proof.
  destruct c; simpl; split.
  - intros [<-|[]]. auto.
  - intros [_ ->]. auto.
  - intros [].
  - intros [H _]. discriminate H.
Qed.

Lemma falsy_true_iff (omit : option bool) :
  falsy omit = true <-> omit <> Some true.
Proof. destruct omit as [[|]|]; simpl; split; congruence. Qed.

(** X7.  [Features] renders a card, be it the info card or an action card,
    only when the batch info is fetched without error, the user may push
    and the check of the tag name reports no error; in every other case it
    renders a single element, an alert or the progress wheel.  When these
    checks pass, each card is rendered exactly when its feature is not
    omitted, whether or not there is a release or a release branch and
    whatever the hook says about the versioning strategy. *)
Theorem Features_cards_only_when_all_checks_pass
    (useVersioningStrategyMatchesRepoTags :
       option string -> Project -> option string -> bool)
    (validateTagName : Project -> option string -> option CreateRc.AlertError)
    (config : FeaturesConfig) (project : Project)
    (batchInfo : AsyncState GitBatchInfo) :
  let features :=
    Features useVersioningStrategyMatchesRepoTags validateTagName config
             project batchInfo in
  let passed :=
    error batchInfo = None /\ loading batchInfo = false
    /\ exists v,
         value batchInfo = Some v
         /\ pushPermissions (repository v) = Some true
         /\ validateTagName project (option_map tagName (latestRelease v))
            = None in
  (existsb isCard features = true -> passed)
  /\ (~ passed -> length features = 1)
  /\ (passed ->
      (renders features CreateReleaseCandidate
       <-> createRc_omit config <> Some true)
      /\ (renders features PromoteRc <-> promoteRc_omit config <> Some true)
      /\ (renders features Patch <-> patch_omit config <> Some true)
      /\ ((exists statsEnabled, renders features (Info statsEnabled))
          <-> info_omit config <> Some true)).
Proof.
  intros features passed. unfold features, passed, Features, renders.
  destruct (error batchInfo) as [e|].
  { split; [discriminate|]. split; [reflexivity|].
    intros (H & _). discriminate H. }
  destruct (loading batchInfo).
  { split; [discriminate|]. split; [reflexivity|].
    intros (_ & H & _). discriminate H. }
  destruct (value batchInfo) as [v|].
  2:{ split; [discriminate|]. split; [reflexivity|].
      intros (_ & _ & v & H & _). discriminate H. }
  destruct (pushPermissions (repository v)) as [[|]|] eqn:Hpush;
    cbn [falsy].
  2,3: split; [discriminate|]; split; [reflexivity|];
    intros (_ & _ & v' & Hv & H & _); inversion Hv; subst v';
    rewrite Hpush in H; discriminate H.
  destruct (validateTagName project (option_map tagName (latestRelease v)))
    as [tagNameError|] eqn:Hvalid.
  { split; [discriminate|]. split; [reflexivity|].
    intros (_ & _ & v' & Hv & _ & H). inversion Hv; subst v'.
    rewrite Hvalid in H. discriminate H. }
  assert (Hpassed :
    @None JsError = None /\ false = false
    /\ exists v' : GitBatchInfo,
         Some v = Some v'
         /\ pushPermissions (repository v') = Some true
         /\ validateTagName project (option_map tagName (latestRelease v'))
            = None) by (repeat split; eauto).
  split; [auto|]. split; [intros Hnot; contradiction|].
  intros _.
  rewrite <- !falsy_true_iff.
  destruct (latestRelease v) as [r|]; cbn [negb isSome when];
    rewrite ?in_app_iff, ?In_when; cbn [In app].
  all: repeat split;
    try solve [intuition congruence];
    try solve [intros (statsEnabled & H); rewrite ?in_app_iff, ?In_when in H;
               cbn [In] in H; intuition congruence];
    intros Hinfo; eexists; rewrite ?in_app_iff, ?In_when; cbn [In];
    rewrite Hinfo; intuition eauto.
Qed.

Lemma Features_cards_only_when_all_checks_pass_witness :
  renders (Features reportsMismatch acceptsTagName allFeatures octoApp
                    fetched)
          PromoteRc.
Proof.
  apply (proj2 (proj1 (proj2 (proj2 (proj2
    (Features_cards_only_when_all_checks_pass
       reportsMismatch acceptsTagName allFeatures octoApp fetched))
    (conj eq_refl (conj eq_refl
       (ex_intro _ _ (conj eq_refl (conj eq_refl eq_refl))))))))).
  discriminate.
Defined.

(** X8.  The older [Cards] renders a card only when the batch info is
    fetched without error, the user may push and the hook reports that the
    tag fits the versioning strategy; in every other case it renders a
    single element.  When these checks pass, the info card is always
    rendered, first, and each action card exactly when it is not omitted. *)
Theorem Cards_only_when_all_checks_pass
    (useVersioningStrategyMatchesRepoTags :
       option string -> Project -> option string -> bool)
    (config : FeaturesConfig) (project : Project)
    (batchInfo : AsyncState GitBatchInfo) :
  let cards :=
    Cards useVersioningStrategyMatchesRepoTags config project batchInfo in
  let passed :=
    error batchInfo = None /\ loading batchInfo = false
    /\ exists v,
         value batchInfo = Some v
         /\ pushPermissions (repository v) = Some true
         /\ useVersioningStrategyMatchesRepoTags
              (option_map tagName (latestRelease v)) project
              (Some (repository_name (repository v)))
            = true in
  (existsb isCard cards = true -> passed)
  /\ (~ passed -> length cards = 1)
  /\ (passed ->
      hd_error cards = Some (Info None)
      /\ (renders cards CreateReleaseCandidate
          <-> createRc_omit config <> Some true)
      /\ (renders cards PromoteRc <-> promoteRc_omit config <> Some true)
      /\ (renders cards Patch <-> patch_omit config <> Some true)).
Proof.
  intros cards passed. unfold cards, passed, Cards, renders.
  destruct (error batchInfo) as [e|].
  { split; [discriminate|]. split; [reflexivity|].
    intros (H & _). discriminate H. }
  destruct (loading batchInfo).
  { split; [discriminate|]. split; [reflexivity|].
    intros (_ & H & _). discriminate H. }
  destruct (value batchInfo) as [v|].
  2:{ split; [discriminate|]. split; [reflexivity|].
      intros (_ & _ & v & H & _). discriminate H. }
  cbn [option_map].
  destruct (pushPermissions (repository v)) as [[|]|] eqn:Hpush;
    cbn [falsy].
  2,3: split; [discriminate|]; split; [reflexivity|];
    intros (_ & _ & v' & Hv & H & _); inversion Hv; subst v';
    rewrite Hpush in H; discriminate H.
  destruct (useVersioningStrategyMatchesRepoTags
              (option_map tagName (latestRelease v)) project
              (Some (repository_name (repository v)))) eqn:Hmatch;
    cbn [negb].
  2:{ split; [discriminate|]. split; [reflexivity|].
      intros (_ & _ & v' & Hv & _ & H). inversion Hv; subst v'.
      rewrite Hmatch in H. discriminate H. }
  assert (Hpassed :
    @None JsError = None /\ false = false
    /\ exists v' : GitBatchInfo,
         Some v = Some v'
         /\ pushPermissions (repository v') = Some true
         /\ useVersioningStrategyMatchesRepoTags
              (option_map tagName (latestRelease v')) project
              (Some (repository_name (repository v')))
            = true) by (repeat split; eauto).
  split; [auto|]. split; [intros Hnot; contradiction|].
  intros _. split; [reflexivity|].
  change not_true with falsy.
  rewrite <- !falsy_true_iff.
  cbn [In]. rewrite ?in_app_iff, ?In_when.
  repeat split; intuition congruence.
Qed.

Lemma Cards_only_when_all_checks_pass_witness :
  hd_error (Cards (fun _ _ _ => true) allFeatures octoApp fetched)
  = Some (Info None).
Proof.
  apply (proj2 (proj2
    (Cards_only_when_all_checks_pass
       (fun _ _ _ => true) allFeatures octoApp fetched))
    (conj eq_refl (conj eq_refl
       (ex_intro _ _ (conj eq_refl (conj eq_refl eq_refl)))))).
Defined.

End RenderFurther.

(** ** Release times *)

Module ReleaseTimeProperties.
Import PluginApiClient Stats StatsHooks Examples StatsExamples.

Lemma hd_error_rev_iff {A} (l : list A) (x : A) :
  hd_error (rev l) = Some x <-> exists front, l = (front ++ [x])%list.
Proof.
  split.
  - intros H. destruct (rev l) as [|y rest] eqn:E; [discriminate|].
    injection H as ->. exists (rev rest).
    rewrite <- (rev_involutive l), E. reflexivity.
  - intros (front & ->). rewrite rev_app_distr. reflexivity.
Qed.

(** X9.  Once both dates have settled and the date of the release cut came
    without error, [ReleaseTime] shows its three lines, and the headline
    reads "Ongoing: -1 days" exactly when one of the two dates is missing
    or empty, or when the two dates are a day apart the wrong way round
    (a difference of -1); an error of the date of the version tag is not
    shown: the release reads as ongoing. *)
Theorem ReleaseTime_ongoing_iff_date_missing_or_minus_one
    (diffDays : string -> string -> Z) (toFormat : string -> string)
    (releaseStat : ReleaseStat)
    (releaseCut releaseComplete : AsyncState TagDate) :
  loading releaseCut = false ->
  loading releaseComplete = false ->
  error releaseCut = None ->
  exists completed headline created,
    ReleaseTime diffDays toFormat releaseStat releaseCut releaseComplete
    = Lines completed headline created
    /\ (headline = "Ongoing: -1 days"
        <-> truthyDate releaseCut = None
            \/ truthyDate releaseComplete = None
            \/ exists cut complete,
                 truthyDate releaseCut = Some cut
                 /\ truthyDate releaseComplete = Some complete
                 /\ diffDays cut complete = (-1)%Z)
    /\ (value releaseComplete = None -> headline = "Ongoing: -1 days").
Proof.
  intros Hcut Hcomplete Herror.
  unfold ReleaseTime, diff_days. rewrite Hcut, Hcomplete, Herror.
  cbn [orb].
  do 3 eexists. split; [reflexivity|].
  assert (Hnone : truthyDate releaseComplete = None
                  \/ value releaseComplete <> None).
  { unfold truthyDate. destruct (value releaseComplete); [right|left];
      congruence. }
  split.
  - destruct (truthyDate releaseCut) as [cut|];
      [destruct (truthyDate releaseComplete) as [complete|]|].
    + destruct (Z.eqb (diffDays cut complete) (-1)) eqn:E.
      * apply Z.eqb_eq in E. rewrite E. split; [|reflexivity].
        intros _. right. right. eauto.
      * apply Z.eqb_neq in E. split; [discriminate|].
        intros [H|[H|(c & c' & Hc & Hc' & Hd)]]; try discriminate.
        inversion Hc; inversion Hc'; subst. contradiction.
    + split; [auto | reflexivity].
    + split; [auto | reflexivity].
  - intros Hvalue.
    assert (Hdate : truthyDate releaseComplete = None)
      by (unfold truthyDate; rewrite Hvalue; reflexivity).
    rewrite Hdate. destruct (truthyDate releaseCut); reflexivity.
Qed.

Lemma ReleaseTime_ongoing_iff_date_missing_or_minus_one_witness :
  exists completed headline created,
    ReleaseTime threeDaysApart (fun d => d) justCut
                (settledOn "2021-03-03") (failedWith serverError)
    = Lines completed headline created
    /\ headline = "Ongoing: -1 days".
Proof.
  destruct (ReleaseTime_ongoing_iff_date_missing_or_minus_one
              threeDaysApart (fun d => d) justCut (settledOn "2021-03-03")
              (failedWith serverError) eq_refl eq_refl eq_refl)
    as (completed & headline & created & Hlines & _ & Hongoing).
  exists completed, headline, created. split; [exact Hlines|].
  apply Hongoing. reflexivity.
Defined.

(** X10.  The date of the release cut is asked for the last candidate
    listed, and the date of completion for the first version listed.  For a
    release without candidates [useGetTagDate] sends nothing and
    [ReleaseTime] shows the alert with "Missing tag details to get tag
    date"; for a release without versions it sends nothing either, the
    missing tag is not reported, and the release reads as ongoing with "-"
    for its completion. *)
Theorem ReleaseTime_without_tags
    (env : Env) (project : Project)
    (diffDays : string -> string -> Z) (toFormat : string -> string)
    (releaseStat : ReleaseStat) (w : World) :
  (forall tag,
      firstCandidateTag releaseStat = Some tag
      <-> exists newer, candidates releaseStat = (newer ++ [tag])%list)
  /\ (forall tag,
        mostRecentVersionTag releaseStat = Some tag
        <-> exists older, versions releaseStat = tag :: older)
  /\ (candidates releaseStat = [] ->
      snd (useGetTagDate env project (firstCandidateTag releaseStat) w) = w
      /\ forall releaseComplete,
           loading releaseComplete = false ->
           ReleaseTime diffDays toFormat releaseStat
             (fst (useGetTagDate env project (firstCandidateTag releaseStat)
                                 w))
             releaseComplete
           = CutFailed
               "Failed to fetch the first Release Candidate commit (Missing tag details to get tag date)")
  /\ (versions releaseStat = [] ->
      snd (useGetTagDate env project (mostRecentVersionTag releaseStat) w) = w
      /\ forall releaseCut,
           loading releaseCut = false ->
           error releaseCut = None ->
           ReleaseTime diffDays toFormat releaseStat releaseCut
             (fst (useGetTagDate env project
                                 (mostRecentVersionTag releaseStat) w))
           = Lines "-" "Ongoing: -1 days"
                   ("Release Candidate created "
                      ++ renderedDate toFormat releaseCut)).
Proof.
  split; [|split; [|split]].
  - intros tag. apply hd_error_rev_iff.
  - intros tag. unfold mostRecentVersionTag.
    destruct (versions releaseStat) as [|first older]; simpl; split.
    + discriminate.
    + intros (older & H). discriminate H.
    + intros H. injection H as ->. eauto.
    + intros (older' & H). injection H as -> _. reflexivity.
  - intros Hnone. unfold firstCandidateTag. rewrite Hnone.
    split; [reflexivity|].
    intros releaseComplete Hloading.
    unfold ReleaseTime. cbn [rev hd_error useGetTagDate useAsync throw fst
                             loading error orb].
    rewrite Hloading. reflexivity.
  - intros Hnone. unfold mostRecentVersionTag. rewrite Hnone.
    split; [reflexivity|].
    intros releaseCut Hloading Herror.
    unfold ReleaseTime, diff_days, renderedDate.
    rewrite Hnone, Hloading, Herror.
    cbn [hd_error useGetTagDate useAsync throw fst loading error orb
         truthyDate value length Nat.eqb].
    destruct (truthyDate releaseCut); reflexivity.
Qed.

Lemma ReleaseTime_without_tags_witness :
  ReleaseTime threeDaysApart (fun d => d) justCut (settledOn "2021-03-03")
    (fst (useGetTagDate obliging octoApp (mostRecentVersionTag justCut)
                        newWorld))
  = Lines "-" "Ongoing: -1 days" "Release Candidate created 2021-03-03".
Proof.
  exact (proj2 (proj2 (proj2 (proj2
    (ReleaseTime_without_tags obliging octoApp threeDaysApart (fun d => d)
                              justCut newWorld))) eq_refl)
    (settledOn "2021-03-03") eq_refl eq_refl).
Defined.

End ReleaseTimeProperties.

(** ** The read-only calls *)

Module ReadsProperties.
Import PluginApiClient Reads Render Examples ReadExamples.

Lemma prefix_app (p s : string) : String.prefix p (p ++ s) = true.
Proof.
  induction p as [|c p IH]; simpl.
  - destruct s; reflexivity.
  - destruct (ascii_dec c c) as [_|Hne]; [exact IH | contradiction].
Qed.

Lemma slice_app (p s : string) : slice (string_length p) (p ++ s) = s.
Proof. induction p as [|c p IH]; simpl; [destruct s; reflexivity | exact IH]. Qed.

Lemma replace_eq (p r s : string) :
  replace p r s
  = if String.prefix p s then r ++ slice (string_length p) s
    else match s with
         | EmptyString => EmptyString
         | String c rest => String c (replace p r rest)
         end.
Proof. destruct s; reflexivity. Qed.

Lemma replace_leading (p s : string) : replace p EmptyString (p ++ s) = s.
Proof. rewrite replace_eq, prefix_app, slice_app. reflexivity. Qed.

(** X11.  A tag is listed under the name it was created with:
    [createReference] sends the reference "refs/tags/" followed by the tag
    name, and [getAllTags] lists each reference of that form under the name
    that follows the first "refs/tags/", also when the name itself contains
    "refs/tags/", with the sha and the type of its object. *)
Theorem created_tag_is_listed_under_its_name
    (env : Env) (renv : ReadEnv) (ownerName repoName : string) (w : World)
    (token : string) (refs : list MatchingRef) :
  authorized env ->
  read_getAccessToken renv = Resolved token ->
  let listing :=
    PaginateGitListMatchingRefs ownerName repoName "tags" 100
                                (read_DISABLE_CACHE renv) in
  read_github renv listing = Resolved refs ->
  (forall tagName tagSha,
      requests (issued (createReference env ownerName repoName tagName tagSha)
                       w)
      = [GitCreateRef ownerName repoName ("refs/tags/" ++ tagName) tagSha])
  /\ exists tags,
       getAllTags renv ownerName repoName = (Resolved tags, [listing])
       /\ length tags = length refs
       /\ forall i ref tagName,
            nth_error refs i = Some ref ->
            matching_ref ref = "refs/tags/" ++ tagName ->
            nth_error tags i
            = Some {| listed_tagName := tagName;
                      listed_sha := matching_object_sha ref;
                      listed_type := matching_object_type ref |}.
Proof.
  intros Hauth Htoken listing Hrefs. split.
  - intros tagName tagSha.
    destruct (authorized_token env (trace w) Hauth) as [tok Htok].
    unfold issued, createReference. run_async. answered Htok.
    settle; rewrite skipn_length_app; reflexivity.
  - unfold getAllTags, read_bind, read_getOctokit, ask, read_ret.
    rewrite Htoken. fold listing. rewrite Hrefs.
    eexists. split; [reflexivity|]. split; [apply length_map|].
    intros i ref tagName Hi Href.
    rewrite nth_error_map, Hi. cbn [option_map].
    rewrite Href, (replace_leading "refs/tags/" tagName). reflexivity.
Qed.

Lemma created_tag_is_listed_under_its_name_witness :
  authorized obliging
  /\ exists tags,
       getAllTags twoTags "octo" "app"
       = (Resolved tags,
          [PaginateGitListMatchingRefs "octo" "app" "tags" 100
             [("If-None-Match", EmptyString)]])
       /\ map listed_tagName tags = ["rc-1.3.0"; "refs/tags/odd"].
Proof.
  assert (Hauth : authorized obliging) by (intros h; reflexivity).
  split; [exact Hauth|].
  destruct (proj2 (created_tag_is_listed_under_its_name
                     obliging twoTags "octo" "app" newWorld "gho_token" _
                     Hauth eq_refl eq_refl))
    as (tags & Htags & _ & _).
  exists tags. split; [exact Htags|].
  injection Htags as <-. reflexivity.
Defined.

Lemma truthy_false_iff (name : option string) :
  (if truthy name then name else None) = None
  <-> name = None \/ name = Some EmptyString.
Proof.
  destruct name as [s|]; simpl; [|tauto].
  destruct (String.eqb s EmptyString) eqn:E; simpl.
  - apply String.eqb_eq in E. subst s. tauto.
  - apply String.eqb_neq in E. split; [discriminate|].
    intros [H|H]; [discriminate H|]. injection H as ->. contradiction.
Qed.

(** X12.  [getRecentCommits] asks for the commits of the release branch it
    is given, and for those of the default branch (no [sha] in the request)
    when the name is missing or empty.  It returns one commit for each item
    of the answer, in order, whose first parent is missing exactly when the
    item has no parents; for such a commit, a root commit, the temporary
    commit of the patch is created with the empty string as its only
    parent. *)
Theorem getRecentCommits_branch_and_first_parent
    (renv : ReadEnv) (env : Env) (ownerName repoName : string)
    (releaseBranchName : option string) (token : string)
    (items : list CommitItem) (tagParts : TagParts)
    (releaseBranchTree : string) (w : World) :
  read_getAccessToken renv = Resolved token ->
  authorized env ->
  let branch :=
    if truthy releaseBranchName then releaseBranchName else None in
  let listing :=
    ReposListCommits ownerName repoName branch (read_DISABLE_CACHE renv) in
  read_github renv listing = Resolved items ->
  (branch = None
   <-> releaseBranchName = None \/ releaseBranchName = Some EmptyString)
  /\ exists commits,
       getRecentCommits renv ownerName repoName releaseBranchName
       = (Resolved commits, [listing])
       /\ length commits = length items
       /\ forall i item,
            nth_error items i = Some item ->
            exists commit,
              nth_error commits i = Some commit
              /\ recent_sha (listed commit) = item_sha item
              /\ (firstParentSha (listed commit) = None
                  <-> item_parents item = None \/ item_parents item = Some [])
              /\ (firstParentSha (listed commit) = None ->
                  requests
                    (issued (patch.createTempCommit env ownerName repoName
                               tagParts releaseBranchTree (listed commit)) w)
                  = [GitCreateCommit ownerName repoName
                       ("Temporary commit for patch "
                          ++ string_of_nat (patch tagParts))
                       releaseBranchTree [EmptyString]]).
Proof.
  intros Htoken Hauth branch listing Hitems.
  split; [apply truthy_false_iff|].
  unfold getRecentCommits, read_bind, read_getOctokit, ask, read_ret.
  rewrite Htoken. fold branch. fold listing. rewrite Hitems.
  eexists. split; [reflexivity|]. split; [apply length_map|].
  intros i item Hi. rewrite nth_error_map, Hi. cbn [option_map].
  eexists. split; [reflexivity|]. cbn [listed recent_sha firstParentSha].
  split; [reflexivity|]. split.
  - destruct (item_parents item) as [[|parent rest]|]; split;
      try tauto; try discriminate.
    intros [H|H]; discriminate H.
  - intros Hroot.
    destruct (authorized_token env (trace w) Hauth) as [tok Htok].
    unfold issued, patch.createTempCommit. run_async. answered Htok.
    cbn [firstParentSha]. rewrite Hroot. cbn [nullish].
    settle; rewrite skipn_length_app; reflexivity.
Qed.

Lemma getRecentCommits_branch_and_first_parent_witness :
  authorized obliging
  /\ exists commits,
       getRecentCommits twoTags "octo" "app" (Some EmptyString)
       = (Resolved commits,
          [ReposListCommits "octo" "app" None
                            [("If-None-Match", EmptyString)]])
       /\ length commits = 1.
Proof.
  assert (Hauth : authorized obliging) by (intros h; reflexivity).
  split; [exact Hauth|].
  destruct (proj2 (getRecentCommits_branch_and_first_parent
                     twoTags obliging "octo" "app" (Some EmptyString)
                     "gho_token" _ {| patch := 1 |} "7e0" newWorld
                     eq_refl Hauth eq_refl))
    as (commits & Hcommits & Hlength & _).
  exists commits. split; [exact Hcommits | exact Hlength].
Defined.

(** X13.  When the repository comes without permissions, or with a push
    permission that is false, [getRepository] returns push permissions
    that are not true, and with such a repository in the batch info both
    [Features] and the older [Cards] render the lack-of-push-permission
    alert and nothing else, whatever the release, the branch and the
    validators. *)
Theorem no_push_permission_blocks_the_page
    (renv : ReadEnv) (ownerName repoName : string) (token : string)
    (data : RepositoryData)
    (useVersioningStrategyMatchesRepoTags :
       option string -> Project -> option string -> bool)
    (validateTagName : Project -> option string -> option CreateRc.AlertError)
    (config : FeaturesConfig) (project : Project) :
  read_getAccessToken renv = Resolved token ->
  read_github renv (ReposGet ownerName repoName (read_DISABLE_CACHE renv))
  = Resolved data ->
  option_map push (repository_permissions data) <> Some true ->
  exists fetched,
    getRepository renv ownerName repoName
    = (Resolved fetched,
       [ReposGet ownerName repoName (read_DISABLE_CACHE renv)])
    /\ forall latest branch,
         let batchInfo :=
           {| loading := false;
              value := Some {| latestRelease := latest;
                               releaseBranch := branch;
                               repository := fetched |};
              error := None |} in
         Features useVersioningStrategyMatchesRepoTags validateTagName config
                  project batchInfo
         = [lacksPushPermissions project]
         /\ Cards useVersioningStrategyMatchesRepoTags config project
                  batchInfo
            = [lacksPushPermissions project].
Proof.
  intros Htoken Hdata Hpush.
  unfold getRepository, read_bind, read_getOctokit, ask, read_ret.
  rewrite Htoken, Hdata.
  eexists. split; [reflexivity|].
  intros latest branch.
  unfold Features, Cards.
  cbn [error loading value repository pushPermissions].
  assert (Hfalsy :
    falsy (option_map push (repository_permissions data)) = true).
  { destruct (option_map push (repository_permissions data)) as [[|]|];
      [contradiction|reflexivity|reflexivity]. }
  rewrite Hfalsy. split; reflexivity.
Qed.

Lemma no_push_permission_blocks_the_page_witness :
  exists fetched,
    getRepository twoTags "octo" "app"
    = (Resolved fetched, [ReposGet "octo" "app"
                                   [("If-None-Match", EmptyString)]])
    /\ Features reportsMismatch acceptsTagName allFeatures octoApp
                {| loading := false;
                   value := Some {| latestRelease := Some rc123;
                                    releaseBranch := None;
                                    repository := fetched |};
                   error := None |}
       = [lacksPushPermissions octoApp].
Proof.
  destruct (no_push_permission_blocks_the_page
              twoTags "octo" "app" "gho_token" _ reportsMismatch
              acceptsTagName allFeatures octoApp eq_refl eq_refl)
    as (fetched & Hfetched & Hblocked).
  - discriminate.
  - exists fetched. split; [exact Hfetched|].
    exact (proj1 (Hblocked (Some rc123) None)).
Defined.

End ReadsProperties.

(** ** The patch calls of the client *)

Module PatchClientProperties.
Import PluginApiClient Examples.



End PatchClientProperties.

(** ** The configuration of the client, continued *)

Module ConfigFurther.
Import PluginApiClient Examples ConfigExamples.

(** X15.  The host of the client is always "github.com" or a host that
    starts with "ghe.": an integration under any other host name is never
    used, and when it is the only one the client falls back to github.com
    and "https://api.github.com".  The config chosen is the first of its
    kind in the list.  When the enterprise config chosen does not give its
    API base URL, the client keeps the enterprise host but takes
    "https://api.github.com" as the base URL of its requests. *)
Theorem client_host_is_github_or_enterprise
    (configs : list GitHubIntegrationConfig) :
  (host (constructor configs) = "github.com"
   \/ String.prefix "ghe." (host (constructor configs)) = true)
  /\ (forall before chosen after,
        configs = (before ++ chosen :: after)%list ->
        (forall c, In c before ->
                   String.prefix "ghe." (config_host c) = false) ->
        String.prefix "ghe." (config_host chosen) = true ->
        getGithubIntegrationConfig configs = Some chosen
        /\ host (constructor configs) = config_host chosen
        /\ (config_apiBaseUrl chosen = None ->
            baseUrl (constructor configs) = "https://api.github.com"))
  /\ ((forall c, In c configs ->
         String.prefix "ghe." (config_host c) = false
         /\ config_host c <> "github.com") ->
      constructor configs
      = {| host := "github.com"; baseUrl := "https://api.github.com" |}).
Proof.
  split; [|split].
  - unfold constructor, getGithubIntegrationConfig.
    destruct (find (fun v => String.prefix "ghe." (config_host v)) configs)
      as [c|] eqn:Hghe.
    + apply find_some in Hghe. right. exact (proj2 Hghe).
    + destruct (find (fun v => String.eqb (config_host v) "github.com")
                     configs) as [c|] eqn:Hcom.
      * apply find_some in Hcom. left. apply String.eqb_eq, (proj2 Hcom).
      * left. reflexivity.
  - intros before chosen after -> Hbefore Hchosen.
    assert (Hfind :
      find (fun v => String.prefix "ghe." (config_host v))
           (before ++ chosen :: after) = Some chosen).
    { induction before as [|b before IH]; simpl.
      - rewrite Hchosen. reflexivity.
      - rewrite (Hbefore b (or_introl eq_refl)). apply IH.
        intros c Hc. apply Hbefore. now right. }
    unfold constructor, getGithubIntegrationConfig. rewrite Hfind.
    repeat split. intros ->. reflexivity.
  - intros Hother.
    unfold constructor, getGithubIntegrationConfig.
    replace (find (fun v => String.prefix "ghe." (config_host v)) configs)
      with (@None GitHubIntegrationConfig)
      by (symmetry; apply ClientProperties.find_none_iff; intros x Hx;
          apply Hother, Hx).
    replace (find (fun v => String.eqb (config_host v) "github.com") configs)
      with (@None GitHubIntegrationConfig); [reflexivity|].
    symmetry. apply ClientProperties.find_none_iff. intros x Hx.
    apply String.eqb_neq, Hother, Hx.
Qed.

Lemma client_host_is_github_or_enterprise_witness :
  constructor [otherEnterprise]
  = {| host := "github.com"; baseUrl := "https://api.github.com" |}
  /\ baseUrl (constructor [githubCom; bareEnterprise])
     = "https://api.github.com"
  /\ host (constructor [githubCom; bareEnterprise]) = "ghe.example.net".
Proof.
  split.
  - apply (proj2 (proj2 (client_host_is_github_or_enterprise
                           [otherEnterprise]))).
    intros c [<-|[]]. split; [reflexivity | discriminate].
  - destruct (proj1 (proj2 (client_host_is_github_or_enterprise
                              [githubCom; bareEnterprise]))
                [githubCom] bareEnterprise [] eq_refl)
      as (_ & Hhost & Hbase).
    + intros c [<-|[]]. reflexivity.
    + reflexivity.
    + split; [exact (Hbase eq_refl) | exact Hhost].
Defined.

End ConfigFurther.
